(** * FZEasyMarauderFlash: the flash orchestration of ESP32Flasher.py and
    FirmwareManager.py, embedded as state-passing functions.

    The Python object [self], the file system below the working directory and
    the log of every observable action (prints, sleeps, prompts, calls into
    esptool, pyserial, requests and git) form the [World].  The external
    collaborators answer through an [Env] of oracles, indexed by how often each
    one has been called so far. *)

From Stdlib Require Import ZArith List String Ascii Bool Lia DecimalString.
Import ListNotations.
Open Scope string_scope.
Open Scope Z_scope.

(** ** Python strings *)

Module PyString.

(** [bool(s)]: a string is truthy when it is not empty. *)
Definition truthy (s : string) : bool :=
  match s with EmptyString => false | String _ _ => true end.

(** [needle in hay] on strings: substring test. *)
Fixpoint contains (needle hay : string) : bool :=
  if String.prefix needle hay then true
  else match hay with
       | EmptyString => false
       | String _ rest => contains needle rest
       end.

(** [s.split(sep)] for a one-character separator. *)
Fixpoint split_on (sep : ascii) (s : string) : list string :=
  match s with
  | EmptyString => [EmptyString]
  | String c rest =>
      if Ascii.eqb c sep then EmptyString :: split_on sep rest
      else match split_on sep rest with
           | [] => [String c EmptyString]
           | h :: t => String c h :: t
           end
  end.

(** [s.rsplit('/', 1)[1]]: the text after the last slash; [None] stands for
    the IndexError raised when [s] has no slash. *)
Definition rsplit_slash_1 (s : string) : option string :=
  match split_on "/"%char s with
  | [] | [_] => None
  | parts => Some (last parts EmptyString)
  end.

(** [str(n)] for an int. *)
Definition of_int (n : Z) : string := NilZero.string_of_int (Z.to_int n).

Definition hex_digit (c : ascii) : option Z :=
  let n := Z.of_nat (nat_of_ascii c) in
  if (48 <=? n) && (n <=? 57) then Some (n - 48)
  else if (65 <=? n) && (n <=? 70) then Some (n - 55)
  else if (97 <=? n) && (n <=? 102) then Some (n - 87)
  else None.

Fixpoint hex_digits (acc : Z) (s : string) : option Z :=
  match s with
  | EmptyString => Some acc
  | String c rest =>
      match hex_digit c with
      | Some d => hex_digits (16 * acc + d) rest
      | None => None
      end
  end.

(** The value of a flash offset written as ['0x...'], as esptool reads it. *)
Definition parse_offset (s : string) : option Z :=
  match s with
  | String "0"%char (String "x"%char (String c rest)) => hex_digits 0 (String c rest)
  | _ => None
  end.

(** fnmatch of one path component, for the wildcards [*] and [?].  Bracket
    expressions are not interpreted: no pattern of this program has one. *)
Fixpoint wild (pat : string) (s : string) {struct pat} : bool :=
  match pat with
  | EmptyString => match s with EmptyString => true | String _ _ => false end
  | String c pat' =>
      if Ascii.eqb c "*"%char then
        (fix star (s : string) : bool :=
           wild pat' s ||
           match s with EmptyString => false | String _ s' => star s' end) s
      else if Ascii.eqb c "?"%char then
        match s with EmptyString => false | String _ s' => wild pat' s' end
      else
        match s with
        | EmptyString => false
        | String d s' => Ascii.eqb c d && wild pat' s'
        end
  end.

Definition starts_with_dot (s : string) : bool :=
  match s with String c _ => Ascii.eqb c "."%char | EmptyString => false end.

End PyString.

(** ** Python values that travel through the option table *)

(** An element of a [flash_options] row, and so of an esptool parameter list:
    a string or [None]. *)
Inductive pyval : Type :=
| PyStr (s : string)
| PyNone.

(** [str(v)], as an f-string formats it. *)
Definition pyval_str (v : pyval) : string :=
  match v with PyStr s => s | PyNone => "None" end.

(** ** Exceptions and results *)

Inductive exn : Type :=
| FileNotFoundError (p : string)
| IsADirectoryError (p : string)
| NotADirectoryError (p : string)
| FileExistsError (p : string)
| DirectoryNotEmpty (p : string)       (* OSError, errno ENOTEMPTY *)
| ValueError (msg : string)
| IndexError
| AttributeError (name : string)
| UnboundLocalError (name : string)
| FlasherError (msg : string)          (* an Exception out of esptool.main *)
| RequestException (url : string)
| ResponseFormatError (url : string)   (* .json() or ['assets'] failed *)
| GitError (msg : string).

(** [str(err)], as [print(err)] shows it. *)
Definition exn_str (e : exn) : string :=
  match e with
  | FileNotFoundError p => "No such file or directory: " ++ p
  | IsADirectoryError p => "Is a directory: " ++ p
  | NotADirectoryError p => "Not a directory: " ++ p
  | FileExistsError p => "File exists: " ++ p
  | DirectoryNotEmpty p => "Directory not empty: " ++ p
  | ValueError msg => msg
  | IndexError => "list index out of range"
  | AttributeError name => "'ESP32Flasher' object has no attribute '" ++ name ++ "'"
  | UnboundLocalError name => "local variable '" ++ name ++ "' referenced before assignment"
  | FlasherError msg => msg
  | RequestException url => url
  | ResponseFormatError url => url
  | GitError msg => msg
  end.

(** How a call ends: it returns, an exception propagates, [exit()] unwinds
    the process (SystemExit is no [Exception], so no handler of this program
    catches it), or the model's recursion budget is used up. *)
Inductive outcome (A : Type) : Type :=
| Ret (a : A)
| Raise (e : exn)
| SystemExit
| OutOfFuel.

Arguments Ret {A} a.
Arguments Raise {A} e.
Arguments SystemExit {A}.
Arguments OutOfFuel {A}.

(** ** The file system below the working directory *)

(** Paths are relative to the working directory and are compared component
    by component.  There are no symbolic links, and no [.] or [..]
    components.  Errors carry the names Python gives them on Linux. *)
Module FS.

Inductive kind : Type :=
| RegularFile (data : string)
| Directory.

(** One directory entry.  [e_path] is relative to the working directory, with
    [/] between components.  [e_ctime] is what [os.path.getctime] reports: a
    finite float, held here as a whole number of the smallest step between
    two floats, which keeps the order. *)
Record entry : Type := mkEntry {
  e_path : string;
  e_kind : kind;
  e_ctime : Z
}.

(** Entries in the order in which the operating system enumerates them. *)
Definition t : Type := list entry.

Definition components (p : string) : list string :=
  filter PyString.truthy (PyString.split_on "/"%char p).

Fixpoint comps_eqb (a b : list string) : bool :=
  match a, b with
  | [], [] => true
  | x :: a', y :: b' => String.eqb x y && comps_eqb a' b'
  | _, _ => false
  end.

Fixpoint is_prefix (a b : list string) : bool :=
  match a, b with
  | [], _ => true
  | x :: a', y :: b' => String.eqb x y && is_prefix a' b'
  | _ :: _, [] => false
  end.

Definition lookup_comps (fs : t) (c : list string) : option entry :=
  find (fun e => comps_eqb (components (e_path e)) c) fs.

Definition lookup (fs : t) (p : string) : option entry :=
  lookup_comps fs (components p).

Definition is_dir (fs : t) (c : list string) : bool :=
  match c with
  | [] => true                                   (* the working directory *)
  | _ => match lookup_comps fs c with
         | Some e => match e_kind e with Directory => true | RegularFile _ => false end
         | None => false
         end
  end.

Definition is_file (fs : t) (c : list string) : bool :=
  match lookup_comps fs c with
  | Some e => match e_kind e with RegularFile _ => true | Directory => false end
  | None => false
  end.

(** The proper prefixes of a component list, shortest first, without the
    empty one. *)
Fixpoint ancestors (c : list string) : list (list string) :=
  match c with
  | [] => []
  | x :: rest =>
      match rest with
      | [] => []
      | _ => [x] :: map (cons x) (ancestors rest)
      end
  end.

(** Some ancestor of the path is a regular file (errno ENOTDIR). *)
Definition under_a_file (fs : t) (c : list string) : bool :=
  existsb (is_file fs) (ancestors c).

Definition has_children (fs : t) (c : list string) : bool :=
  existsb (fun e => let d := components (e_path e) in
                    is_prefix c d && negb (comps_eqb c d)) fs.

Definition without (fs : t) (c : list string) : t :=
  filter (fun e => negb (comps_eqb (components (e_path e)) c)) fs.

(** [os.path.exists(p)] *)
Definition exists_ (fs : t) (p : string) : bool :=
  match components p with
  | [] => true
  | c => match lookup_comps fs c with Some _ => true | None => false end
  end.

(** The error of reaching a path that is not there. *)
Definition missing (fs : t) (p : string) : exn :=
  if under_a_file fs (components p) then NotADirectoryError p
  else FileNotFoundError p.

(** [os.path.getctime(p)] *)
Definition getctime (fs : t) (p : string) : exn + Z :=
  match lookup fs p with
  | Some e => inr (e_ctime e)
  | None => inl (missing fs p)
  end.

(** [os.remove(p)] *)
Definition remove (fs : t) (p : string) : exn + t :=
  match lookup fs p with
  | None => inl (missing fs p)
  | Some e =>
      match e_kind e with
      | Directory => inl (IsADirectoryError p)
      | RegularFile _ => inr (without fs (components p))
      end
  end.

(** [os.rmdir(p)] *)
Definition rmdir (fs : t) (p : string) : exn + t :=
  match lookup fs p with
  | None => inl (missing fs p)
  | Some e =>
      match e_kind e with
      | RegularFile _ => inl (NotADirectoryError p)
      | Directory =>
          if has_children fs (components p) then inl (DirectoryNotEmpty p)
          else inr (without fs (components p))
      end
  end.

Definition join (c : list string) : string := String.concat "/" c.

(** [os.makedirs(p)]: creates the missing ancestors and the leaf, each stamped
    [now]; the leaf must not exist yet. *)
Fixpoint mkdir_chain (now : Z) (fs : t) (chain : list (list string)) : exn + t :=
  match chain with
  | [] => inr fs
  | c :: rest =>
      match lookup_comps fs c with
      | Some e =>
          match e_kind e with
          | Directory => mkdir_chain now fs rest
          | RegularFile _ => inl (NotADirectoryError (join c))
          end
      | None => mkdir_chain now (fs ++ [mkEntry (join c) Directory now])%list rest
      end
  end.

Definition makedirs (now : Z) (fs : t) (p : string) : exn + t :=
  let c := components p in
  match c with
  | [] => inl (FileExistsError p)
  | _ =>
      match lookup_comps fs c with
      | Some _ => inl (FileExistsError p)
      | None => mkdir_chain now fs (ancestors c ++ [c])%list
      end
  end.

(** [open(p, 'wb').write(data)]: the directory of [p] must exist; an existing
    file is truncated and rewritten in place, which renews its ctime. *)
Definition write_file (now : Z) (fs : t) (p : string) (data : string) : exn + t :=
  let c := components p in
  if negb (is_dir fs (removelast c)) then inl (missing fs p)
  else
    match lookup_comps fs c with
    | Some e =>
        match e_kind e with
        | Directory => inl (IsADirectoryError p)
        | RegularFile _ =>
            inr (map (fun e' => if comps_eqb (components (e_path e')) c
                                then mkEntry (e_path e') (RegularFile data) now
                                else e') fs)
        end
    | None =>
        match c with
        | [] => inl (IsADirectoryError p)
        | _ => inr (fs ++ [mkEntry (join c) (RegularFile data) now])%list
        end
    end.

Fixpoint all2 {A B} (f : A -> B -> bool) (l : list A) (m : list B) : bool :=
  match l, m with
  | [], [] => true
  | x :: l', y :: m' => f x y && all2 f l' m'
  | _, _ => false
  end.

(** One component of a [glob.glob] pattern against one name: [*] and [?] do
    not match a leading dot unless the pattern spells it. *)
Definition glob_component (pat name : string) : bool :=
  (PyString.starts_with_dot pat || negb (PyString.starts_with_dot name))
  && PyString.wild pat name.

(** [glob.glob(pattern)] for a relative pattern: the entries whose path has
    as many components as the pattern, each matching its component. *)
Definition glob (fs : t) (pattern : string) : list string :=
  map e_path
      (filter (fun e => all2 glob_component (components pattern)
                             (components (e_path e))) fs).

(** [Path(cwd).rglob(pattern)]: the entries, at any depth, whose last
    components match the pattern (pathlib does not hide dot files). *)
Definition rglob (fs : t) (pattern : string) : list string :=
  let pats := components pattern in
  map e_path
      (filter (fun e =>
                 let c := components (e_path e) in
                 (List.length pats <=? List.length c)%nat
                 && all2 PyString.wild pats
                         (skipn (List.length c - List.length pats) c)) fs).

(** Everything below directory [dir] replaced by [tree] (paths in [tree] are
    relative to [dir]): what a git operation leaves in a working copy. *)
Definition replace_tree (fs : t) (dir : string) (tree : list entry) : t :=
  let d := components dir in
  (filter (fun e => let c := components (e_path e) in
                    negb (is_prefix d c) || comps_eqb d c) fs
   ++ map (fun e => mkEntry (join (d ++ components (e_path e))%list) (e_kind e) (e_ctime e))
          tree)%list.

End FS.

(** ** The outside world *)

(** One entry of [serial.tools.list_ports.comports()]. *)
Record port : Type := mkPort {
  device : string;
  hwid : string
}.

(** How one call of [esptool.main] ends: it returns, it raises an
    [Exception], or it leaves through SystemExit. *)
Inductive flasher_result : Type :=
| FlashDone
| FlashRaises (msg : string)
| FlashExits.

(** What [requests.get] hands back.  [json_assets] is the list under
    ['assets'] of [response.json()], each asset reduced to its
    ['browser_download_url'] ([None] where an asset has none); it is [None]
    when the body is no JSON object with that key. *)
Record response : Type := mkResponse {
  content : string;
  json_assets : option (list (option string))
}.

Inductive git_command : Type :=
| GitClone (url dir : string)
| GitOpen (dir : string)
| GitResetHard (dir : string)
| GitCleanXdf (dir : string)
| GitPull (dir : string).

Definition git_dir (c : git_command) : string :=
  match c with
  | GitClone _ d | GitOpen d | GitResetHard d | GitCleanXdf d | GitPull d => d
  end.

(** A git command fails, or leaves [tree] in the working copy. *)
Inductive git_result : Type :=
| GitFails (msg : string)
| GitLeaves (tree : list FS.entry).

(** Everything the program does that can be seen from outside, apart from
    the file system. *)
Inductive event : Type :=
| Print (text : string)
| Sleep (seconds : Z)
| Input (prompt : string)
| Esptool (params : list pyval)
| Comports
| HttpGet (url : string)
| Git (cmd : git_command).

Definition is_esptool (e : event) : bool :=
  match e with Esptool _ => true | _ => false end.
Definition is_comports (e : event) : bool :=
  match e with Comports => true | _ => false end.
Definition is_input (e : event) : bool :=
  match e with Input _ => true | _ => false end.
Definition is_http (e : event) : bool :=
  match e with HttpGet _ => true | _ => false end.
Definition is_git (e : event) : bool :=
  match e with Git _ => true | _ => false end.

(** The answers of the collaborators.  The first argument counts the earlier
    calls of the same collaborator; [clock] is read at the number of events
    logged so far. *)
Record Env : Type := mkEnv {
  esptool_main : nat -> list pyval -> flasher_result;
  comports : nat -> list port;
  operator_input : nat -> option Z;      (* [None]: text that [int()] rejects *)
  requests_get : nat -> string -> option response;
  git_run : nat -> git_command -> git_result;
  clock : nat -> Z
}.

(** ** The object and the world *)

(** The attributes of an [ESP32Flasher] that are assigned after [__init__].
    [fwchoicepreselect] exists only once [choose_fw] has run; the seven
    firmware attributes exist only once [prereqcheck] has run, and hold
    [PyNone] until then. *)
Record Flasher : Type := mkFlasher {
  serialport : string;
  fwchoice : option Z;
  fwchoicepreselect : option bool;
  selectedfw : pyval;
  selectedboard : pyval;
  esp32marauderfw : pyval;
  esp32s3fw : pyval;
  espoldhardwarefw : pyval;
  esp32minifw : pyval;
  espnewhardwarefw : pyval;
  evilportalfwwroom : pyval;
  evilportalfws2 : pyval
}.

Record World : Type := mkWorld {
  self : Flasher;
  fs : FS.t;
  log : list event                       (* newest first *)
}.

(** The events in the order in which they happened. *)
Definition trace (w : World) : list event := rev (log w).

Definition calls (kind : event -> bool) (w : World) : nat :=
  List.length (filter kind (log w)).

(** The parameter lists [esptool.main] was called with, oldest first. *)
Definition esptool_calls (tr : list event) : list (list pyval) :=
  flat_map (fun e => match e with Esptool ps => [ps] | _ => [] end) tr.

Definition with_self (f : Flasher -> Flasher) (w : World) : World :=
  mkWorld (f (self w)) (fs w) (log w).
Definition with_fs (f : FS.t) (w : World) : World :=
  mkWorld (self w) f (log w).
Definition with_event (e : event) (w : World) : World :=
  mkWorld (self w) (fs w) (e :: log w).

Definition set_serialport (v : string) (o : Flasher) : Flasher :=
  mkFlasher v (fwchoice o) (fwchoicepreselect o) (selectedfw o) (selectedboard o)
    (esp32marauderfw o) (esp32s3fw o) (espoldhardwarefw o) (esp32minifw o)
    (espnewhardwarefw o) (evilportalfwwroom o) (evilportalfws2 o).
Definition set_fwchoice (v : option Z) (o : Flasher) : Flasher :=
  mkFlasher (serialport o) v (fwchoicepreselect o) (selectedfw o) (selectedboard o)
    (esp32marauderfw o) (esp32s3fw o) (espoldhardwarefw o) (esp32minifw o)
    (espnewhardwarefw o) (evilportalfwwroom o) (evilportalfws2 o).
Definition set_fwchoicepreselect (v : bool) (o : Flasher) : Flasher :=
  mkFlasher (serialport o) (fwchoice o) (Some v) (selectedfw o) (selectedboard o)
    (esp32marauderfw o) (esp32s3fw o) (espoldhardwarefw o) (esp32minifw o)
    (espnewhardwarefw o) (evilportalfwwroom o) (evilportalfws2 o).
Definition set_selected (fw board : pyval) (o : Flasher) : Flasher :=
  mkFlasher (serialport o) (fwchoice o) (fwchoicepreselect o) fw board
    (esp32marauderfw o) (esp32s3fw o) (espoldhardwarefw o) (esp32minifw o)
    (espnewhardwarefw o) (evilportalfwwroom o) (evilportalfws2 o).
Definition set_esp32marauderfw (v : pyval) (o : Flasher) : Flasher :=
  mkFlasher (serialport o) (fwchoice o) (fwchoicepreselect o) (selectedfw o)
    (selectedboard o) v (esp32s3fw o) (espoldhardwarefw o) (esp32minifw o)
    (espnewhardwarefw o) (evilportalfwwroom o) (evilportalfws2 o).
Definition set_esp32s3fw (v : pyval) (o : Flasher) : Flasher :=
  mkFlasher (serialport o) (fwchoice o) (fwchoicepreselect o) (selectedfw o)
    (selectedboard o) (esp32marauderfw o) v (espoldhardwarefw o) (esp32minifw o)
    (espnewhardwarefw o) (evilportalfwwroom o) (evilportalfws2 o).
Definition set_espoldhardwarefw (v : pyval) (o : Flasher) : Flasher :=
  mkFlasher (serialport o) (fwchoice o) (fwchoicepreselect o) (selectedfw o)
    (selectedboard o) (esp32marauderfw o) (esp32s3fw o) v (esp32minifw o)
    (espnewhardwarefw o) (evilportalfwwroom o) (evilportalfws2 o).
Definition set_esp32minifw (v : pyval) (o : Flasher) : Flasher :=
  mkFlasher (serialport o) (fwchoice o) (fwchoicepreselect o) (selectedfw o)
    (selectedboard o) (esp32marauderfw o) (esp32s3fw o) (espoldhardwarefw o) v
    (espnewhardwarefw o) (evilportalfwwroom o) (evilportalfws2 o).
Definition set_espnewhardwarefw (v : pyval) (o : Flasher) : Flasher :=
  mkFlasher (serialport o) (fwchoice o) (fwchoicepreselect o) (selectedfw o)
    (selectedboard o) (esp32marauderfw o) (esp32s3fw o) (espoldhardwarefw o)
    (esp32minifw o) v (evilportalfwwroom o) (evilportalfws2 o).
Definition set_evilportal (wroom s2 : pyval) (o : Flasher) : Flasher :=
  mkFlasher (serialport o) (fwchoice o) (fwchoicepreselect o) (selectedfw o)
    (selectedboard o) (esp32marauderfw o) (esp32s3fw o) (espoldhardwarefw o)
    (esp32minifw o) (espnewhardwarefw o) wroom s2.

(** ** Computations *)

Definition M (A : Type) : Type := World -> outcome A * World.

Definition ret {A} (a : A) : M A := fun w => (Ret a, w).

Definition bind {A B} (m : M A) (k : A -> M B) : M B :=
  fun w =>
    match m w with
    | (Ret a, w') => k a w'
    | (Raise e, w') => (Raise e, w')
    | (SystemExit, w') => (SystemExit, w')
    | (OutOfFuel, w') => (OutOfFuel, w')
    end.

Notation "x <- m ;; k" := (bind m (fun x => k))
  (at level 61, m at next level, right associativity).
Notation "m ;; k" := (bind m (fun _ => k))
  (at level 61, right associativity).

Definition raise {A} (e : exn) : M A := fun w => (Raise e, w).

(** [exit()] *)
Definition exit {A} : M A := fun w => (SystemExit, w).

Definition out_of_fuel {A} : M A := fun w => (OutOfFuel, w).

(** [try: body  except Exception as err: handler(err)] *)
Definition try_except {A} (body : M A) (handler : exn -> M A) : M A :=
  fun w =>
    match body w with
    | (Raise e, w') => handler e w'
    | r => r
    end.

Definition gets {A} (f : World -> A) : M A := fun w => (Ret (f w), w).
Definition modify (f : World -> World) : M unit := fun w => (Ret tt, f w).
Definition emit (e : event) : M unit := modify (with_event e).
Definition assign (f : Flasher -> Flasher) : M unit := modify (with_self f).

Definition lift {A} (r : exn + A) : M A :=
  match r with inl e => raise e | inr a => ret a end.

Fixpoint for_each {A} (l : list A) (body : A -> M unit) : M unit :=
  match l with
  | [] => ret tt
  | x :: rest => body x ;; for_each rest body
  end.

Definition print (text : string) : M unit := emit (Print text).

(** ** FirmwareManager.py *)

Module FirmwareManager.

Record t : Type := mk {
  repo_url : string;
  local_dir : string
}.

Section WithEnv.
Variable env : Env.

Definition now (w : World) : Z := clock env (List.length (log w)).

Definition os_path_exists (p : string) : M bool :=
  gets (fun w => FS.exists_ (fs w) p).

Definition os_makedirs (p : string) : M unit :=
  fun w => match FS.makedirs (now w) (fs w) p with
           | inl e => (Raise e, w)
           | inr f => (Ret tt, with_fs f w)
           end.

Definition os_path_getctime (p : string) : M Z :=
  fun w => lift (FS.getctime (fs w) p) w.

Definition glob_glob (pattern : string) : M (list string) :=
  gets (fun w => FS.glob (fs w) pattern).

(** A call into GitPython: logged, answered by the environment, and on
    success the working copy holds what git left there. *)
Definition git (cmd : git_command) : M unit :=
  fun w =>
    let w' := with_event (Git cmd) w in
    match git_run env (calls is_git w) cmd with
    | GitFails msg => (Raise (GitError msg), w')
    | GitLeaves tree =>
        match cmd with
        | GitOpen _ => (Ret tt, w')
        | _ => (Ret tt, with_fs (FS.replace_tree (fs w') (git_dir cmd) tree) w')
        end
    end.

Definition check_and_download (fm : t) : M unit :=
  present <- os_path_exists (local_dir fm) ;;
  if negb present then
    print (local_dir fm ++ " folder does not exist, downloading now...") ;;
    os_makedirs (local_dir fm) ;;
    git (GitClone (repo_url fm) (local_dir fm))
  else
    print (local_dir fm ++ " folder exists!").

(** [max(items, key=key)] once the first item and its key are in hand: a
    later item replaces the best one only when its key is strictly larger. *)
Fixpoint max_by_key (key : string -> M Z) (best : string) (best_key : Z)
  (rest : list string) : M string :=
  match rest with
  | [] => ret best
  | x :: rest' =>
      k <- key x ;;
      if best_key <? k then max_by_key key x k rest'
      else max_by_key key best best_key rest'
  end.

Definition get_latest_firmware (fm : t) (pattern : string) : M pyval :=
  firmware_files <- glob_glob pattern ;;
  match firmware_files with
  | [] =>
      print ("No firmware files found for pattern: " ++ pattern) ;;
      ret PyNone
  | first :: rest =>
      k <- os_path_getctime first ;;
      latest_firmware <- max_by_key os_path_getctime first k rest ;;
      print ("Latest firmware found: " ++ latest_firmware) ;;
      ret (PyStr latest_firmware)
  end.

End WithEnv.

End FirmwareManager.

(** ** ESP32Flasher.py *)

Module ESP32Flasher.

(** Attributes assigned once in [__init__] and never again. *)
Definition extraesp32bins : string := "Extra_ESP32_Bins".
Definition scorpbins : string := "Extra_ESP32_Bins/Marauder/WROOM".
Definition BR : string := "115200".
Definition hardresetlist : list Z := [5; 6; 8; 9; 10; 11; 12; 13].
Definition choices : string := "
        //==================================================================\\
        || Options:                                                        ||
        ||  1) Flash Marauder on WiFi Devboard or ESP32-S2                 ||
        ||  2) Save Flipper Blackmagic WiFi settings                       ||
        ||  3) Flash Flipper Blackmagic                                    ||
        ||  4) Flash Marauder on ESP32-WROOM                               ||
        ||  5) Flash Marauder on ESP32 Marauder Mini                       ||
        ||  6) Flash v6 Marauder on ESP32-WROOM (RabbitLabs Minion Marauder)||
        ||  7) Flash Marauder on ESP32-S3 (There is no current S3 bin)     ||
        ||  8) Flash Marauder on AWOK v1-3 or Duoboard                     ||
        ||  9) Flash Marauder on AWOK v4 Chungus Board                     ||
        || 10) Flash Marauder on AWOK v5 ESP32                             ||
        || 11) Flash Marauder on AWOK Dual ESP32 (Orange Port)             ||
        || 12) Flash Marauder on AWOK Dual ESP32 Touch Screen (White Port) ||
        || 13) Flash Marauder on AWOK Dual ESP32 Mini (White Port)         ||
        || 14) Flash Evil Portal on ESP32-WROOM                            ||
        || 15) Flash Evil Portal on ESP32-S2 or WiFi Devboard              ||
        || 16) Just Erase ESP32 - Try this if you think you bricked it     ||
        || 17) Update all files                                            ||
        || 18) Exit                                                        ||
        \\==================================================================//
        ".
Definition firmware_manager : FirmwareManager.t :=
  FirmwareManager.mk "https://github.com/UberGuidoZ/Marauder_BINs.git" extraesp32bins.

(** colorama's escape sequences. *)
Definition ESC : string := String (ascii_of_nat 27) EmptyString.
Definition Fore_RED : string := ESC ++ "[31m".
Definition Fore_GREEN : string := ESC ++ "[32m".
Definition Fore_BLUE : string := ESC ++ "[34m".
Definition Style_RESET_ALL : string := ESC ++ "[0m".

(** A tuple of string literals. *)
Definition strs (l : list string) : list pyval := map PyStr l.

(** The dict literal of [flash_firmware]: each row is the tuple as written,
    nine, eleven or five elements long. *)
Definition flash_options : list (Z * list pyval) :=
  [
    (1, strs ["Marauder"; "ESP32-S2"; "4MB"; "0x1000"; "Marauder/bootloader.bin";
              "0x8000"; "Marauder/partitions.bin"; "0x10000"; "esp32marauderfw"]);
    (2, strs ["Save Flipper Blackmagic WiFi settings"; "ESP32-S2"; "4MB"; "0x1000";
              "Blackmagic/bootloader.bin"; "0x8000"; "Blackmagic/partition-table.bin";
              "0x10000"; "Blackmagic/blackmagic.bin"]);
    (3, strs ["Blackmagic"; "ESP32-S2"; "4MB"; "0x1000"; "Blackmagic/bootloader.bin";
              "0x8000"; "Blackmagic/partition-table.bin"; "0x10000";
              "Blackmagic/blackmagic.bin"]);
    (4, strs ["Marauder"; "ESP32-WROOM"; "4MB"; "0x1000"; "bootloader.bin"; "0x8000";
              "partitions.bin"; "0x10000"; "espoldhardwarefw"]);
    (5, strs ["Marauder"; "ESP32 Marauder Mini"; "4MB"; "0x1000"; "bootloader.bin";
              "0x8000"; "partitions.bin"; "0x10000"; "esp32minifw"]);
    (6, strs ["Marauder v6"; "ESP32-WROOM"; "4MB"; "0x1000"; "bootloader.bin";
              "0x8000"; "partitions.bin"; "0x10000"; "espnewhardwarefw"]);
    (7, strs ["Marauder"; "ESP32-S3"; "8MB"; "0x0"; "S3/bootloader.bin"; "0x8000";
              "S3/partitions.bin"; "0xE000"; "S3/boot_app0.bin"; "0x10000";
              "esp32s3fw"]);
    (8, strs ["Marauder"; "AWOK v1-3 or Duoboard"; "4MB"; "0x1000"; "bootloader.bin";
              "0x8000"; "partitions.bin"; "0x10000"; "espoldhardwarefw"]);
    (9, strs ["Marauder"; "AWOK v4 Chungus Board"; "4MB"; "0x1000";
              "Marauder/bootloader.bin"; "0x8000"; "Marauder/partitions.bin";
              "0x10000"; "esp32marauderfw"]);
    (10, strs ["Marauder"; "AWOK v5 ESP32"; "4MB"; "0x1000"; "Marauder/bootloader.bin";
               "0x8000"; "Marauder/partitions.bin"; "0x10000"; "esp32marauderfw"]);
    (11, strs ["Marauder"; "AWOK Dual ESP32 (Orange Port)"; "4MB"; "0x1000";
               "Marauder/bootloader.bin"; "0x8000"; "Marauder/partitions.bin";
               "0x10000"; "esp32marauderfw"]);
    (12, strs ["Marauder"; "AWOK Dual ESP32 Touch Screen (White Port)"; "4MB";
               "0x1000"; "bootloader.bin"; "0x8000"; "partitions.bin"; "0x10000";
               "espnewhardwarefw"]);
    (13, strs ["Marauder Mini"; "AWOK Dual ESP32 Mini (White Port)"; "4MB"; "0x1000";
               "bootloader.bin"; "0x8000"; "partitions.bin"; "0x10000"; "esp32minifw"]);
    (14, strs ["Evil Portal"; "ESP32-WROOM"; "4MB"; "0x1000"; "evilportalfwwroom"]);
    (15, strs ["Evil Portal"; "ESP32-S2"; "4MB"; "0x1000"; "evilportalfws2"]);
    (16, PyStr "Erase ESP32" :: repeat PyNone 8);
    (17, PyStr "Update all files" :: repeat PyNone 8);
    (18, PyStr "Exit" :: repeat PyNone 8) ].

(** [d[k]] and [k in d] on the dict literal. *)
Fixpoint dict_get {V} (d : list (Z * V)) (k : Z) : option V :=
  match d with
  | [] => None
  | (k', v) :: rest => if k =? k' then Some v else dict_get rest k
  end.

(** The nine names a row is unpacked into, in order: selectedfw,
    selectedboard, flashsize, offset_one, bootloader_bin, offset_two,
    partitions_bin, offset_three, fwbin. *)
Record unpacked : Type := mkUnpacked {
  u_selectedfw : pyval;
  u_selectedboard : pyval;
  flashsize : pyval;
  offset_one : pyval;
  bootloader_bin : pyval;
  offset_two : pyval;
  partitions_bin : pyval;
  offset_three : pyval;
  fwbin : pyval
}.

(** The nine-target tuple assignment: any other length raises ValueError
    before a single target is assigned. *)
Definition unpack9 (option : list pyval) : exn + unpacked :=
  match option with
  | [a; b; c; d; e; f; g; h; i] => inr (mkUnpacked a b c d e f g h i)
  | _ =>
      if (List.length option <? 9)%nat then
        inl (ValueError ("not enough values to unpack (expected 9, got "
                         ++ PyString.of_int (Z.of_nat (List.length option)) ++ ")"))
      else inl (ValueError "too many values to unpack (expected 9)")
  end.

Definition vids : list string := ["303A"; "10C4"; "1A86"; "0483"].

(** The two nested loops of [checkforserialport], on the pair they assign:
    [self.serialport] and the local [device] (unbound at first). *)
Definition scan_port (vid : string) (st : string * option string) (p : port)
  : string * option string :=
  if PyString.contains vid (hwid p) then (device p, Some vid) else st.

Definition scan_vid (ports : list port) (st : string * option string)
  (vid : string) : string * option string :=
  fold_left (scan_port vid) ports st.

Definition scan (vids : list string) (ports : list port)
  (st : string * option string) : string * option string :=
  fold_left (scan_vid ports) vids st.

Definition device_types : list (string * string) :=
  [ ("303A", "You are most likely using a Flipper Zero WiFi Devboard or an ESP32-S2");
    ("10C4", "You are most likely using an ESP32-WROOM, an ESP32-S2-WROVER, or an ESP32-S3-WROOM");
    ("1A86", "You are most likely using a knock-off ESP32 chip! Success is not guaranteed!");
    ("0483", "You are most likely using an DrB0rk S3 Multiboard") ].

Fixpoint str_dict_get (d : list (string * string)) (k default : string) : string :=
  match d with
  | [] => default
  | (k', v) :: rest => if String.eqb k k' then v else str_dict_get rest k default
  end.

Definition print_device_type (dev : string) : M unit :=
  print (Fore_BLUE ++ str_dict_get device_types dev "Unknown device" ++ Style_RESET_ALL).

Section WithEnv.
Variable env : Env.

Definition time_sleep (seconds : Z) : M unit := emit (Sleep seconds).

Definition list_comports : M (list port) :=
  fun w => (Ret (comports env (calls is_comports w)), with_event Comports w).

(** [int(input(prompt))] *)
Definition int_input (prompt : string) : M Z :=
  fun w =>
    let w' := with_event (Input prompt) w in
    match operator_input env (calls is_input w) with
    | Some n => (Ret n, w')
    | None => (Raise (ValueError "invalid literal for int() with base 10"), w')
    end.

Definition call_esptool (params : list pyval) : M unit :=
  fun w =>
    let w' := with_event (Esptool params) w in
    match esptool_main env (calls is_esptool w) params with
    | FlashDone => (Ret tt, w')
    | FlashRaises msg => (Raise (FlasherError msg), w')
    | FlashExits => (SystemExit, w')
    end.

Definition requests_get_ (url : string) : M response :=
  fun w =>
    let w' := with_event (HttpGet url) w in
    match requests_get env (calls is_http w) url with
    | Some r => (Ret r, w')
    | None => (Raise (RequestException url), w')
    end.

Definition os_remove (p : string) : M unit :=
  fun w => match FS.remove (fs w) p with
           | inl e => (Raise e, w)
           | inr f => (Ret tt, with_fs f w)
           end.

Definition os_rmdir (p : string) : M unit :=
  fun w => match FS.rmdir (fs w) p with
           | inl e => (Raise e, w)
           | inr f => (Ret tt, with_fs f w)
           end.

Definition write_binary (p data : string) : M unit :=
  fun w => match FS.write_file (FirmwareManager.now env w) (fs w) p data with
           | inl e => (Raise e, w)
           | inr f => (Ret tt, with_fs f w)
           end.

(** The body of the [for _ in range(tries)] loop, [iterations] rounds to go.
    [attempts] is the counter as the round finds it. *)
Fixpoint esptool_rounds (iterations : nat) (attempts : Z) (message : string)
  (params : list pyval) : M unit :=
  match iterations with
  | O => ret tt
  | S iterations' =>
      let attempts := attempts + 1 in
      try_except
        (print message ;;
         call_esptool params ;;
         board <- gets (fun w => selectedboard (self w)) ;;
         fw <- gets (fun w => selectedfw (self w)) ;;
         print (Fore_GREEN ++ pyval_str board ++ " has been flashed with "
                ++ pyval_str fw ++ Style_RESET_ALL))       (* then [break] *)
        (fun err =>
           print (exn_str err) ;;
           (if attempts =? 3 then
              board <- gets (fun w => selectedboard (self w)) ;;
              print ("Could not complete the operation on " ++ pyval_str board) ;;
              exit
            else ret tt) ;;
           print "Waiting 5 seconds and trying again..." ;;
           time_sleep 5 ;;
           esptool_rounds iterations' attempts message params)
  end.

Definition execute_esptool_command (message : string) (params : list pyval) : M unit :=
  let tries := 3%nat in
  let attempts := 0 in
  esptool_rounds tries attempts message params.

Definition erase_esp32 : M unit :=
  execute_esptool_command "Erasing firmware..." [PyStr "erase_flash"].

Definition flashtheboard (eraseparams flashparams : list pyval) : M unit :=
  erase_esp32 ;;
  fw <- gets (fun w => selectedfw (self w)) ;;
  board <- gets (fun w => selectedboard (self w)) ;;
  execute_esptool_command
    ("Flashing " ++ pyval_str fw ++ " on " ++ pyval_str board) flashparams.

Definition checkfors3bin : M unit :=
  v <- FirmwareManager.get_latest_firmware firmware_manager
         "ESP32Marauder/releases/esp32_marauder_v*ultiboardS3.bin" ;;
  assign (set_esp32s3fw v).

Definition checkforoldhardwarebin : M unit :=
  v <- FirmwareManager.get_latest_firmware firmware_manager
         "ESP32Marauder/releases/esp32_marauder_v*_old_hardware.bin" ;;
  assign (set_espoldhardwarefw v).

Definition checkforminibin : M unit :=
  v <- FirmwareManager.get_latest_firmware firmware_manager
         "ESP32Marauder/releases/esp32_marauder_v*_mini.bin" ;;
  assign (set_esp32minifw v).

Definition checkfornewhardwarebin : M unit :=
  v <- FirmwareManager.get_latest_firmware firmware_manager
         "ESP32Marauder/releases/esp32_marauder_v*_v6.bin" ;;
  assign (set_espnewhardwarefw v).

Definition download_asset (asset : option string) : M unit :=
  match asset with
  | None => raise (ResponseFormatError "browser_download_url")
  | Some marauderasset =>
      match PyString.rsplit_slash_1 marauderasset with
      | None => raise IndexError
      | Some filename =>
          downloadfile <- requests_get_ marauderasset ;;
          write_binary ("ESP32Marauder/releases/" ++ filename) (content downloadfile)
      end
  end.

Definition checkforesp32marauder : M unit :=
  print "Checking for Marauder releases" ;;
  present <- FirmwareManager.os_path_exists "ESP32Marauder/releases" ;;
  (if negb present then
     print "Marauder releases folder does not exist, but that's okay, downloading them now..." ;;
     FirmwareManager.os_makedirs env "ESP32Marauder/releases" ;;
     let marauderapi := "https://api.github.com/repos/justcallmekoko/ESP32Marauder/releases/latest" in
     resp <- requests_get_ marauderapi ;;
     match json_assets resp with
     | None => raise (ResponseFormatError marauderapi)
     | Some assets => for_each assets download_asset
     end
   else ret tt) ;;
  v <- FirmwareManager.get_latest_firmware firmware_manager
         "ESP32Marauder/releases/esp32_marauder_v*_flipper.bin" ;;
  assign (set_esp32marauderfw v).

Definition checkforevilportal : M unit :=
  print "Checking for Evil portal" ;;
  present <- FirmwareManager.os_path_exists "EvilPortal" ;;
  (if negb present then
     print "Evil Portal folder not found, but that's okay, downloading it now" ;;
     FirmwareManager.os_makedirs env "EvilPortal" ;;
     let evilportalwroomurl := "https://github.com/bigbrodude6119/flipper-zero-evil-portal/raw/main/Single%20File%20Bins/Evil%20Portal%20WROOM.bin" in
     downloadfile <- requests_get_ evilportalwroomurl ;;
     write_binary "EvilPortal/EvilPortalWROOM.bin" (content downloadfile) ;;
     let evilportals2url := "https://github.com/bigbrodude6119/flipper-zero-evil-portal/raw/main/Single%20File%20Bins/Evil%20Portal%20WiFi%20Board%20or%20S2.bin" in
     downloadfile <- requests_get_ evilportals2url ;;
     write_binary "EvilPortal/EvilPortalS2.bin" (content downloadfile)
   else ret tt) ;;
  assign (set_evilportal (PyStr "EvilPortal/EvilPortalWROOM.bin")
                         (PyStr "EvilPortal/EvilPortalS2.bin")).

Definition prereqcheck : M unit :=
  print "Checking for prerequisites..." ;;
  FirmwareManager.check_and_download env firmware_manager ;;
  checkforesp32marauder ;;
  checkfors3bin ;;
  checkforoldhardwarebin ;;
  checkforminibin ;;
  checkfornewhardwarebin ;;
  checkforevilportal.

(** [checkforserialport], [update_option] and [flash_firmware] call back into
    [choose_fw]; the callee is a parameter here and the knot is tied in
    [choose_fw] below. *)
Definition checkforserialport (choose_fw : M unit) : M unit :=
  sp <- gets (fun w => serialport (self w)) ;;
  if PyString.truthy sp then
    print ("Will not check for serial port or possible chip type since it is specified as " ++ sp)
  else
    print "Checking for serial port..." ;;
    ports <- list_comports ;;
    let '(sp', dev) := scan vids ports (sp, None) in
    assign (set_serialport sp') ;;
    (if negb (PyString.truthy sp') then
       print (Fore_RED ++ "No ESP32 device was detected!" ++ Style_RESET_ALL) ;;
       print (Fore_RED ++ "Please plug in a Flipper WiFi devboard or an ESP32 chip and try again" ++ Style_RESET_ALL) ;;
       pre <- gets (fun w => fwchoicepreselect (self w)) ;;
       match pre with
       | None => raise (AttributeError "fwchoicepreselect")
       | Some false => choose_fw
       | Some true => exit
       end
     else ret tt) ;;
    match dev with
    | None => raise (UnboundLocalError "device")
    | Some d => print_device_type d
    end.

Definition update_option (choose_fw : M unit) : M unit :=
  print "Checking for and deleting the files before replacing them..." ;;
  paths <- gets (fun w => FS.rglob (fs w) "ESP32Marauder/*/*") ;;
  for_each paths os_remove ;;
  paths <- gets (fun w => FS.rglob (fs w) "EvilPortal/*") ;;
  for_each paths os_remove ;;
  os_rmdir "ESP32Marauder/releases" ;;
  os_rmdir "ESP32Marauder" ;;
  os_rmdir "EvilPortal" ;;
  let extrarepo := "Extra_ESP32_Bins" in
  FirmwareManager.git env (GitOpen extrarepo) ;;
  FirmwareManager.git env (GitResetHard extrarepo) ;;
  FirmwareManager.git env (GitCleanXdf extrarepo) ;;
  FirmwareManager.git env (GitPull extrarepo) ;;
  prereqcheck ;;
  choose_fw.

(** The parameter list of the write, as [flash_firmware] builds it. *)
Definition flashparams_of (sp : string) (board : pyval) (u : unpacked) : list pyval :=
  [PyStr "-p"; PyStr sp; PyStr "-b"; PyStr BR; PyStr "-c"; board;
   PyStr "--before"; PyStr "default_reset"; PyStr "-a"; PyStr "no_reset";
   PyStr "write_flash"; PyStr "--flash_mode"; PyStr "dio";
   PyStr "--flash_freq"; PyStr "80m"; PyStr "--flash_size"; flashsize u;
   offset_one u; bootloader_bin u; offset_two u; partitions_bin u;
   offset_three u; fwbin u].

Definition eraseparams_of (sp : string) : list pyval :=
  [PyStr "-p"; PyStr sp; PyStr "-b"; PyStr BR; PyStr "erase_flash"].

Definition invalid_option : M unit :=
  print (Fore_RED ++ "Invalid option!" ++ Style_RESET_ALL) ;;
  exit.

Definition flash_firmware (choose_fw : M unit) : M unit :=
  choice <- gets (fun w => fwchoice (self w)) ;;
  match choice with
  | None => invalid_option                (* [None not in flash_options] *)
  | Some n =>
      match dict_get flash_options n with
      | None => invalid_option
      | Some option =>
          u <- lift (unpack9 option) ;;
          assign (set_selected (u_selectedfw u) (u_selectedboard u)) ;;
          if n =? 16 then erase_esp32
          else if n =? 17 then update_option choose_fw
          else if n =? 18 then print "Exiting!" ;; exit
          else
            checkforserialport choose_fw ;;
            sp <- gets (fun w => serialport (self w)) ;;
            board <- gets (fun w => selectedboard (self w)) ;;
            flashtheboard (eraseparams_of sp) (flashparams_of sp board u)
      end
  end.

Fixpoint choose_fw (fuel : nat) : M unit :=
  match fuel with
  | O => out_of_fuel
  | S fuel' =>
      choice <- gets (fun w => fwchoice (self w)) ;;
      match choice with
      | Some n =>
          assign (set_fwchoicepreselect true) ;;
          print (Fore_BLUE ++ "You have preselected option " ++ PyString.of_int n ++ Style_RESET_ALL) ;;
          print "If you didn't mean to do this, CTRL-C now!" ;;
          print "Waiting 5 seconds before continuing..." ;;
          time_sleep 5
      | None =>
          assign (set_fwchoicepreselect false) ;;
          print choices ;;
          n <- int_input "Please enter the number of your choice: " ;;
          assign (set_fwchoice (Some n))
      end ;;
      flash_firmware (choose_fw fuel')
  end.

End WithEnv.

End ESP32Flasher.

(** ** EasyInstall.py *)

Module EasyInstall.

(** The object as [ESP32Flasher()] builds it, then the two attributes the
    script assigns from the command line. *)
Definition new_flasher (serialport : string) (preselect : option Z) : Flasher :=
  mkFlasher serialport preselect None (PyStr EmptyString) (PyStr EmptyString)
    PyNone PyNone PyNone PyNone PyNone PyNone PyNone.

Definition start (args_serialport : string) (args_preselect : option Z)
  (disk : FS.t) : World :=
  mkWorld (new_flasher args_serialport args_preselect) disk [].

(** The script body; [fuel] bounds how deep [choose_fw] may re-enter
    itself. *)
Definition main (env : Env) (fuel : nat) (args_serialport : string)
  (args_preselect : option Z) (disk : FS.t) : outcome unit * World :=
  (ESP32Flasher.prereqcheck env ;; ESP32Flasher.choose_fw env fuel)
    (start args_serialport args_preselect disk).

End EasyInstall.

(** * Vocabulary of the properties *)

(** [w] after [events] (oldest first) were logged. *)
Definition logged (events : list event) (w : World) : World :=
  mkWorld (self w) (fs w) (rev events ++ log w)%list.

Definition flashed_message (w : World) : string :=
  ESP32Flasher.Fore_GREEN ++ pyval_str (selectedboard (self w))
  ++ " has been flashed with " ++ pyval_str (selectedfw (self w))
  ++ ESP32Flasher.Style_RESET_ALL.

Definition gave_up_message (w : World) : string :=
  "Could not complete the operation on " ++ pyval_str (selectedboard (self w)).

Definition waiting_message : string := "Waiting 5 seconds and trying again...".

Definition invalid_message : string :=
  ESP32Flasher.Fore_RED ++ "Invalid option!" ++ ESP32Flasher.Style_RESET_ALL.

(** [I] holds after [m] whenever it held before, however [m] ends. *)
Definition inv (I : World -> Prop) {A} (m : M A) : Prop :=
  forall w, I w -> I (snd (m w)).

(** A property of the log alone, as a property of the world. *)
Definition on_log (J : list event -> Prop) : World -> Prop :=
  fun w => J (log w).

(** An assignment that leaves port, choice and selection alone. *)
Definition keeps_selection (f : Flasher -> Flasher) : Prop :=
  forall o,
    serialport (f o) = serialport o
    /\ fwchoice (f o) = fwchoice o
    /\ fwchoicepreselect (f o) = fwchoicepreselect o
    /\ selectedfw (f o) = selectedfw o
    /\ selectedboard (f o) = selectedboard o.

(** The events the prerequisite pass may log. *)
Definition is_fetch_event (e : event) : bool :=
  match e with Print _ | HttpGet _ | Git _ => true | _ => false end.

(** The one parameter list [erase_esp32] passes. *)
Definition erase_command : list pyval := [PyStr "erase_flash"].

(** A parameter list as [flash_firmware] builds it for the write. *)
Definition is_write_command (params : list pyval) : Prop :=
  exists sp board u, params = ESP32Flasher.flashparams_of sp board u.

(** On a log (newest first): every esptool call that mentions
    [write_flash] has a bare erase call somewhere before it. *)
Fixpoint erase_first (lg : list event) : Prop :=
  match lg with
  | [] => True
  | e :: older =>
      match e with
      | Esptool params =>
          In (PyStr "write_flash") params -> In (Esptool erase_command) older
      | _ => True
      end /\ erase_first older
  end.

(** The same on a trace (oldest first), said with positions. *)
Definition erase_before_every_write (tr : list event) : Prop :=
  forall earlier params later,
    tr = (earlier ++ Esptool params :: later)%list ->
    In (PyStr "write_flash") params ->
    In (Esptool erase_command) earlier.

(** The same, on a log that already holds a bare erase call. *)
Definition erased_first (lg : list event) : Prop :=
  erase_first lg /\ In (Esptool erase_command) lg.

(** Every esptool call on the log is the bare erase or a write. *)
Definition only_erase_and_write (lg : list event) : Prop :=
  forall params, In (Esptool params) lg ->
                 params = erase_command \/ is_write_command params.

(** The log grew from [base] (a trace, oldest first) by at least [first]. *)
Definition grew_by (base first : list event) (lg : list event) : Prop :=
  exists rest, rev lg = (base ++ first ++ rest)%list.

(** What [choose_fw] logs before it goes on to [flash_firmware]: with a
    choice already set, and without one. *)
Definition preselect_warning (n : Z) : list event :=
  [Print (ESP32Flasher.Fore_BLUE ++ "You have preselected option " ++ PyString.of_int n
          ++ ESP32Flasher.Style_RESET_ALL);
   Print "If you didn't mean to do this, CTRL-C now!";
   Print "Waiting 5 seconds before continuing...";
   Sleep 5].

Definition menu_prompt : list event :=
  [Print ESP32Flasher.choices; Input "Please enter the number of your choice: "].

(** The choice is still the one given on the command line, and neither the
    operator nor the flasher has been called. *)
Definition untouched (preselect : option Z) (w : World) : Prop :=
  fwchoice (self w) = preselect
  /\ calls is_input w = 0%nat
  /\ calls is_esptool w = 0%nat.

(** The choice that reaches [flash_firmware] first: the preselected one, or
    else the operator's first answer. *)
Definition first_choice (env : Env) (preselect : option Z) : option Z :=
  match preselect with
  | Some c => Some c
  | None => operator_input env 0
  end.

(** [vid in port.hwid] *)
Definition matches (vid : string) (p : port) : bool := PyString.contains vid (hwid p).

(** The selection as the specification words it: the first vendor ID, in
    scan order, that some port matches decides; of the ports matching it the
    last one is kept.  The result is (device, vendor ID). *)
Definition selection_as_specified (vids : list string) (ports : list port)
  : option (string * string) :=
  match find (fun vid => existsb (matches vid) ports) vids with
  | None => None
  | Some vid =>
      match find (matches vid) (rev ports) with
      | Some p => Some (device p, vid)
      | None => None
      end
  end.

(** The advisory line [print_device_type] prints for a vendor ID. *)
Definition device_hint (vid : string) : event :=
  Print (ESP32Flasher.Fore_BLUE
         ++ ESP32Flasher.str_dict_get ESP32Flasher.device_types vid "Unknown device"
         ++ ESP32Flasher.Style_RESET_ALL).

(** What [checkforserialport] logs when no port matches. *)
Definition not_found_events : list event :=
  [Print "Checking for serial port...";
   Comports;
   Print (ESP32Flasher.Fore_RED ++ "No ESP32 device was detected!"
          ++ ESP32Flasher.Style_RESET_ALL);
   Print (ESP32Flasher.Fore_RED
          ++ "Please plug in a Flipper WiFi devboard or an ESP32 chip and try again"
          ++ ESP32Flasher.Style_RESET_ALL)].

(** The deleting half of [update_option]: its first statements, up to the
    [os.rmdir] calls. *)
Definition delete_cached_files : M unit :=
  print "Checking for and deleting the files before replacing them..." ;;
  paths <- gets (fun w => FS.rglob (fs w) "ESP32Marauder/*/*") ;;
  for_each paths ESP32Flasher.os_remove ;;
  paths <- gets (fun w => FS.rglob (fs w) "EvilPortal/*") ;;
  for_each paths ESP32Flasher.os_remove.

(** The offsets of a row as the table lists them: every second element from
    the fourth on. *)
Fixpoint every_other (l : list pyval) : list pyval :=
  match l with
  | [] => []
  | a :: rest => a :: match rest with [] => [] | _ :: rest' => every_other rest' end
  end.

Definition row_offsets (row : list pyval) : list (option Z) :=
  map (fun v => match v with PyStr s => PyString.parse_offset s | PyNone => None end)
      (every_other (skipn 3 row)).

(** The offsets of the three (offset, binary) pairs a write is given. *)
Definition write_offsets (u : ESP32Flasher.unpacked) : list (option Z) :=
  map (fun v => match v with PyStr s => PyString.parse_offset s | PyNone => None end)
      [ESP32Flasher.offset_one u; ESP32Flasher.offset_two u; ESP32Flasher.offset_three u].

(** All offsets were read and each is below the next. *)
Fixpoint ascending (l : list (option Z)) : bool :=
  match l with
  | [] => true
  | None :: _ => false
  | Some a :: rest =>
      match rest with
      | [] => true
      | None :: _ => false
      | Some b :: _ => (a <? b) && ascending rest
      end
  end.

Definition releases_dir : string := "ESP32Marauder/releases".

Definition deleting_message : string :=
  "Checking for and deleting the files before replacing them...".

(** Relative to [w0]: same object, same log, no path has appeared and no
    path has become a regular file. *)
Definition only_deleted (w0 w : World) : Prop :=
  self w = self w0
  /\ log w = log w0
  /\ (forall d, FS.lookup_comps (fs w0) d = None -> FS.lookup_comps (fs w) d = None)
  /\ (forall d, FS.is_file (fs w) d = true -> FS.is_file (fs w0) d = true).

(** [m] returns or raises: it neither exits nor runs out of fuel. *)
Definition plain {A} (m : M A) : Prop :=
  forall w, (exists a, fst (m w) = Ret a) \/ (exists e, fst (m w) = Raise e).

(** ** Scenarios *)

(** A working directory in which every prerequisite is already cached. *)
Definition cached_disk : FS.t :=
  [ FS.mkEntry "Extra_ESP32_Bins" FS.Directory 1;
    FS.mkEntry "ESP32Marauder" FS.Directory 2;
    FS.mkEntry "ESP32Marauder/releases" FS.Directory 2;
    FS.mkEntry "ESP32Marauder/releases/esp32_marauder_v0_13_9_flipper.bin"
      (FS.RegularFile "old image") 3;
    FS.mkEntry "ESP32Marauder/releases/esp32_marauder_v1_0_0_flipper.bin"
      (FS.RegularFile "new image") 7;
    FS.mkEntry "ESP32Marauder/releases/esp32_marauder_v1_0_0_mini.bin"
      (FS.RegularFile "mini image") 7;
    FS.mkEntry "EvilPortal" FS.Directory 4;
    FS.mkEntry "EvilPortal/EvilPortalWROOM.bin" (FS.RegularFile "wroom") 4;
    FS.mkEntry "EvilPortal/EvilPortalS2.bin" (FS.RegularFile "s2") 4 ].

(** The release cache is gone; the Evil Portal cache is in place. *)
Definition disk_without_releases : FS.t :=
  [ FS.mkEntry "Extra_ESP32_Bins" FS.Directory 1;
    FS.mkEntry "EvilPortal" FS.Directory 4;
    FS.mkEntry "EvilPortal/EvilPortalWROOM.bin" (FS.RegularFile "wroom") 4 ].

(** The release cache is gone and the Evil Portal cache holds a folder. *)
Definition disk_with_folder_in_cache : FS.t :=
  [ FS.mkEntry "Extra_ESP32_Bins" FS.Directory 1;
    FS.mkEntry "EvilPortal" FS.Directory 4;
    FS.mkEntry "EvilPortal/backup" FS.Directory 5 ].

Definition two_devices : list port :=
  [ mkPort "/dev/ttyACM0" "USB VID:PID=303A:1001 SER=7C:DF:A1 LOCATION=1-1";
    mkPort "/dev/ttyUSB0" "USB VID:PID=10C4:EA60 SER=0001 LOCATION=1-2" ].

Definition three_devices : list port :=
  [ mkPort "/dev/ttyACM0" "USB VID:PID=303A:1001 SER=7C:DF:A1 LOCATION=1-1";
    mkPort "/dev/ttyUSB0" "USB VID:PID=10C4:EA60 SER=0001 LOCATION=1-2";
    mkPort "/dev/ttyUSB1" "USB VID:PID=10C4:EA60 SER=0002 LOCATION=1-3" ].

(** An environment with no network: the flasher behaves as [flasher] says,
    the ports are [ports] at every scan, the operator always types [typed]. *)
Definition offline (flasher : nat -> flasher_result) (ports : list port)
  (typed : Z) : Env :=
  mkEnv (fun k _ => flasher k) (fun _ => ports) (fun _ => Some typed)
        (fun _ _ => None) (fun _ _ => GitFails "no network")
        (fun n => Z.of_nat n).

Definition always_done : nat -> flasher_result := fun _ => FlashDone.

Definition third_time_lucky : nat -> flasher_result :=
  fun k => match k with
           | 0%nat => FlashRaises "Failed to connect"
           | 1%nat => FlashRaises "Timed out"
           | _ => FlashDone
           end.

Definition never_works : nat -> flasher_result :=
  fun k => FlashRaises "Failed to connect".

(** * Vocabulary of the further properties *)

(** [q] has a creation time below [t], and at most [t]. *)
Definition older_than (w : World) (t : Z) (q : string) : Prop :=
  exists tq, FS.getctime (fs w) q = inr tq /\ tq < t.

Definition not_newer_than (w : World) (t : Z) (q : string) : Prop :=
  exists tq, FS.getctime (fs w) q = inr tq /\ tq <= t.

(** [c in s] for a character. *)
Fixpoint has_char (c : ascii) (s : string) : bool :=
  match s with
  | EmptyString => false
  | String d rest => Ascii.eqb d c || has_char c rest
  end.

(** A component as [FS.components] produces them: not empty, no slash. *)
Definition is_component (s : string) : bool :=
  PyString.truthy s && negb (has_char "/"%char s).

(** The events that are not prints, downloads or git calls. *)
Definition is_action (e : event) : bool := negb (is_fetch_event e).

(** The ports are [later] from the second enumeration on, and none at the
    first. *)
Definition plugged_in_late (later : list port) : Env :=
  mkEnv (fun _ _ => FlashDone)
        (fun k => match k with 0%nat => [] | _ => later end)
        (fun _ => Some 1) (fun _ _ => None) (fun _ _ => GitFails "no network")
        (fun n => Z.of_nat n).

(** The line [checkforserialport] prints for a port given on the command
    line. *)
Definition port_given_message (sp : string) : string :=
  "Will not check for serial port or possible chip type since it is specified as " ++ sp.

(** Relative to [w0]: the port, the choice and the selection are the same,
    and so are the actions on the log. *)
Definition only_fetched (w0 w : World) : Prop :=
  serialport (self w) = serialport (self w0)
  /\ fwchoice (self w) = fwchoice (self w0)
  /\ fwchoicepreselect (self w) = fwchoicepreselect (self w0)
  /\ selectedfw (self w) = selectedfw (self w0)
  /\ selectedboard (self w) = selectedboard (self w0)
  /\ filter is_action (log w) = filter is_action (log w0).

(** [w'] is [w] after some lines were printed and some attributes assigned:
    same file system, and a log that grew by prints only. *)
Definition printed (w w' : World) : Prop :=
  fs w' = fs w
  /\ exists lines, log w' = (rev (map Print lines) ++ log w)%list.

(** On every world whose file system satisfies [P], [m] returns, and all it
    does is print and assign. *)
Definition calm (P : FS.t -> Prop) {A} (m : M A) : Prop :=
  forall w, P (fs w) -> exists a w', m w = (Ret a, w') /\ printed w w'.

Definition marauderapi : string :=
  "https://api.github.com/repos/justcallmekoko/ESP32Marauder/releases/latest".

(** [update_option] up to its last statement, the call of [choose_fw]. *)
Definition update_pass (env : Env) : M unit :=
  delete_cached_files ;;
  ESP32Flasher.os_rmdir releases_dir ;;
  ESP32Flasher.os_rmdir "ESP32Marauder" ;;
  ESP32Flasher.os_rmdir "EvilPortal" ;;
  FirmwareManager.git env (GitOpen "Extra_ESP32_Bins") ;;
  FirmwareManager.git env (GitResetHard "Extra_ESP32_Bins") ;;
  FirmwareManager.git env (GitCleanXdf "Extra_ESP32_Bins") ;;
  FirmwareManager.git env (GitPull "Extra_ESP32_Bins") ;;
  ESP32Flasher.prereqcheck env.

(** At least [g] git calls are on the log. *)
Definition pulled (g : nat) (w : World) : Prop := (g <= calls is_git w)%nat.

(** The choice is still 17. *)
Definition updating (w : World) : Prop := fwchoice (self w) = Some 17.

(** [checkforesp32marauder] from its first request on: the branch taken when
    the folder was missing, after [os.makedirs], and the lookup that ends the
    method. *)
Definition download_releases (env : Env) : M unit :=
  (resp <- ESP32Flasher.requests_get_ env marauderapi ;;
   match json_assets resp with
   | None => raise (ResponseFormatError marauderapi)
   | Some assets => for_each assets (ESP32Flasher.download_asset env)
   end) ;;
  v <- FirmwareManager.get_latest_firmware ESP32Flasher.firmware_manager
         "ESP32Marauder/releases/esp32_marauder_v*_flipper.bin" ;;
  assign (set_esp32marauderfw v).

(** The release folder is there and at least [n] requests were made. *)
Definition fetching (n : nat) (w : World) : Prop :=
  FS.exists_ (fs w) releases_dir = true /\ (n <= calls is_http w)%nat.

(** The events that call nothing back: prints, sleeps, downloads, git. *)
Definition is_quiet (e : event) : bool :=
  match e with Print _ | Sleep _ | HttpGet _ | Git _ => true | _ => false end.

(** A run that ended in a world satisfying [K] when it returned, and [E]
    when it did not. *)
Definition ended (K E : World -> Prop) {A} (r : outcome A * World) : Prop :=
  match fst r with
  | Ret _ => K (snd r)
  | _ => E (snd r)
  end.

(** From a world satisfying [K], [m] ends so. *)
Definition ends (K E : World -> Prop) {A} (m : M A) : Prop :=
  forall w, K w -> ended K E (m w).

(** What [choose_fw] does when no choice is set, up to [flash_firmware]. *)
Definition ask_for_choice (env : Env) : M unit :=
  assign (set_fwchoicepreselect false) ;;
  print ESP32Flasher.choices ;;
  n <- ESP32Flasher.int_input env "Please enter the number of your choice: " ;;
  assign (set_fwchoice (Some n)).

(** The port is the one given, no port was enumerated, and every esptool
    call so far is the bare erase or a write to that port. *)
Definition port_given (sp : string) (w : World) : Prop :=
  serialport (self w) = sp
  /\ calls is_comports w = 0%nat
  /\ forall params, In (Esptool params) (log w) ->
       params = erase_command
       \/ exists board u, params = ESP32Flasher.flashparams_of sp board u.

(** How often a session started with [preselect] may prompt. *)
Definition prompts_allowed (preselect : option Z) : nat :=
  match preselect with
  | None => 1
  | Some _ => 0
  end.

(** No choice is set and nothing was asked yet (an interactive session
    before its prompt), or a choice is set and the prompts are within what is
    allowed. *)
Definition asked (preselect : option Z) (w : World) : Prop :=
  (fwchoice (self w) = None /\ calls is_input w = 0%nat /\ preselect = None)
  \/ (fwchoice (self w) <> None
      /\ (calls is_input w <= prompts_allowed preselect)%nat).

Definition asked_within (preselect : option Z) (w : World) : Prop :=
  (calls is_input w <= prompts_allowed preselect)%nat.

(** The error of [int()] on text that is no number. *)
Definition not_a_number : exn := ValueError "invalid literal for int() with base 10".

(** An environment in which the network answers: every git operation leaves
    [tree] in the working copy, every request is answered with the same body
    and the assets [assets]; the flasher succeeds, no port is attached and
    the operator types 17. *)
Definition mirrored (tree : list FS.entry) (assets : list (option string)) : Env :=
  mkEnv (fun _ _ => FlashDone) (fun _ => []) (fun _ => Some 17)
        (fun _ _ => Some (mkResponse "image" (Some assets)))
        (fun _ _ => GitLeaves tree)
        (fun n => Z.of_nat n).

(** No network, no port, and an operator who types text that is no
    number. *)
Definition typing_text : Env :=
  mkEnv (fun _ _ => FlashDone) (fun _ => []) (fun _ => None)
        (fun _ _ => None) (fun _ _ => GitFails "no network")
        (fun n => Z.of_nat n).

(** The two addresses [checkforevilportal] downloads from. *)
Definition evilportalwroomurl : string :=
  "https://github.com/bigbrodude6119/flipper-zero-evil-portal/raw/main/Single%20File%20Bins/Evil%20Portal%20WROOM.bin".

Definition evilportals2url : string :=
  "https://github.com/bigbrodude6119/flipper-zero-evil-portal/raw/main/Single%20File%20Bins/Evil%20Portal%20WiFi%20Board%20or%20S2.bin".

(** The three entries a fresh Evil Portal download leaves behind. *)
Definition evil_portal_entries (wroom s2 : string) (t0 t1 t2 : Z) : list FS.entry :=
  [ FS.mkEntry "EvilPortal" FS.Directory t0;
    FS.mkEntry "EvilPortal/EvilPortalWROOM.bin" (FS.RegularFile wroom) t1;
    FS.mkEntry "EvilPortal/EvilPortalS2.bin" (FS.RegularFile s2) t2 ].

(** * Properties *)

(** ** Running computations *)

Lemma bind_gets {A B} (f : World -> A) (k : A -> M B) (w : World) :
  (x <- gets f ;; k x) w = k (f w) w.
Proof. reflexivity. Qed.

Lemma bind_modify {B} (f : World -> World) (k : M B) (w : World) :
  (modify f ;; k) w = k (f w).
Proof. reflexivity. Qed.

Lemma bind_emit {B} (e : event) (k : M B) (w : World) :
  (emit e ;; k) w = k (with_event e w).
Proof. reflexivity. Qed.

Lemma bind_ret {A B} (a : A) (k : A -> M B) (w : World) :
  (x <- ret a ;; k x) w = k a w.
Proof. reflexivity. Qed.

Lemma bind_assoc {A B C} (m : M A) (k : A -> M B) (h : B -> M C) (w : World) :
  (y <- (x <- m ;; k x) ;; h y) w = (x <- m ;; y <- k x ;; h y) w.
Proof. unfold bind. now destruct (m w) as [[a|e| |] w']. Qed.

Lemma bind_returned {A B} (m : M A) (k : A -> M B) (w w' : World) (a : A) :
  m w = (Ret a, w') -> (x <- m ;; k x) w = k a w'.
Proof. intros H. unfold bind. now rewrite H. Qed.

(** ** File-system facts *)

Section FileSystemFacts.

Lemma comps_eqb_refl (c : list string) : FS.comps_eqb c c = true.
Proof.
  induction c as [|x c IH]; simpl; [reflexivity|].
  now rewrite String.eqb_refl, IH.
Qed.

Lemma comps_eqb_eq (a b : list string) : FS.comps_eqb a b = true -> a = b.
Proof.
  revert b; induction a as [|x a IH]; intros [|y b] H; simpl in H;
    try discriminate; [reflexivity|].
  apply andb_true_iff in H as [Hxy Hab].
  apply String.eqb_eq in Hxy. f_equal; [exact Hxy | now apply IH].
Qed.

(** Whatever [glob] or [rglob] lists is there to be looked up. *)
Lemma listed_lookup (fs : FS.t) (keep : FS.entry -> bool) (p : string) :
  In p (map FS.e_path (filter keep fs)) -> exists e, FS.lookup fs p = Some e.
Proof.
  intros Hin. apply in_map_iff in Hin as (e0 & <- & Hin).
  apply filter_In in Hin as [Hin _].
  unfold FS.lookup, FS.lookup_comps.
  destruct (find _ fs) as [e|] eqn:Hfind; [now exists e|].
  pose proof (find_none _ _ Hfind _ Hin) as Hno. cbn in Hno.
  now rewrite comps_eqb_refl in Hno.
Qed.

Lemma glob_getctime (fs : FS.t) (pattern p : string) :
  In p (FS.glob fs pattern) -> exists t, FS.getctime fs p = inr t.
Proof.
  intros Hin. apply listed_lookup in Hin as [e He].
  unfold FS.getctime. rewrite He. now exists (FS.e_ctime e).
Qed.

(** Dropping entries never makes a path appear. *)
Lemma lookup_without_none (fs : FS.t) (c d : list string) :
  FS.lookup_comps fs d = None -> FS.lookup_comps (FS.without fs c) d = None.
Proof.
  unfold FS.lookup_comps, FS.without. induction fs as [|e fs IH]; simpl; [reflexivity|].
  destruct (FS.comps_eqb (FS.components (FS.e_path e)) d) eqn:Hd; [discriminate|].
  intros H. destruct (negb _); simpl; [rewrite Hd|]; now apply IH.
Qed.

(** Dropping the entries of one path leaves the lookup of any other path as
    it was, and empties the lookup of that path. *)
Lemma lookup_without (fs : FS.t) (c d : list string) :
  FS.lookup_comps (FS.without fs c) d =
  if FS.comps_eqb d c then None else FS.lookup_comps fs d.
Proof.
  unfold FS.lookup_comps, FS.without. induction fs as [|e fs IH]; simpl.
  - now destruct (FS.comps_eqb d c).
  - destruct (FS.comps_eqb (FS.components (FS.e_path e)) c) eqn:Hc; simpl.
    + rewrite IH. destruct (FS.comps_eqb d c) eqn:Hdc; [reflexivity|].
      destruct (FS.comps_eqb (FS.components (FS.e_path e)) d) eqn:Hd; [|reflexivity].
      apply comps_eqb_eq in Hc, Hd. subst. now rewrite comps_eqb_refl in Hdc.
    + destruct (FS.comps_eqb (FS.components (FS.e_path e)) d) eqn:Hd.
      * destruct (FS.comps_eqb d c) eqn:Hdc; [|reflexivity].
        apply comps_eqb_eq in Hd, Hdc. subst. now rewrite comps_eqb_refl in Hc.
      * exact IH.
Qed.

End FileSystemFacts.

(** ** The latest firmware (FirmwareManager.get_latest_firmware) *)

Section LatestFirmware.

Import FirmwareManager.

Lemma bind_getctime {B} (p : string) (t : Z) (k : Z -> M B) (w : World) :
  FS.getctime (fs w) p = inr t -> (x <- os_path_getctime p ;; k x) w = k t w.
Proof. intros H. unfold bind, os_path_getctime. now rewrite H. Qed.

(** The running maximum of [max]: from [best] with key [kb], over items that
    all have a creation time, the scan returns an item of [best :: rest]
    whose time bounds [kb] and every time in [rest], and leaves the world as
    it found it. *)
Lemma max_by_key_getctime (w : World) (rest : list string) :
  Forall (fun q => exists t, FS.getctime (fs w) q = inr t) rest ->
  forall best kb,
    FS.getctime (fs w) best = inr kb ->
    exists p tp,
      max_by_key os_path_getctime best kb rest w = (Ret p, w)
      /\ In p (best :: rest)
      /\ FS.getctime (fs w) p = inr tp
      /\ kb <= tp
      /\ Forall (fun q => exists tq, FS.getctime (fs w) q = inr tq /\ tq <= tp) rest.
Proof.
  induction 1 as [|q rest [tq Hq] _ IH]; intros best kb Hbest.
  - exists best, kb. cbn. repeat split; auto; try lia.
  - cbn [max_by_key]. rewrite (bind_getctime _ _ _ _ Hq).
    destruct (kb <? tq) eqn:Hlt.
    + apply Z.ltb_lt in Hlt.
      destruct (IH q tq Hq) as (p & tp & Hrun & Hin & Hp & Hle & Hall).
      exists p, tp. repeat split; auto.
      * destruct Hin as [<-|Hin]; [right; now left | right; now right].
      * lia.
      * constructor; [exists tq; split; [exact Hq | lia] | exact Hall].
    + apply Z.ltb_ge in Hlt.
      destruct (IH best kb Hbest) as (p & tp & Hrun & Hin & Hp & Hle & Hall).
      exists p, tp. repeat split; auto.
      * destruct Hin as [<-|Hin]; [now left | right; now right].
      * constructor; [exists tq; split; [exact Hq | lia] | exact Hall].
Qed.

(** C7. [get_latest_firmware(pattern)] never changes the file system.  When
    the pattern matches nothing it returns [None]; when it matches at least
    one file it returns exactly one path, a match whose creation time is
    maximal among all matches. *)
Theorem get_latest_firmware_returns_newest (fm : FirmwareManager.t)
  (pattern : string) (w : World) :
  let r := get_latest_firmware fm pattern w in
  fs (snd r) = fs w
  /\ match FS.glob (fs w) pattern with
     | [] => fst r = Ret PyNone
     | _ :: _ =>
         exists p tp,
           fst r = Ret (PyStr p)
           /\ In p (FS.glob (fs w) pattern)
           /\ FS.getctime (fs w) p = inr tp
           /\ Forall (fun q => exists tq, FS.getctime (fs w) q = inr tq /\ tq <= tp)
                     (FS.glob (fs w) pattern)
     end.
Proof.
  cbv zeta.
  pose proof (glob_getctime (fs w) pattern) as Hall.
  unfold get_latest_firmware, glob_glob. rewrite bind_gets.
  destruct (FS.glob (fs w) pattern) as [|first rest].
  - split; reflexivity.
  - destruct (Hall first (or_introl eq_refl)) as [k Hk].
    assert (Hrest : Forall (fun q => exists t, FS.getctime (fs w) q = inr t) rest).
    { apply Forall_forall. intros q Hq. apply Hall. now right. }
    destruct (max_by_key_getctime w rest Hrest first k Hk)
      as (p & tp & Hrun & Hin & Hp & Hle & Hbound).
    rewrite (bind_getctime _ _ _ _ Hk), (bind_returned _ _ _ _ _ Hrun).
    split; [reflexivity|].
    exists p, tp. repeat split; auto.
    constructor; [exists k; split; [exact Hk | exact Hle] | exact Hbound].
Qed.

End LatestFirmware.

(** ** Three attempts (ESP32Flasher.execute_esptool_command) *)

Section Retry.

Import ESP32Flasher.
Variable env : Env.

Lemma bind_call_esptool {B} (params : list pyval) (k : M B) (w : World) :
  (call_esptool env params ;; k) w =
  match esptool_main env (calls is_esptool w) params with
  | FlashDone => k (with_event (Esptool params) w)
  | FlashRaises msg => (Raise (FlasherError msg), with_event (Esptool params) w)
  | FlashExits => (SystemExit, with_event (Esptool params) w)
  end.
Proof.
  unfold bind, call_esptool.
  now destruct (esptool_main env (calls is_esptool w) params).
Qed.

(** One round of the loop, by what the flasher answers. *)
Lemma round_run (n : nat) (attempts : Z) (message : string)
  (params : list pyval) (w : World) :
  esptool_rounds env (S n) attempts message params w =
  match esptool_main env (calls is_esptool w) params with
  | FlashDone =>
      (Ret tt, logged [Print message; Esptool params; Print (flashed_message w)] w)
  | FlashRaises msg =>
      if attempts + 1 =? 3 then
        (SystemExit,
         logged [Print message; Esptool params; Print msg; Print (gave_up_message w)] w)
      else
        esptool_rounds env n (attempts + 1) message params
          (logged [Print message; Esptool params; Print msg;
                   Print waiting_message; Sleep 5] w)
  | FlashExits => (SystemExit, logged [Print message; Esptool params] w)
  end.
Proof.
  cbn [esptool_rounds]. unfold try_except, print, time_sleep.
  rewrite bind_emit, bind_call_esptool.
  change (calls is_esptool (with_event (Print message) w)) with (calls is_esptool w).
  destruct (esptool_main env (calls is_esptool w) params) as [|msg|].
  - reflexivity.
  - cbn [exn_str]. rewrite bind_emit.
    destruct (attempts + 1 =? 3); reflexivity.
  - reflexivity.
Qed.

Lemma calls_logged (kind : event -> bool) (events : list event) (w : World) :
  calls kind (logged events w) = (List.length (filter kind events) + calls kind w)%nat.
Proof.
  unfold calls, logged. cbn [log].
  rewrite filter_app, length_app, filter_rev, length_rev. reflexivity.
Qed.

Lemma trace_logged (events : list event) (w : World) :
  trace (logged events w) = (trace w ++ events)%list.
Proof. unfold trace, logged. cbn [log]. now rewrite rev_app_distr, rev_involutive. Qed.

Lemma esptool_calls_app (a b : list event) :
  esptool_calls (a ++ b) = (esptool_calls a ++ esptool_calls b)%list.
Proof. unfold esptool_calls. apply flat_map_app. Qed.

Ltac run_round H :=
  rewrite round_run, ?calls_logged;
  cbn [filter is_esptool List.length Nat.add];
  rewrite H; cbn [Z.add Z.eqb Pos.eqb Pos.add Pos.succ].

Ltac read_trace :=
  cbn [fst snd]; rewrite !trace_logged, <- !app_assoc;
  split; [reflexivity|];
  split; [rewrite !esptool_calls_app; reflexivity | reflexivity].

(** C3. Any erase or write sub-step: when the flasher raises on the first two
    calls and succeeds on the third, [execute_esptool_command] calls it
    exactly three times and returns; when it raises on all three, the command
    calls it exactly three times, prints each error, sleeps 5 between the
    attempts, and ends the process. *)
Theorem execute_esptool_command_retries (message : string)
  (params : list pyval) (w : World) :
  let k := calls is_esptool w in
  let r := execute_esptool_command env message params w in
  (forall m1 m2,
      esptool_main env k params = FlashRaises m1 ->
      esptool_main env (S k) params = FlashRaises m2 ->
      esptool_main env (S (S k)) params = FlashDone ->
      fst r = Ret tt
      /\ esptool_calls (trace (snd r))
         = (esptool_calls (trace w) ++ [params; params; params])%list
      /\ trace (snd r) =
         (trace w ++
          [Print message; Esptool params; Print m1; Print waiting_message; Sleep 5;
           Print message; Esptool params; Print m2; Print waiting_message; Sleep 5;
           Print message; Esptool params; Print (flashed_message w)])%list)
  /\ (forall m1 m2 m3,
      esptool_main env k params = FlashRaises m1 ->
      esptool_main env (S k) params = FlashRaises m2 ->
      esptool_main env (S (S k)) params = FlashRaises m3 ->
      fst r = SystemExit
      /\ esptool_calls (trace (snd r))
         = (esptool_calls (trace w) ++ [params; params; params])%list
      /\ trace (snd r) =
         (trace w ++
          [Print message; Esptool params; Print m1; Print waiting_message; Sleep 5;
           Print message; Esptool params; Print m2; Print waiting_message; Sleep 5;
           Print message; Esptool params; Print m3; Print (gave_up_message w)])%list).
Proof.
  cbv zeta. unfold execute_esptool_command. split.
  - intros m1 m2 H1 H2 H3.
    run_round H1. run_round H2. run_round H3. read_trace.
  - intros m1 m2 m3 H1 H2 H3.
    run_round H1. run_round H2. run_round H3. read_trace.
Qed.

End Retry.

(** ** Invariants of the log and of the selection *)

Section InvariantRules.

Variable I : World -> Prop.

Lemma inv_ret {A} (a : A) : inv I (ret a).
Proof. intros w H. exact H. Qed.

Lemma inv_raise {A} (e : exn) : inv I (@raise A e).
Proof. intros w H. exact H. Qed.

Lemma inv_exit {A} : inv I (@exit A).
Proof. intros w H. exact H. Qed.

Lemma inv_out_of_fuel {A} : inv I (@out_of_fuel A).
Proof. intros w H. exact H. Qed.

Lemma inv_gets {A} (f : World -> A) : inv I (gets f).
Proof. intros w H. exact H. Qed.

Lemma inv_lift {A} (r : exn + A) : inv I (lift r).
Proof. intros w H. now destruct r. Qed.

Lemma inv_modify (f : World -> World) :
  (forall w, I w -> I (f w)) -> inv I (modify f).
Proof. intros Hf w H. now apply Hf. Qed.

Lemma inv_bind {A B} (m : M A) (k : A -> M B) :
  inv I m -> (forall a, inv I (k a)) -> inv I (bind m k).
Proof.
  intros Hm Hk w H. unfold bind. specialize (Hm w H).
  destruct (m w) as [[a|e| |] w']; cbn in *; auto. now apply Hk.
Qed.

Lemma inv_try {A} (body : M A) (handler : exn -> M A) :
  inv I body -> (forall e, inv I (handler e)) -> inv I (try_except body handler).
Proof.
  intros Hb Hh w H. unfold try_except. specialize (Hb w H).
  destruct (body w) as [[a|e| |] w']; cbn in *; auto. now apply Hh.
Qed.

Lemma inv_for_each {A} (l : list A) (body : A -> M unit) :
  (forall x, inv I (body x)) -> inv I (for_each l body).
Proof.
  intros Hb. induction l as [|x l IH]; cbn [for_each].
  - apply inv_ret.
  - apply inv_bind; [apply Hb | intros _; exact IH].
Qed.

End InvariantRules.

Ltac inv_split :=
  repeat first
    [ apply inv_ret | apply inv_raise | apply inv_exit | apply inv_gets
    | apply inv_lift | apply inv_out_of_fuel
    | match goal with
      | |- inv _ (bind _ _) => apply inv_bind; [|intros]
      | |- inv _ (for_each _ _) => apply inv_for_each; intros
      | |- inv _ (try_except _ _) => apply inv_try; [|intros]
      | |- inv _ (if ?b then _ else _) => destruct b
      | |- inv _ (match ?x with _ => _ end) => destruct x
      | |- inv _ (let (_, _) := ?x in _) => destruct x
      end ].

(** The prerequisite pass: whatever survives prints, downloads, git calls,
    file-system changes and assignments of the firmware attributes, survives
    [prereqcheck]. *)
Section PrerequisiteFrame.

Import ESP32Flasher.
Variable env : Env.
Variable I : World -> Prop.
Hypothesis I_fetch : forall e w, is_fetch_event e = true -> I w -> I (with_event e w).
Hypothesis I_fs : forall f w, I w -> I (with_fs f w).
Hypothesis I_fw : forall f w, keeps_selection f -> I w -> I (with_self f w).

Lemma inv_print (text : string) : inv I (print text).
Proof. apply inv_modify. intros w H. now apply I_fetch. Qed.

Lemma inv_os_path_exists (p : string) : inv I (FirmwareManager.os_path_exists p).
Proof. apply inv_gets. Qed.

Lemma inv_os_path_getctime (p : string) : inv I (FirmwareManager.os_path_getctime p).
Proof. intros w H. unfold FirmwareManager.os_path_getctime. now apply inv_lift. Qed.

Lemma inv_os_makedirs (p : string) : inv I (FirmwareManager.os_makedirs env p).
Proof.
  intros w H. unfold FirmwareManager.os_makedirs.
  destruct (FS.makedirs _ _ _); cbn; auto.
Qed.

Lemma inv_os_remove (p : string) : inv I (os_remove p).
Proof. intros w H. unfold os_remove. destruct (FS.remove _ _); cbn; auto. Qed.

Lemma inv_os_rmdir (p : string) : inv I (os_rmdir p).
Proof. intros w H. unfold os_rmdir. destruct (FS.rmdir _ _); cbn; auto. Qed.

Lemma inv_write_binary (p data : string) : inv I (write_binary env p data).
Proof.
  intros w H. unfold write_binary. destruct (FS.write_file _ _ _ _); cbn; auto.
Qed.

Lemma inv_git (cmd : git_command) : inv I (FirmwareManager.git env cmd).
Proof.
  intros w H. unfold FirmwareManager.git.
  assert (H' : I (with_event (Git cmd) w)) by now apply I_fetch.
  destruct (git_run env _ cmd); cbn; auto.
  destruct cmd; cbn; auto.
Qed.

Lemma inv_requests_get (url : string) : inv I (requests_get_ env url).
Proof.
  intros w H. unfold requests_get_.
  assert (H' : I (with_event (HttpGet url) w)) by now apply I_fetch.
  destruct (requests_get env _ url); cbn; auto.
Qed.

Lemma inv_assign_fw (f : Flasher -> Flasher) :
  keeps_selection f -> inv I (assign f).
Proof. intros Hf. apply inv_modify. intros w H. now apply I_fw. Qed.

Lemma inv_max_by_key (rest : list string) (best : string) (kb : Z) :
  inv I (FirmwareManager.max_by_key FirmwareManager.os_path_getctime best kb rest).
Proof.
  revert best kb. induction rest as [|x rest IH]; intros best kb;
    cbn [FirmwareManager.max_by_key].
  - apply inv_ret.
  - apply inv_bind; [apply inv_os_path_getctime|]. intros k.
    destruct (kb <? k); apply IH.
Qed.

Lemma inv_get_latest_firmware (fm : FirmwareManager.t) (pattern : string) :
  inv I (FirmwareManager.get_latest_firmware fm pattern).
Proof.
  unfold FirmwareManager.get_latest_firmware, FirmwareManager.glob_glob.
  inv_split; auto using inv_print, inv_os_path_getctime, inv_max_by_key.
Qed.

Lemma inv_check_and_download (fm : FirmwareManager.t) :
  inv I (FirmwareManager.check_and_download env fm).
Proof.
  unfold FirmwareManager.check_and_download.
  inv_split; auto using inv_print, inv_os_path_exists, inv_os_makedirs, inv_git.
Qed.

Lemma inv_download_asset (asset : option string) : inv I (download_asset env asset).
Proof.
  unfold download_asset.
  inv_split; auto using inv_requests_get, inv_write_binary.
Qed.

Lemma inv_checkforesp32marauder : inv I (checkforesp32marauder env).
Proof.
  unfold checkforesp32marauder.
  inv_split;
    auto using inv_print, inv_os_path_exists, inv_os_makedirs, inv_requests_get,
      inv_download_asset, inv_get_latest_firmware.
  all: apply inv_assign_fw; intros o; repeat split.
Qed.

Lemma inv_checkforevilportal : inv I (checkforevilportal env).
Proof.
  unfold checkforevilportal.
  inv_split;
    auto using inv_print, inv_os_path_exists, inv_os_makedirs, inv_requests_get,
      inv_write_binary.
  all: apply inv_assign_fw; intros o; repeat split.
Qed.

Lemma inv_checkfors3bin : inv I checkfors3bin.
Proof.
  unfold checkfors3bin. inv_split; auto using inv_get_latest_firmware.
  apply inv_assign_fw; intros o; repeat split.
Qed.

Lemma inv_checkforoldhardwarebin : inv I checkforoldhardwarebin.
Proof.
  unfold checkforoldhardwarebin. inv_split; auto using inv_get_latest_firmware.
  apply inv_assign_fw; intros o; repeat split.
Qed.

Lemma inv_checkforminibin : inv I checkforminibin.
Proof.
  unfold checkforminibin. inv_split; auto using inv_get_latest_firmware.
  apply inv_assign_fw; intros o; repeat split.
Qed.

Lemma inv_checkfornewhardwarebin : inv I checkfornewhardwarebin.
Proof.
  unfold checkfornewhardwarebin. inv_split; auto using inv_get_latest_firmware.
  apply inv_assign_fw; intros o; repeat split.
Qed.

Lemma inv_prereqcheck : inv I (prereqcheck env).
Proof.
  unfold prereqcheck.
  inv_split;
    auto using inv_print, inv_check_and_download, inv_checkforesp32marauder,
      inv_checkfors3bin, inv_checkforoldhardwarebin, inv_checkforminibin,
      inv_checkfornewhardwarebin, inv_checkforevilportal.
Qed.

End PrerequisiteFrame.

(** A property of the log that no event other than an esptool call can
    break holds throughout a session, once the two places that call esptool
    are known to keep it. *)
Section SessionInvariant.

Import ESP32Flasher.
Variable env : Env.
Variable J : list event -> Prop.
Hypothesis J_quiet : forall e lg, is_esptool e = false -> J lg -> J (e :: lg).

Lemma fetch_is_quiet (e : event) : is_fetch_event e = true -> is_esptool e = false.
Proof. now destruct e. Qed.

Lemma log_inv_emit (e : event) : is_esptool e = false -> inv (on_log J) (emit e).
Proof. intros He. apply inv_modify. intros w H. now apply J_quiet. Qed.

Lemma log_inv_assign (f : Flasher -> Flasher) : inv (on_log J) (assign f).
Proof. apply inv_modify. intros w H. exact H. Qed.

Lemma log_inv_prereqcheck : inv (on_log J) (prereqcheck env).
Proof.
  apply inv_prereqcheck.
  - intros e w He H. apply J_quiet; [now apply fetch_is_quiet | exact H].
  - intros f w H. exact H.
  - intros f w _ H. exact H.
Qed.

Lemma log_inv_list_comports : inv (on_log J) (list_comports env).
Proof. intros w H. now apply J_quiet. Qed.

Lemma log_inv_int_input (prompt : string) : inv (on_log J) (int_input env prompt).
Proof.
  intros w H. unfold int_input.
  assert (H' : on_log J (with_event (Input prompt) w)) by now apply J_quiet.
  now destruct (operator_input env _).
Qed.

Lemma log_inv_call_esptool (params : list pyval) :
  (forall lg, J lg -> J (Esptool params :: lg)) ->
  inv (on_log J) (call_esptool env params).
Proof.
  intros Hp w H. unfold call_esptool.
  assert (H' : on_log J (with_event (Esptool params) w)) by now apply Hp.
  now destruct (esptool_main env _ params).
Qed.

Lemma log_inv_esptool_rounds (params : list pyval) (message : string) :
  (forall lg, J lg -> J (Esptool params :: lg)) ->
  forall n attempts, inv (on_log J) (esptool_rounds env n attempts message params).
Proof.
  intros Hp. induction n as [|n IH]; intros attempts; cbn [esptool_rounds].
  - apply inv_ret.
  - unfold print, time_sleep.
    inv_split; auto using log_inv_emit, log_inv_call_esptool.
Qed.

Lemma log_inv_execute (params : list pyval) (message : string) :
  (forall lg, J lg -> J (Esptool params :: lg)) ->
  inv (on_log J) (execute_esptool_command env message params).
Proof. intros Hp. now apply log_inv_esptool_rounds. Qed.

Lemma log_inv_print_device_type (dev : string) : inv (on_log J) (print_device_type dev).
Proof. now apply log_inv_emit. Qed.

Lemma log_inv_checkforserialport (callee : M unit) :
  inv (on_log J) callee -> inv (on_log J) (checkforserialport env callee).
Proof.
  intros Hc. unfold checkforserialport, print.
  inv_split;
    auto using log_inv_emit, log_inv_assign, log_inv_list_comports,
      log_inv_print_device_type.
Qed.

Lemma log_inv_os_remove (p : string) : inv (on_log J) (os_remove p).
Proof. apply inv_os_remove. intros f w H. exact H. Qed.

Lemma log_inv_os_rmdir (p : string) : inv (on_log J) (os_rmdir p).
Proof. apply inv_os_rmdir. intros f w H. exact H. Qed.

Lemma log_inv_git (cmd : git_command) : inv (on_log J) (FirmwareManager.git env cmd).
Proof.
  apply inv_git.
  - intros e w He H. apply J_quiet; [now apply fetch_is_quiet | exact H].
  - intros f w H. exact H.
Qed.

Lemma log_inv_update_option (callee : M unit) :
  inv (on_log J) callee -> inv (on_log J) (update_option env callee).
Proof.
  intros Hc. unfold update_option, print.
  inv_split;
    auto using log_inv_emit, log_inv_git, log_inv_prereqcheck,
      log_inv_os_remove, log_inv_os_rmdir.
Qed.

Hypothesis J_erase : inv (on_log J) (erase_esp32 env).
Hypothesis J_flash :
  forall sp board u,
    inv (on_log J) (flashtheboard env (eraseparams_of sp) (flashparams_of sp board u)).

Lemma log_inv_flash_firmware (callee : M unit) :
  inv (on_log J) callee -> inv (on_log J) (flash_firmware env callee).
Proof.
  intros Hc. unfold flash_firmware, invalid_option, print.
  inv_split;
    auto using log_inv_emit, log_inv_assign, log_inv_update_option,
      log_inv_checkforserialport.
Qed.

Lemma log_inv_choose_fw (fuel : nat) : inv (on_log J) (choose_fw env fuel).
Proof.
  induction fuel as [|fuel IH]; cbn [choose_fw].
  - apply inv_out_of_fuel.
  - unfold print, time_sleep.
    inv_split;
      auto using log_inv_emit, log_inv_assign, log_inv_int_input,
        log_inv_flash_firmware.
Qed.

Lemma session_invariant (fuel : nat) (args_serialport : string)
  (args_preselect : option Z) (disk : FS.t) :
  J [] ->
  J (log (snd (EasyInstall.main env fuel args_serialport args_preselect disk))).
Proof.
  intros H0. unfold EasyInstall.main.
  apply (inv_bind (on_log J)); [apply log_inv_prereqcheck | |exact H0].
  intros _. apply log_inv_choose_fw.
Qed.

End SessionInvariant.

(** ** Erase, then write (ESP32Flasher.flashtheboard) *)

Section EraseThenWrite.

Import ESP32Flasher.
Variable env : Env.

Lemma erase_first_quiet (e : event) (lg : list event) :
  is_esptool e = false -> erase_first lg -> erase_first (e :: lg).
Proof. intros He H. cbn [erase_first]. now destruct e. Qed.

Lemma erase_first_erase (lg : list event) :
  erase_first lg -> erase_first (Esptool erase_command :: lg).
Proof.
  intros H. cbn [erase_first]. split; [|exact H].
  intros [Heq|[]]. discriminate Heq.
Qed.

Lemma erased_first_any (e : event) (lg : list event) :
  erased_first lg -> erased_first (e :: lg).
Proof.
  intros [H Hin]. split; [|now right].
  cbn [erase_first]. split; [|exact H]. now destruct e.
Qed.

Lemma erase_esp32_keeps_order : inv (on_log erase_first) (erase_esp32 env).
Proof.
  apply log_inv_execute; [exact erase_first_quiet | exact erase_first_erase].
Qed.

(** However [erase_esp32] ends, the bare erase call is on the log. *)
Lemma erase_esp32_erases (w : World) :
  on_log erase_first w -> on_log erased_first (snd (erase_esp32 env w)).
Proof.
  intros H. unfold erase_esp32, execute_esptool_command.
  assert (Hcall : forall more,
             on_log erased_first
               (logged (Print "Erasing firmware..." :: Esptool erase_command :: more) w)).
  { intros more. unfold on_log, logged. cbn [log rev].
    rewrite <- !app_assoc. induction (rev more) as [|e l IH]; cbn [app].
    - split; [|now left].
      apply erase_first_erase, erase_first_quiet; [reflexivity | exact H].
    - now apply erased_first_any. }
  change [PyStr "erase_flash"] with erase_command.
  rewrite round_run.
  destruct (esptool_main env (calls is_esptool w) erase_command) as [|msg|];
    [apply Hcall| |apply Hcall].
  cbn [Z.add Z.eqb Pos.eqb].
  apply (log_inv_esptool_rounds env erased_first); [|intros lg; apply erased_first_any|].
  - intros e lg _. apply erased_first_any.
  - apply Hcall.
Qed.

Lemma flashtheboard_keeps_order (eraseparams flashparams : list pyval) :
  inv (on_log erase_first) (flashtheboard env eraseparams flashparams).
Proof.
  intros w H. unfold flashtheboard. unfold bind at 1.
  pose proof (erase_esp32_erases w H) as Herased.
  destruct (erase_esp32 env w) as [[[]|e| |] w1]; cbn [snd] in *;
    try exact (proj1 Herased).
  refine (proj1 (_ : on_log erased_first _)).
  revert w1 Herased.
  change (inv (on_log erased_first)
            (fw <- gets (fun w => selectedfw (self w)) ;;
             board <- gets (fun w => selectedboard (self w)) ;;
             execute_esptool_command env
               ("Flashing " ++ pyval_str fw ++ " on " ++ pyval_str board) flashparams)).
  inv_split. apply log_inv_execute.
  - intros e lg _. apply erased_first_any.
  - intros lg. apply erased_first_any.
Qed.

Lemma erase_first_tail (a b : list event) : erase_first (a ++ b) -> erase_first b.
Proof. induction a as [|e a IH]; cbn; [auto | intros [_ H]; auto]. Qed.

Lemma erase_first_trace (lg : list event) :
  erase_first lg -> erase_before_every_write (rev lg).
Proof.
  intros H earlier params later Heq Hw.
  assert (Hlg : lg = (rev later ++ Esptool params :: rev earlier)%list).
  { rewrite <- (rev_involutive lg), Heq, rev_app_distr. cbn [rev].
    now rewrite <- app_assoc. }
  rewrite Hlg in H. apply erase_first_tail in H. cbn [erase_first] in H.
  apply in_rev. now apply H.
Qed.

Lemma grew_by_any (base first : list event) (e : event) (lg : list event) :
  grew_by base first lg -> grew_by base first (e :: lg).
Proof.
  intros [rest Hrest]. exists (rest ++ [e])%list. cbn [rev].
  now rewrite Hrest, <- !app_assoc.
Qed.

(** [flashtheboard] opens with the erase, whatever it is given. *)
Lemma flashtheboard_opens_with_erase (eraseparams flashparams : list pyval) (w : World) :
  grew_by (trace w) [Print "Erasing firmware..."; Esptool erase_command]
          (log (snd (flashtheboard env eraseparams flashparams w))).
Proof.
  set (G := grew_by (trace w) [Print "Erasing firmware..."; Esptool erase_command]).
  assert (Hany : forall e lg, G lg -> G (e :: lg)) by (intros; now apply grew_by_any).
  assert (Hcall : forall more,
             on_log G (logged (Print "Erasing firmware..." :: Esptool erase_command :: more) w)).
  { intros more. exists more. unfold logged. cbn [log].
    now rewrite rev_app_distr, rev_involutive. }
  assert (Herase : on_log G (snd (erase_esp32 env w))).
  { unfold erase_esp32, execute_esptool_command.
    change [PyStr "erase_flash"] with erase_command. rewrite round_run.
    destruct (esptool_main env (calls is_esptool w) erase_command) as [|msg|];
      [apply Hcall| |apply Hcall].
    cbn [Z.add Z.eqb Pos.eqb].
    apply (log_inv_esptool_rounds env G); [intros e lg _; apply Hany | apply Hany |].
    apply Hcall. }
  unfold flashtheboard. unfold bind at 1.
  destruct (erase_esp32 env w) as [[[]|e| |] w1]; cbn [snd] in *; try exact Herase.
  revert w1 Herase.
  change (inv (on_log G)
            (fw <- gets (fun w => selectedfw (self w)) ;;
             board <- gets (fun w => selectedboard (self w)) ;;
             execute_esptool_command env
               ("Flashing " ++ pyval_str fw ++ " on " ++ pyval_str board) flashparams)).
  inv_split. apply log_inv_execute; [intros e lg _; apply Hany | apply Hany].
Qed.

(** C9. In every session, whatever is chosen, an esptool call that mentions
    [write_flash] comes after a bare [erase_flash] call of the same session;
    and [flashtheboard] begins with that erase whatever its arguments. *)
Theorem write_is_preceded_by_erase :
  (forall fuel args_serialport args_preselect disk,
      erase_before_every_write
        (trace (snd (EasyInstall.main env fuel args_serialport args_preselect disk))))
  /\ (forall eraseparams flashparams w,
      exists rest,
        trace (snd (flashtheboard env eraseparams flashparams w))
        = (trace w ++ [Print "Erasing firmware..."; Esptool erase_command] ++ rest)%list).
Proof.
  split.
  - intros fuel sp pre disk. apply erase_first_trace.
    apply (session_invariant env erase_first).
    + exact erase_first_quiet.
    + exact erase_esp32_keeps_order.
    + intros. apply flashtheboard_keeps_order.
    + exact Logic.I.
  - intros e f w. exact (flashtheboard_opens_with_erase e f w).
Qed.

Lemma only_erase_and_write_quiet (e : event) (lg : list event) :
  is_esptool e = false -> only_erase_and_write lg -> only_erase_and_write (e :: lg).
Proof.
  intros He H params [Heq|Hin]; [subst e; discriminate He | now apply H].
Qed.

Lemma only_erase_and_write_call (params : list pyval) (lg : list event) :
  params = erase_command \/ is_write_command params ->
  only_erase_and_write lg -> only_erase_and_write (Esptool params :: lg).
Proof.
  intros Hp H ps [Heq|Hin]; [injection Heq as <-; exact Hp | now apply H].
Qed.

Lemma in_esptool_calls (params : list pyval) (tr : list event) :
  In params (esptool_calls tr) <-> In (Esptool params) tr.
Proof.
  unfold esptool_calls. rewrite in_flat_map. split.
  - intros (e & Hin & Hp). destruct e; cbn in Hp; try contradiction.
    destruct Hp as [<-|[]]. exact Hin.
  - intros Hin. exists (Esptool params). split; [exact Hin | now left].
Qed.

(** C10. [flashtheboard] ignores [eraseparams]; and in every session each
    esptool call is either exactly [['erase_flash']] or a write command, so
    no erase is ever called with a port, a baud rate or another flag. *)
Theorem erase_is_called_bare :
  (forall eraseparams eraseparams' flashparams,
      flashtheboard env eraseparams flashparams
      = flashtheboard env eraseparams' flashparams)
  /\ (forall fuel args_serialport args_preselect disk,
      Forall (fun params => params = erase_command \/ is_write_command params)
        (esptool_calls
           (trace (snd (EasyInstall.main env fuel args_serialport args_preselect disk))))).
Proof.
  split; [reflexivity|].
  intros fuel sp pre disk. apply Forall_forall. intros params Hin.
  apply in_esptool_calls in Hin. unfold trace in Hin. apply in_rev in Hin.
  revert params Hin.
  change (only_erase_and_write
            (log (snd (EasyInstall.main env fuel sp pre disk)))).
  apply (session_invariant env only_erase_and_write).
  - exact only_erase_and_write_quiet.
  - apply log_inv_execute; [exact only_erase_and_write_quiet|].
    intros lg. apply only_erase_and_write_call. now left.
  - intros sp' board u. unfold flashtheboard, erase_esp32.
    inv_split; apply log_inv_execute; try exact only_erase_and_write_quiet;
      intros lg; apply only_erase_and_write_call;
      [now left | right; now exists sp', board, u].
  - intros params [].
Qed.

End EraseThenWrite.

(** ** Selection (ESP32Flasher.choose_fw, flash_firmware) *)

Section InvalidChoice.

Import ESP32Flasher.
Variable env : Env.

Lemma dict_get_out_of_range (c : Z) :
  ~ (1 <= c <= 18) -> dict_get flash_options c = None.
Proof.
  intros Hc. unfold flash_options. cbn [dict_get].
  repeat match goal with
         | |- context [c =? ?k] => destruct (Z.eqb_spec c k); [lia|]
         end.
  reflexivity.
Qed.

Lemma flash_firmware_invalid (callee : M unit) (w : World) (c : Z) :
  fwchoice (self w) = Some c ->
  dict_get flash_options c = None ->
  flash_firmware env callee w = (SystemExit, with_event (Print invalid_message) w).
Proof.
  intros Hc Hd. unfold flash_firmware. rewrite bind_gets, Hc, Hd. reflexivity.
Qed.


Lemma choose_fw_preselected (fuel : nat) (w : World) (n : Z) :
  fwchoice (self w) = Some n ->
  choose_fw env (S fuel) w =
  flash_firmware env (choose_fw env fuel)
    (logged (preselect_warning n) (with_self (set_fwchoicepreselect true) w)).
Proof.
  intros Hsel. cbn [choose_fw]. rewrite bind_gets, Hsel.
  unfold print, time_sleep, assign.
  repeat first [rewrite bind_assoc | rewrite bind_modify | rewrite bind_emit].
  reflexivity.
Qed.

Lemma choose_fw_prompted (fuel : nat) (w : World) (n : Z) :
  fwchoice (self w) = None ->
  operator_input env (calls is_input w) = Some n ->
  choose_fw env (S fuel) w =
  flash_firmware env (choose_fw env fuel)
    (with_self (set_fwchoice (Some n))
       (logged menu_prompt (with_self (set_fwchoicepreselect false) w))).
Proof.
  intros Hsel Hin. cbn [choose_fw]. rewrite bind_gets, Hsel.
  unfold print, assign.
  repeat first [rewrite bind_assoc | rewrite bind_modify | rewrite bind_emit].
  unfold bind at 1. unfold int_input.
  change (calls is_input (with_event (Print choices) (with_self (set_fwchoicepreselect false) w)))
    with (calls is_input w).
  rewrite Hin. reflexivity.
Qed.

Lemma choose_fw_invalid (fuel : nat) (w : World) (c : Z) :
  ~ (1 <= c <= 18) ->
  fwchoice (self w) = Some c
  \/ (fwchoice (self w) = None /\ operator_input env (calls is_input w) = Some c) ->
  let r := choose_fw env (S fuel) w in
  fst r = SystemExit
  /\ exists evs,
      log (snd r) = (Print invalid_message :: evs ++ log w)%list
      /\ Forall (fun e => is_esptool e = false) evs.
Proof.
  intros Hc Hsel. apply dict_get_out_of_range in Hc. cbv zeta.
  destruct Hsel as [Hsel|[Hsel Hin]].
  - rewrite (choose_fw_preselected _ _ _ Hsel).
    rewrite (flash_firmware_invalid _ _ c); [|exact Hsel|exact Hc].
    split; [reflexivity|]. exists (rev (preselect_warning c)).
    split; [reflexivity|]. repeat constructor.
  - rewrite (choose_fw_prompted _ _ _ Hsel Hin).
    rewrite (flash_firmware_invalid _ _ c); [|reflexivity|exact Hc].
    split; [reflexivity|]. exists (rev menu_prompt).
    split; [reflexivity|]. repeat constructor.
Qed.

Lemma prereqcheck_untouched (preselect : option Z) :
  inv (untouched preselect) (prereqcheck env).
Proof.
  apply inv_prereqcheck.
  - intros e w He (H1 & H2 & H3). repeat split; auto; now destruct e.
  - intros f w H. exact H.
  - intros f w Hf (H1 & H2 & H3). repeat split; auto.
    cbn. rewrite <- H1. apply Hf.
Qed.

Lemma no_esptool_calls (w : World) :
  calls is_esptool w = 0%nat -> esptool_calls (trace w) = [].
Proof.
  unfold calls, trace. intros H. apply length_zero_iff_nil in H.
  destruct (esptool_calls (rev (log w))) as [|ps l] eqn:E; [reflexivity|].
  assert (Hin : In ps (esptool_calls (rev (log w)))) by (rewrite E; now left).
  apply in_esptool_calls, in_rev in Hin.
  assert (Hf : In (Esptool ps) (filter is_esptool (log w))) by (apply filter_In; now split).
  rewrite H in Hf. destruct Hf.
Qed.

Lemma filter_none_of {A} (f : A -> bool) (l : list A) :
  Forall (fun x => f x = false) l -> filter f l = [].
Proof.
  induction 1 as [|x l Hx _ IH]; cbn [filter]; [reflexivity|]. now rewrite Hx.
Qed.

(** C4. A session whose first choice lies outside 1..18 never calls the
    flasher; once the prerequisite pass is through, selection prints the
    error and ends the process. *)
Theorem invalid_choice_is_fatal (fuel : nat) (args_serialport : string)
  (args_preselect : option Z) (disk : FS.t) (c : Z) :
  ~ (1 <= c <= 18) ->
  first_choice env args_preselect = Some c ->
  let r := EasyInstall.main env (S fuel) args_serialport args_preselect disk in
  esptool_calls (trace (snd r)) = []
  /\ (fst (prereqcheck env (EasyInstall.start args_serialport args_preselect disk)) = Ret tt ->
      fst r = SystemExit
      /\ exists earlier, trace (snd r) = (earlier ++ [Print invalid_message])%list).
Proof.
  intros Hc Hfirst. cbv zeta. unfold EasyInstall.main.
  set (w0 := EasyInstall.start args_serialport args_preselect disk).
  assert (H0 : untouched args_preselect w0) by (repeat split).
  apply (prereqcheck_untouched args_preselect) in H0.
  unfold bind.
  destruct (prereqcheck env w0) as [[[]|e| |] w1]; cbn [fst snd] in *;
    try (split; [apply no_esptool_calls, H0 | discriminate]).
  destruct H0 as (Hsel & Hin & Hesp).
  assert (Hcase : fwchoice (self w1) = Some c
                  \/ (fwchoice (self w1) = None
                      /\ operator_input env (calls is_input w1) = Some c)).
  { rewrite Hsel, Hin. unfold first_choice in Hfirst.
    destruct args_preselect; [left; exact Hfirst | right; now split]. }
  destruct (choose_fw_invalid fuel w1 c Hc Hcase) as (Hexit & evs & Hlog & Hquiet).
  split.
  - apply no_esptool_calls. unfold calls. rewrite Hlog. cbn [filter is_esptool invalid_message].
    rewrite filter_app.
    rewrite (filter_none_of _ _ Hquiet). exact Hesp.
  - intros _. split; [exact Hexit|].
    exists (rev (evs ++ log w1)). unfold trace. rewrite Hlog. reflexivity.
Qed.
End InvalidChoice.

(** ** Device discovery (ESP32Flasher.checkforserialport) *)

Section Discovery.

Import ESP32Flasher.
Variable env : Env.

Lemma scan_vid_unmatched (vid : string) (ports : list port) (st : string * option string) :
  (forall q, In q ports -> matches vid q = false) -> scan_vid ports st vid = st.
Proof.
  unfold scan_vid. revert st. induction ports as [|q ports IH]; intros st Hno; cbn [fold_left].
  - reflexivity.
  - unfold scan_port at 2. fold (matches vid q). rewrite (Hno q (or_introl eq_refl)).
    apply IH. intros q' Hq'. apply Hno. now right.
Qed.

Lemma scan_vid_last (vid : string) (before after : list port) (p : port)
  (st : string * option string) :
  matches vid p = true ->
  (forall q, In q after -> matches vid q = false) ->
  scan_vid (before ++ p :: after) st vid = (device p, Some vid).
Proof.
  intros Hp Hafter. unfold scan_vid. rewrite fold_left_app. cbn [fold_left].
  unfold scan_port at 2. fold (matches vid p). rewrite Hp.
  now apply (scan_vid_unmatched vid after).
Qed.

Lemma scan_unmatched (vids : list string) (ports : list port) (st : string * option string) :
  (forall v q, In v vids -> In q ports -> matches v q = false) -> scan vids ports st = st.
Proof.
  unfold scan. revert st. induction vids as [|v vids IH]; intros st Hno; cbn [fold_left].
  - reflexivity.
  - rewrite scan_vid_unmatched; [|intros q Hq; apply Hno; [now left | exact Hq]].
    apply IH. intros v' q Hv Hq. apply Hno; [now right | exact Hq].
Qed.

Lemma scan_last (vb va : list string) (v : string) (pb pa : list port) (p : port)
  (st : string * option string) :
  matches v p = true ->
  (forall q, In q pa -> matches v q = false) ->
  (forall v' q, In v' va -> In q (pb ++ p :: pa) -> matches v' q = false) ->
  scan (vb ++ v :: va) (pb ++ p :: pa) st = (device p, Some v).
Proof.
  intros Hp Hpa Hva. unfold scan. rewrite fold_left_app. cbn [fold_left].
  rewrite (scan_vid_last v pb pa p _ Hp Hpa).
  now apply scan_unmatched.
Qed.

Lemma bind_list_comports {B} (k : list port -> M B) (w : World) :
  (ports <- list_comports env ;; k ports) w
  = k (comports env (calls is_comports w)) (with_event Comports w).
Proof. reflexivity. Qed.

Lemma checkforserialport_found (callee : M unit) (w : World)
  (vb va : list string) (v : string) (pb pa : list port) (p : port) :
  PyString.truthy (serialport (self w)) = false ->
  vids = (vb ++ v :: va)%list ->
  comports env (calls is_comports w) = (pb ++ p :: pa)%list ->
  matches v p = true ->
  (forall q, In q pa -> matches v q = false) ->
  (forall v' q, In v' va -> In q (pb ++ p :: pa) -> matches v' q = false) ->
  PyString.truthy (device p) = true ->
  checkforserialport env callee w
  = (Ret tt,
     logged [Print "Checking for serial port..."; Comports; device_hint v]
       (with_self (set_serialport (device p)) w)).
Proof.
  intros Hsp Hvids Hports Hp Hpa Hva Hdev.
  unfold checkforserialport. rewrite bind_gets, Hsp.
  unfold print. rewrite bind_emit, bind_list_comports.
  change (calls is_comports (with_event (Print "Checking for serial port...") w))
    with (calls is_comports w).
  rewrite Hports, Hvids, (scan_last vb va v pb pa p _ Hp Hpa Hva).
  unfold assign. rewrite bind_modify, Hdev. cbn [negb]. rewrite bind_ret.
  reflexivity.
Qed.

(** C5 (amended). In auto-discovery the vendor IDs are scanned in the order
    303A, 10C4, 1A86, 0483 and every match replaces the one before: the last
    vendor ID in that order that some port matches decides, and of the ports
    matching it the last one enumerated is kept. *)
Theorem discovery_keeps_last_match (callee : M unit) (w : World)
  (vb va : list string) (v : string) (pb pa : list port) (p : port) :
  PyString.truthy (serialport (self w)) = false ->
  vids = (vb ++ v :: va)%list ->
  comports env (calls is_comports w) = (pb ++ p :: pa)%list ->
  matches v p = true ->
  (forall q, In q pa -> matches v q = false) ->
  (forall v' q, In v' va -> In q (pb ++ p :: pa) -> matches v' q = false) ->
  PyString.truthy (device p) = true ->
  let r := checkforserialport env callee w in
  fst r = Ret tt
  /\ serialport (self (snd r)) = device p
  /\ trace (snd r)
     = (trace w ++ [Print "Checking for serial port..."; Comports; device_hint v])%list.
Proof.
  intros Hsp Hvids Hports Hp Hpa Hva Hdev. cbv zeta.
  rewrite (checkforserialport_found callee w vb va v pb pa p Hsp Hvids Hports Hp Hpa Hva Hdev).
  cbn [fst snd]. rewrite trace_logged. repeat split.
Qed.

(** With a 303A and a 10C4 device attached the specification's words pick
    the 303A port; the scan, and so [checkforserialport], ends on the 10C4
    port. *)
Lemma first_vendor_does_not_win :
  let env := offline always_done two_devices 1 in
  let w := EasyInstall.start EmptyString (Some 1) cached_disk in
  selection_as_specified vids two_devices = Some ("/dev/ttyACM0", "303A")
  /\ scan vids two_devices (EmptyString, None) = ("/dev/ttyUSB0", Some "10C4")
  /\ serialport (self (snd (checkforserialport env (choose_fw env 1) w)))
     = "/dev/ttyUSB0".
Proof. vm_compute. repeat split. Qed.

End Discovery.

(** ** Refreshing the caches (ESP32Flasher.update_option) *)

Section Update.

Import ESP32Flasher.
Variable env : Env.

Lemma os_remove_only_deletes (w0 : World) (p : string) : inv (only_deleted w0) (os_remove p).
Proof.
  intros w (Hself & Hlog & Hnone & Hfile). unfold os_remove, FS.remove.
  destruct (FS.lookup (fs w) p) as [e|]; [|now repeat split].
  destruct (FS.e_kind e); [|now repeat split].
  cbn [snd with_fs self log fs]. repeat split; auto.
  - intros d Hd. apply lookup_without_none. now apply Hnone.
  - intros d Hd. apply Hfile. unfold FS.is_file in *.
    cbn [snd with_fs fs] in Hd. rewrite lookup_without in Hd.
    destruct (FS.comps_eqb d (FS.components p)); [discriminate | exact Hd].
Qed.

Lemma bind_os_remove {B} (p : string) (k : M B) (w : World) :
  (os_remove p ;; k) w
  = match FS.remove (fs w) p with
    | inl e => (Raise e, w)
    | inr f => k (with_fs f w)
    end.
Proof. unfold bind, os_remove. now destruct (FS.remove (fs w) p). Qed.

Lemma plain_ret {A} (a : A) : plain (ret a).
Proof. intros w. left. now exists a. Qed.

Lemma plain_gets {A} (f : World -> A) : plain (gets f).
Proof. intros w. left. now exists (f w). Qed.

Lemma plain_print (text : string) : plain (print text).
Proof. intros w. left. now exists tt. Qed.

Lemma plain_bind {A B} (m : M A) (k : A -> M B) :
  plain m -> (forall a, plain (k a)) -> plain (bind m k).
Proof.
  intros Hm Hk w. unfold bind. specialize (Hm w).
  destruct (m w) as [[a|e| |] w']; cbn [fst] in *.
  - apply Hk.
  - right. now exists e.
  - destruct Hm as [[a Ha]|[e He]]; discriminate.
  - destruct Hm as [[a Ha]|[e He]]; discriminate.
Qed.

Lemma plain_os_remove (p : string) : plain (os_remove p).
Proof.
  intros w. unfold os_remove.
  destruct (FS.remove (fs w) p) as [e|f]; [right; now exists e | left; now exists tt].
Qed.

Lemma plain_for_each {A} (l : list A) (body : A -> M unit) :
  (forall x, plain (body x)) -> plain (for_each l body).
Proof.
  intros Hb. induction l as [|x l IH]; cbn [for_each].
  - apply plain_ret.
  - apply plain_bind; [apply Hb | intros _; exact IH].
Qed.

Lemma delete_cached_files_only_deletes (w : World) :
  only_deleted (with_event (Print deleting_message) w) (snd (delete_cached_files w)).
Proof.
  unfold delete_cached_files, print. rewrite bind_emit.
  set (w1 := with_event (Print deleting_message) w).
  assert (Hinv : inv (only_deleted w1)
            (paths <- gets (fun w => FS.rglob (fs w) "ESP32Marauder/*/*") ;;
             for_each paths os_remove ;;
             paths <- gets (fun w => FS.rglob (fs w) "EvilPortal/*") ;;
             for_each paths os_remove)).
  { inv_split; apply os_remove_only_deletes. }
  apply Hinv. repeat split; auto.
Qed.

Lemma delete_cached_files_plain : plain delete_cached_files.
Proof.
  unfold delete_cached_files.
  repeat first [ apply plain_bind; [|intros] | apply plain_print | apply plain_gets
               | apply plain_for_each; intros | apply plain_os_remove ].
Qed.

Lemma bind_raised {A B} (m : M A) (k : A -> M B) (w w' : World) (e : exn) :
  m w = (Raise e, w') -> (x <- m ;; k x) w = (Raise e, w').
Proof. intros H. unfold bind. now rewrite H. Qed.

Lemma bind_os_rmdir {B} (p : string) (k : M B) (w : World) :
  (os_rmdir p ;; k) w
  = match FS.rmdir (fs w) p with
    | inl e => (Raise e, w)
    | inr f => k (with_fs f w)
    end.
Proof. unfold bind, os_rmdir. now destruct (FS.rmdir (fs w) p). Qed.

Lemma bind_ext {A B} (m : M A) (k k' : A -> M B) (w : World) :
  (forall a w', k a w' = k' a w') -> (x <- m ;; k x) w = (x <- m ;; k' x) w.
Proof. intros H. unfold bind. destruct (m w) as [[a|e| |] w']; auto. Qed.

Lemma update_option_split (callee : M unit) (w : World) :
  update_option env callee w
  = (delete_cached_files ;;
     os_rmdir releases_dir ;;
     os_rmdir "ESP32Marauder" ;;
     os_rmdir "EvilPortal" ;;
     FirmwareManager.git env (GitOpen "Extra_ESP32_Bins") ;;
     FirmwareManager.git env (GitResetHard "Extra_ESP32_Bins") ;;
     FirmwareManager.git env (GitCleanXdf "Extra_ESP32_Bins") ;;
     FirmwareManager.git env (GitPull "Extra_ESP32_Bins") ;;
     prereqcheck env ;;
     callee) w.
Proof.
  unfold update_option, delete_cached_files, print, releases_dir.
  rewrite bind_assoc, !bind_emit, bind_assoc, !bind_gets, bind_assoc.
  apply bind_ext. intros _ w2.
  rewrite bind_assoc, !bind_gets. reflexivity.
Qed.

(** C8 (amended). When [update_option] runs while ESP32Marauder/releases
    does not exist, it always ends in an uncaught exception, having done
    nothing but print its first line: no git call, no prerequisite pass, no
    return to the menu.  When the deletions before the [os.rmdir] calls run
    through and ESP32Marauder is not a regular file, that exception is the
    FileNotFoundError of [os.rmdir('ESP32Marauder/releases')]. *)
Theorem update_without_releases_is_fatal (callee : M unit) (w : World) :
  FS.exists_ (fs w) releases_dir = false ->
  let r := update_option env callee w in
  (exists e, fst r = Raise e)
  /\ trace (snd r) = (trace w ++ [Print deleting_message])%list
  /\ (fst (delete_cached_files w) = Ret tt ->
      FS.is_file (fs w) (FS.components "ESP32Marauder") = false ->
      fst r = Raise (FileNotFoundError releases_dir)).
Proof.
  intros Hmissing. cbv zeta. rewrite update_option_split.
  pose proof (delete_cached_files_only_deletes w) as (Hself & Hlog & Hnone & Hfile).
  pose proof (delete_cached_files_plain w) as Hout.
  assert (Hgone : FS.lookup (fs (snd (delete_cached_files w))) releases_dir = None).
  { apply Hnone. unfold FS.exists_ in Hmissing. cbn [with_event fs].
    change (FS.components releases_dir) with ["ESP32Marauder"; "releases"] in Hmissing.
    cbv iota in Hmissing.
    change (FS.components releases_dir) with ["ESP32Marauder"; "releases"].
    now destruct (FS.lookup_comps (fs w) ["ESP32Marauder"; "releases"]). }
  destruct (delete_cached_files w) as [o w2] eqn:Hdel. cbn [fst snd] in *.
  assert (Htrace : trace w2 = (trace w ++ [Print deleting_message])%list)
    by (unfold trace; now rewrite Hlog).
  destruct Hout as [[[] ->]|[e ->]].
  - rewrite (bind_returned _ _ _ _ _ Hdel), bind_os_rmdir.
    unfold FS.rmdir. rewrite Hgone. cbn [fst snd].
    split; [eexists; reflexivity|]. split; [exact Htrace|].
    intros _ Hnofile. unfold FS.missing.
    replace (FS.under_a_file (fs w2) (FS.components releases_dir)) with false; [reflexivity|].
    symmetry. change (FS.components releases_dir) with ["ESP32Marauder"; "releases"].
    cbn [FS.under_a_file FS.ancestors map existsb]. rewrite orb_false_r.
    destruct (FS.is_file (fs w2) ["ESP32Marauder"]) eqn:Hf; [|reflexivity].
    apply Hfile in Hf. cbn [with_event fs] in Hf.
    change (FS.components "ESP32Marauder") with ["ESP32Marauder"] in Hnofile. congruence.
  - rewrite (bind_raised _ _ _ _ _ Hdel). cbn [fst snd].
    split; [now exists e|]. split; [exact Htrace|]. discriminate.
Qed.

Lemma choice_17_runs_update (callee : M unit) (w : World) :
  fwchoice (self w) = Some 17 ->
  flash_firmware env callee w
  = update_option env callee
      (with_self (set_selected (PyStr "Update all files") PyNone) w).
Proof.
  intros H. unfold flash_firmware. rewrite bind_gets, H. reflexivity.
Qed.

End Update.


(** With a folder inside EvilPortal and no release cache, the update dies in
    [os.remove] on that folder, before it ever looks at
    ESP32Marauder/releases. *)
Lemma update_can_fail_before_rmdir :
  let env := offline always_done [] 17 in
  let w := EasyInstall.start "/dev/ttyUSB0" (Some 17) disk_with_folder_in_cache in
  FS.exists_ (fs w) releases_dir = false
  /\ fst (ESP32Flasher.update_option env (ESP32Flasher.choose_fw env 3) w)
     = Raise (IsADirectoryError "EvilPortal/backup").
Proof. vm_compute. split; reflexivity. Qed.

Lemma update_without_releases_is_fatal_witness :
  let env := offline always_done [] 17 in
  let w := EasyInstall.start "/dev/ttyUSB0" (Some 17) disk_without_releases in
  FS.exists_ (fs w) releases_dir = false
  /\ fst (ESP32Flasher.update_option env (ESP32Flasher.choose_fw env 3) w)
     = Raise (FileNotFoundError releases_dir).
Proof.
  cbv zeta. split; [reflexivity|].
  destruct (update_without_releases_is_fatal
              (offline always_done [] 17)
              (ESP32Flasher.choose_fw (offline always_done [] 17) 3)
              (EasyInstall.start "/dev/ttyUSB0" (Some 17) disk_without_releases)
              eq_refl) as (_ & _ & H).
  apply H; reflexivity.
Defined.

(** ** When no device is found (checkforserialport and choose_fw) *)

Section NoDevice.

Import ESP32Flasher.
Variable env : Env.

(** Discovery that finds nothing: what happens next is decided by
    [fwchoicepreselect] alone.  With the flag set the process exits on the
    spot; without it [choose_fw] is called, and should that call return the
    unbound local [device] is read. *)
Lemma checkforserialport_not_found (callee : M unit) (w : World) :
  PyString.truthy (serialport (self w)) = false ->
  (forall v q, In v vids -> In q (comports env (calls is_comports w)) ->
               matches v q = false) ->
  checkforserialport env callee w
  = let w' := logged not_found_events
                (with_self (set_serialport (serialport (self w))) w) in
    match fwchoicepreselect (self w) with
    | None => (Raise (AttributeError "fwchoicepreselect"), w')
    | Some true => (SystemExit, w')
    | Some false => (callee ;; raise (UnboundLocalError "device")) w'
    end.
Proof.
  intros Hsp Hno. unfold checkforserialport. rewrite bind_gets, Hsp.
  unfold print. rewrite bind_emit, bind_list_comports.
  change (calls is_comports (with_event (Print "Checking for serial port...") w))
    with (calls is_comports w).
  rewrite (scan_unmatched _ _ _ Hno).
  unfold assign. rewrite bind_modify, Hsp. cbn [negb].
  repeat first [rewrite bind_assoc | rewrite bind_emit].
  rewrite bind_gets. cbn [self with_event with_self fwchoicepreselect set_serialport].
  destruct (fwchoicepreselect (self w)) as [[|]|]; reflexivity.
Qed.

(** The call of [choose_fw] from a failed discovery finds the choice that
    was being flashed still set: it prints the preselection warning, sleeps,
    and flashes that choice again.  It shows no menu and asks nothing. *)
Lemma fallback_reuses_the_choice (fuel : nat) (w : World) (n : Z) :
  PyString.truthy (serialport (self w)) = false ->
  (forall v q, In v vids -> In q (comports env (calls is_comports w)) ->
               matches v q = false) ->
  fwchoicepreselect (self w) = Some false ->
  fwchoice (self w) = Some n ->
  checkforserialport env (choose_fw env (S fuel)) w
  = (flash_firmware env (choose_fw env fuel) ;; raise (UnboundLocalError "device"))
      (logged (not_found_events ++ preselect_warning n)
         (with_self (set_fwchoicepreselect true)
            (with_self (set_serialport (serialport (self w))) w))).
Proof.
  intros Hsp Hno Hpre Hsel.
  rewrite (checkforserialport_not_found _ _ Hsp Hno), Hpre. cbv zeta.
  unfold bind at 1. rewrite (choose_fw_preselected env fuel _ n); [|exact Hsel].
  reflexivity.
Qed.

End NoDevice.

(** C6. An interactive session (no --preselect, no --serialport), the
    operator types 1, no device is attached.  After the failed discovery the
    menu is not shown and nothing is asked: the choice is treated as
    preselected, discovery runs a second time and the process exits. *)
Theorem no_device_fallback_skips_the_menu :
  let env := offline always_done [] 1 in
  let r := EasyInstall.main env 3 EmptyString None cached_disk in
  let w0 := snd (ESP32Flasher.prereqcheck env
                   (EasyInstall.start EmptyString None cached_disk)) in
  fst r = SystemExit
  /\ trace (snd r)
     = (trace w0 ++ menu_prompt ++ not_found_events ++ preselect_warning 1
        ++ not_found_events)%list
  /\ calls is_input (snd r) = 1%nat.
Proof. vm_compute. repeat split. Qed.

(** ** The option table (ESP32Flasher.flash_firmware) *)

(** C1. Choices 7, 14 and 15 never reach parameter resolution: their rows
    are eleven and five elements long, and the nine-name assignment raises
    ValueError, whatever the state. *)
Theorem rows_7_14_15_do_not_unpack (env : Env) (callee : M unit) (w : World) :
  ESP32Flasher.flash_firmware env callee (with_self (set_fwchoice (Some 7)) w)
  = (Raise (ValueError "too many values to unpack (expected 9)"),
     with_self (set_fwchoice (Some 7)) w)
  /\ ESP32Flasher.flash_firmware env callee (with_self (set_fwchoice (Some 14)) w)
     = (Raise (ValueError "not enough values to unpack (expected 9, got 5)"),
        with_self (set_fwchoice (Some 14)) w)
  /\ ESP32Flasher.flash_firmware env callee (with_self (set_fwchoice (Some 15)) w)
     = (Raise (ValueError "not enough values to unpack (expected 9, got 5)"),
        with_self (set_fwchoice (Some 15)) w).
Proof. repeat split. Qed.

(** As listed in the table, the offsets of all fifteen flashable rows
    ascend. *)
Lemma table_offsets_ascend :
  Forall (fun n => match ESP32Flasher.dict_get ESP32Flasher.flash_options n with
                   | Some row => ascending (row_offsets row) = true
                   | None => False
                   end) [1;2;3;4;5;6;7;8;9;10;11;12;13;14;15].
Proof. repeat constructor. Qed.

(** For the twelve rows that unpack, the three pairs handed to the write
    ascend in offset. *)
Lemma unpacked_offsets_ascend :
  Forall (fun n => match ESP32Flasher.dict_get ESP32Flasher.flash_options n with
                   | Some row =>
                       match ESP32Flasher.unpack9 row with
                       | inr u => ascending (write_offsets u) = true
                       | inl _ => False
                       end
                   | None => False
                   end) [1;2;3;4;5;6;8;9;10;11;12;13].
Proof. repeat constructor. Qed.

(** The last field of every cache-backed row is the attribute's name as a
    string literal. *)
Lemma cache_backed_rows_hold_names :
  map (fun n => match ESP32Flasher.dict_get ESP32Flasher.flash_options n with
                | Some row => last row PyNone
                | None => PyNone
                end) [1;4;5;6;7;8;9;10;11;12;13;14;15]
  = [PyStr "esp32marauderfw"; PyStr "espoldhardwarefw"; PyStr "esp32minifw";
     PyStr "espnewhardwarefw"; PyStr "esp32s3fw"; PyStr "espoldhardwarefw";
     PyStr "esp32marauderfw"; PyStr "esp32marauderfw"; PyStr "esp32marauderfw";
     PyStr "espnewhardwarefw"; PyStr "esp32minifw"; PyStr "evilportalfwwroom";
     PyStr "evilportalfws2"].
Proof. reflexivity. Qed.

(** C2. Choice 1 with a port given and the release cache in place: the
    prerequisite pass resolves [esp32marauderfw] to the newest flipper image,
    yet the write is called with the literal text [esp32marauderfw] as its
    last binary. *)
Theorem write_passes_the_attribute_name :
  let env := offline always_done [] 1 in
  let r := EasyInstall.main env 3 "/dev/ttyUSB0" (Some 1) cached_disk in
  fst r = Ret tt
  /\ esp32marauderfw (self (snd r))
     = PyStr "ESP32Marauder/releases/esp32_marauder_v1_0_0_flipper.bin"
  /\ esptool_calls (trace (snd r))
     = [ erase_command;
         [PyStr "-p"; PyStr "/dev/ttyUSB0"; PyStr "-b"; PyStr "115200"; PyStr "-c";
          PyStr "ESP32-S2"; PyStr "--before"; PyStr "default_reset"; PyStr "-a";
          PyStr "no_reset"; PyStr "write_flash"; PyStr "--flash_mode"; PyStr "dio";
          PyStr "--flash_freq"; PyStr "80m"; PyStr "--flash_size"; PyStr "4MB";
          PyStr "0x1000"; PyStr "Marauder/bootloader.bin";
          PyStr "0x8000"; PyStr "Marauder/partitions.bin";
          PyStr "0x10000"; PyStr "esp32marauderfw"] ].
Proof. vm_compute. repeat split. Qed.

(** ** Instances *)

Lemma execute_esptool_command_retries_witness :
  let w := EasyInstall.start "/dev/ttyUSB0" (Some 16) cached_disk in
  let lucky := offline third_time_lucky [] 16 in
  let unlucky := offline never_works [] 16 in
  (fst (ESP32Flasher.execute_esptool_command lucky "Erasing firmware..." erase_command w)
   = Ret tt
   /\ esptool_calls
        (trace (snd (ESP32Flasher.execute_esptool_command lucky "Erasing firmware..."
                       erase_command w)))
      = [erase_command; erase_command; erase_command])
  /\ (fst (ESP32Flasher.execute_esptool_command unlucky "Erasing firmware..."
             erase_command w)
      = SystemExit
      /\ esptool_calls
           (trace (snd (ESP32Flasher.execute_esptool_command unlucky
                          "Erasing firmware..." erase_command w)))
         = [erase_command; erase_command; erase_command]).
Proof.
  cbv zeta. split.
  - destruct (proj1 (execute_esptool_command_retries
                       (offline third_time_lucky [] 16) "Erasing firmware..."
                       erase_command
                       (EasyInstall.start "/dev/ttyUSB0" (Some 16) cached_disk))
                "Failed to connect" "Timed out" eq_refl eq_refl eq_refl)
      as (H1 & H2 & _).
    split; [exact H1 | exact H2].
  - destruct (proj2 (execute_esptool_command_retries
                       (offline never_works [] 16) "Erasing firmware..."
                       erase_command
                       (EasyInstall.start "/dev/ttyUSB0" (Some 16) cached_disk))
                "Failed to connect" "Failed to connect" "Failed to connect"
                eq_refl eq_refl eq_refl)
      as (H1 & H2 & _).
    split; [exact H1 | exact H2].
Defined.

Lemma invalid_choice_is_fatal_witness :
  let env := offline always_done [] 99 in
  let r := EasyInstall.main env 1 "/dev/ttyUSB0" (Some 99) cached_disk in
  ~ (1 <= 99 <= 18)
  /\ first_choice env (Some 99) = Some 99
  /\ esptool_calls (trace (snd r)) = []
  /\ fst r = SystemExit.
Proof.
  cbv zeta.
  assert (Hc : ~ (1 <= 99 <= 18)) by lia.
  split; [exact Hc|]. split; [reflexivity|].
  destruct (invalid_choice_is_fatal (offline always_done [] 99) 0 "/dev/ttyUSB0"
              (Some 99) cached_disk 99 Hc eq_refl) as (H1 & H2).
  split; [exact H1|]. apply H2. reflexivity.
Defined.

Lemma discovery_keeps_last_match_witness :
  let env := offline always_done three_devices 1 in
  let w := EasyInstall.start EmptyString (Some 1) cached_disk in
  let r := ESP32Flasher.checkforserialport env (ESP32Flasher.choose_fw env 1) w in
  fst r = Ret tt
  /\ serialport (self (snd r)) = "/dev/ttyUSB1"
  /\ trace (snd r)
     = [Print "Checking for serial port..."; Comports; device_hint "10C4"].
Proof.
  cbv zeta.
  apply (discovery_keeps_last_match (offline always_done three_devices 1)
           (ESP32Flasher.choose_fw (offline always_done three_devices 1) 1)
           (EasyInstall.start EmptyString (Some 1) cached_disk)
           ["303A"] ["1A86"; "0483"] "10C4"
           [ mkPort "/dev/ttyACM0" "USB VID:PID=303A:1001 SER=7C:DF:A1 LOCATION=1-1";
             mkPort "/dev/ttyUSB0" "USB VID:PID=10C4:EA60 SER=0001 LOCATION=1-2" ]
           []
           (mkPort "/dev/ttyUSB1" "USB VID:PID=10C4:EA60 SER=0002 LOCATION=1-3")).
  - reflexivity.
  - reflexivity.
  - reflexivity.
  - reflexivity.
  - intros q [].
  - intros v' q [<-|[<-|[]]] [<-|[<-|[<-|[]]]]; reflexivity.
  - reflexivity.
Defined.

(** * Further properties *)

(** ** FirmwareManager.py *)

Section FirmwareManagerFacts.

Import FirmwareManager.
Variable env : Env.

(** The scan of [max] with its history: [b1] and [b2] are the items seen
    before and after the current best; the best is strictly newer than all of
    [b1] and at least as new as all of [b2]. *)
Lemma max_by_key_first (w : World) (rest : list string) :
  Forall (fun q => exists t, FS.getctime (fs w) q = inr t) rest ->
  forall b1 best b2 kb,
    FS.getctime (fs w) best = inr kb ->
    Forall (older_than w kb) b1 ->
    Forall (not_newer_than w kb) b2 ->
    exists c1 p c2 tp,
      max_by_key os_path_getctime best kb rest w = (Ret p, w)
      /\ (b1 ++ best :: b2 ++ rest = c1 ++ p :: c2)%list
      /\ FS.getctime (fs w) p = inr tp
      /\ Forall (older_than w tp) c1
      /\ Forall (not_newer_than w tp) c2.
Proof.
  induction 1 as [|x rest [k Hk] _ IH]; intros b1 best b2 kb Hbest Hb1 Hb2.
  - exists b1, best, b2, kb. rewrite app_nil_r. repeat split; auto.
  - cbn [max_by_key]. rewrite (bind_getctime _ _ _ _ Hk).
    destruct (kb <? k) eqn:Hlt.
    + apply Z.ltb_lt in Hlt.
      destruct (IH (b1 ++ best :: b2)%list x [] k Hk) as (c1 & p & c2 & tp & Hrun & Heq & Hp & Hc1 & Hc2).
      * apply Forall_app. split.
        -- eapply Forall_impl; [|exact Hb1]. intros q (tq & Hq & Hle). exists tq. split; [exact Hq | lia].
        -- constructor; [exists kb; split; [exact Hbest | lia]|].
           eapply Forall_impl; [|exact Hb2]. intros q (tq & Hq & Hle). exists tq. split; [exact Hq | lia].
      * constructor.
      * exists c1, p, c2, tp. repeat split; auto.
        rewrite <- Heq. cbn [app]. now rewrite <- app_assoc.
    + apply Z.ltb_ge in Hlt.
      destruct (IH b1 best (b2 ++ [x])%list kb Hbest Hb1) as (c1 & p & c2 & tp & Hrun & Heq & Hp & Hc1 & Hc2).
      * apply Forall_app. split; [exact Hb2|].
        constructor; [|constructor]. exists k. split; [exact Hk | exact Hlt].
      * exists c1, p, c2, tp. repeat split; auto.
        rewrite <- Heq. now rewrite <- app_assoc.
Qed.

(** X1. Among several matches of equal, newest creation time
    [get_latest_firmware] returns the one [glob] lists first: every match
    listed before the result is strictly older, every match after it is not
    newer. *)
Theorem get_latest_firmware_prefers_the_first (fm : FirmwareManager.t)
  (pattern : string) (w : World) :
  match FS.glob (fs w) pattern with
  | [] => fst (get_latest_firmware fm pattern w) = Ret PyNone
  | _ :: _ =>
      exists before p after tp,
        fst (get_latest_firmware fm pattern w) = Ret (PyStr p)
        /\ FS.glob (fs w) pattern = (before ++ p :: after)%list
        /\ FS.getctime (fs w) p = inr tp
        /\ Forall (older_than w tp) before
        /\ Forall (not_newer_than w tp) after
  end.
Proof.
  pose proof (glob_getctime (fs w) pattern) as Hall.
  unfold get_latest_firmware, glob_glob. rewrite bind_gets.
  destruct (FS.glob (fs w) pattern) as [|first rest]; [reflexivity|].
  destruct (Hall first (or_introl eq_refl)) as [k Hk].
  assert (Hrest : Forall (fun q => exists t, FS.getctime (fs w) q = inr t) rest).
  { apply Forall_forall. intros q Hq. apply Hall. now right. }
  destruct (max_by_key_first w rest Hrest [] first [] k Hk)
    as (c1 & p & c2 & tp & Hrun & Heq & Hp & Hc1 & Hc2); try constructor.
  rewrite (bind_getctime _ _ _ _ Hk), (bind_returned _ _ _ _ _ Hrun).
  exists c1, p, c2, tp. repeat split; auto.
Qed.

End FirmwareManagerFacts.

(** ** Paths and directories *)

Section PathFacts.

Lemma split_on_parts (sep : ascii) (s : string) :
  Forall (fun x => has_char sep x = false) (PyString.split_on sep s).
Proof.
  induction s as [|c s IH]; cbn [PyString.split_on].
  - repeat constructor.
  - destruct (Ascii.eqb c sep) eqn:Hc.
    + constructor; [reflexivity | exact IH].
    + destruct (PyString.split_on sep s) as [|h t].
      * repeat constructor. cbn. now rewrite Hc.
      * inversion IH; subst. constructor; [cbn; now rewrite Hc | assumption].
Qed.

Lemma split_on_nonempty (sep : ascii) (s : string) : PyString.split_on sep s <> [].
Proof.
  destruct s as [|c s]; cbn [PyString.split_on]; [discriminate|].
  destruct (Ascii.eqb c sep); [discriminate|].
  destruct (PyString.split_on sep s); discriminate.
Qed.

Lemma split_on_whole (sep : ascii) (s : string) :
  has_char sep s = false -> PyString.split_on sep s = [s].
Proof.
  induction s as [|c s IH]; cbn; [reflexivity|].
  intros H. apply orb_false_iff in H as [Hc Hs]. rewrite Hc, (IH Hs). reflexivity.
Qed.

Lemma split_on_joined (sep : ascii) (x rest : string) :
  has_char sep x = false ->
  PyString.split_on sep (x ++ String sep rest) = x :: PyString.split_on sep rest.
Proof.
  induction x as [|c x IH]; cbn.
  - intros _. now rewrite Ascii.eqb_refl.
  - intros H. apply orb_false_iff in H as [Hc Hx]. rewrite Hc, (IH Hx). reflexivity.
Qed.

Lemma components_are_components (p : string) :
  Forall (fun x => is_component x = true) (FS.components p).
Proof.
  unfold FS.components. apply Forall_forall. intros x Hx.
  apply filter_In in Hx as [Hin Ht]. unfold is_component. rewrite Ht.
  pose proof (split_on_parts "/"%char p) as Hall.
  rewrite Forall_forall in Hall. now rewrite (Hall x Hin).
Qed.

(** Joining components with slashes and splitting again gives them back. *)
Lemma components_join (c : list string) :
  Forall (fun x => is_component x = true) c -> FS.components (FS.join c) = c.
Proof.
  unfold FS.components, FS.join.
  induction 1 as [|x c Hx Hc IH]; [reflexivity|].
  unfold is_component in Hx. apply andb_true_iff in Hx as [Ht Hs].
  apply negb_true_iff in Hs.
  destruct c as [|y c].
  - cbn [String.concat]. rewrite (split_on_whole _ _ Hs). cbn. now rewrite Ht.
  - change (String.concat "/" (x :: y :: c))
      with (x ++ String "/"%char (String.concat "/" (y :: c))).
    rewrite (split_on_joined _ _ _ Hs). cbn [filter]. rewrite Ht. now rewrite IH.
Qed.

Lemma ancestors_are_components (c : list string) :
  Forall (fun x => is_component x = true) c ->
  Forall (Forall (fun x => is_component x = true)) (FS.ancestors c).
Proof.
  induction 1 as [|x c Hx Hc IH]; cbn [FS.ancestors]; [constructor|].
  destruct c as [|y c]; [constructor|].
  constructor; [repeat constructor; exact Hx|].
  apply Forall_forall. intros d Hd. apply in_map_iff in Hd as (d' & <- & Hd').
  constructor; [exact Hx|]. rewrite Forall_forall in IH. now apply IH.
Qed.

Lemma lookup_comps_app (fs more : FS.t) (c : list string) :
  FS.lookup_comps (fs ++ more)%list c
  = match FS.lookup_comps fs c with
    | Some e => Some e
    | None => FS.lookup_comps more c
    end.
Proof.
  unfold FS.lookup_comps. induction fs as [|e fs IH]; cbn; [reflexivity|].
  now destruct (FS.comps_eqb (FS.components (FS.e_path e)) c).
Qed.

(** What [os.makedirs] leaves behind: every directory of the chain is
    there, and nothing that was there has changed. *)
Lemma mkdir_chain_creates (now : Z) (chain : list (list string)) :
  Forall (Forall (fun x => is_component x = true)) chain ->
  forall fs f,
    FS.mkdir_chain now fs chain = inr f ->
    (forall d e, FS.lookup_comps fs d = Some e -> FS.lookup_comps f d = Some e)
    /\ Forall (fun d => exists e, FS.lookup_comps f d = Some e
                                  /\ FS.e_kind e = FS.Directory) chain.
Proof.
  induction 1 as [|c chain Hc _ IH]; intros fs f Hrun; cbn [FS.mkdir_chain] in Hrun.
  - injection Hrun as <-. split; [auto | constructor].
  - destruct (FS.lookup_comps fs c) as [e|] eqn:Hlook.
    + destruct (FS.e_kind e) eqn:Hkind; [discriminate|].
      destruct (IH fs f Hrun) as [Hkeep Hall]. split; [exact Hkeep|].
      constructor; [|exact Hall]. exists e. split; [now apply Hkeep | exact Hkind].
    + destruct (IH _ f Hrun) as [Hkeep Hall].
      assert (Hnew : FS.lookup_comps (fs ++ [FS.mkEntry (FS.join c) FS.Directory now])%list c
                     = Some (FS.mkEntry (FS.join c) FS.Directory now)).
      { rewrite lookup_comps_app, Hlook. unfold FS.lookup_comps. cbn [find FS.e_path].
        now rewrite (components_join c Hc), comps_eqb_refl. }
      split.
      * intros d e Hd. apply Hkeep. now rewrite lookup_comps_app, Hd.
      * constructor; [|exact Hall].
        eexists. split; [apply Hkeep; exact Hnew | reflexivity].
Qed.

Lemma makedirs_creates (now : Z) (fs f : FS.t) (p : string) :
  FS.makedirs now fs p = inr f ->
  FS.exists_ f p = true
  /\ FS.is_dir f (FS.components p) = true
  /\ (forall d e, FS.lookup_comps fs d = Some e -> FS.lookup_comps f d = Some e).
Proof.
  unfold FS.makedirs. intros Hrun.
  pose proof (components_are_components p) as Hc.
  destruct (FS.components p) as [|x c] eqn:Hp; [discriminate|].
  destruct (FS.lookup_comps fs (x :: c)); [discriminate|].
  apply mkdir_chain_creates in Hrun as [Hkeep Hall].
  - apply Forall_app in Hall as [_ Hlast]. inversion Hlast as [|? ? (e & He & Hk) _]; subst.
    unfold FS.exists_, FS.is_dir. rewrite Hp, He, Hk. auto.
  - apply Forall_app. split; [now apply ancestors_are_components|].
    constructor; [exact Hc | constructor].
Qed.

(** A git operation on a working copy leaves the directory itself alone. *)
Lemma replace_tree_keeps_dir (fs : FS.t) (dir : string) (tree : list FS.entry) (e : FS.entry) :
  FS.lookup fs dir = Some e ->
  FS.lookup (FS.replace_tree fs dir tree) dir = Some e.
Proof.
  unfold FS.lookup, FS.replace_tree. intros H. rewrite lookup_comps_app.
  replace (FS.lookup_comps (filter _ fs) (FS.components dir)) with (Some e); [reflexivity|].
  symmetry. revert H. unfold FS.lookup_comps.
  induction fs as [|x fs IH]; cbn [find filter]; [discriminate|].
  destruct (FS.comps_eqb (FS.components (FS.e_path x)) (FS.components dir)) eqn:Hx.
  - intros H. apply comps_eqb_eq in Hx as Hx'.
    rewrite <- Hx', comps_eqb_refl, orb_true_r. cbn [find]. now rewrite <- Hx', comps_eqb_refl, Hx' in *.
  - intros H. destruct (_ || _); cbn [find]; [rewrite Hx|]; now apply IH.
Qed.

End PathFacts.

(** ** Mirroring the repository (FirmwareManager.check_and_download) *)

Section Mirror.

Import FirmwareManager.
Variable env : Env.

Lemma check_and_download_present (fm : FirmwareManager.t) (w : World) :
  FS.exists_ (fs w) (local_dir fm) = true ->
  check_and_download env fm w
  = (Ret tt, with_event (Print (local_dir fm ++ " folder exists!")) w).
Proof.
  intros Hex. unfold check_and_download, os_path_exists.
  rewrite bind_gets, Hex. reflexivity.
Qed.

Lemma check_and_download_absent (fm : FirmwareManager.t) (w : World) :
  FS.exists_ (fs w) (local_dir fm) = false ->
  check_and_download env fm w
  = let w1 := with_event
                (Print (local_dir fm ++ " folder does not exist, downloading now...")) w in
    match FS.makedirs (now env w1) (fs w1) (local_dir fm) with
    | inl e => (Raise e, w1)
    | inr f => git env (GitClone (repo_url fm) (local_dir fm)) (with_fs f w1)
    end.
Proof.
  intros Hex. unfold check_and_download, os_path_exists.
  rewrite bind_gets, Hex. cbn [negb]. unfold print. rewrite bind_emit.
  cbv zeta. unfold bind, os_makedirs.
  destruct (FS.makedirs _ _ (local_dir fm)); reflexivity.
Qed.

(** X2. [check_and_download] clones exactly when the folder is absent: with
    the folder present it only reports so; with it absent, a normal return
    means the folder was made and one clone was run, and the folder is there
    afterwards, so that a second call only reports it. *)
Theorem check_and_download_clones_once (fm : FirmwareManager.t) (w : World) :
  let r := check_and_download env fm w in
  (FS.exists_ (fs w) (local_dir fm) = true ->
   r = (Ret tt, with_event (Print (local_dir fm ++ " folder exists!")) w))
  /\ (FS.exists_ (fs w) (local_dir fm) = false ->
      fst r = Ret tt ->
      trace (snd r)
      = (trace w
         ++ [Print (local_dir fm ++ " folder does not exist, downloading now...");
             Git (GitClone (repo_url fm) (local_dir fm))])%list)
  /\ (fst r = Ret tt ->
      check_and_download env fm (snd r)
      = (Ret tt, with_event (Print (local_dir fm ++ " folder exists!")) (snd r))).
Proof.
  cbv zeta. split; [apply check_and_download_present|].
  destruct (FS.exists_ (fs w) (local_dir fm)) eqn:Hex.
  - split; [discriminate|]. intros _. apply check_and_download_present.
    now rewrite (check_and_download_present fm w Hex).
  - rewrite (check_and_download_absent fm w Hex). cbv zeta.
    set (w1 := with_event _ w).
    destruct (FS.makedirs (now env w1) (fs w1) (local_dir fm)) as [e|f] eqn:Hmk;
      [split; [intros _|]; discriminate|].
    apply makedirs_creates in Hmk as (Hthere & _ & _).
    unfold git. cbn [calls with_fs log fs with_event self].
    destruct (git_run env _ (GitClone (repo_url fm) (local_dir fm))) as [msg|tree];
      [split; [intros _|]; discriminate|].
    cbn [fst snd]. split.
    + intros _ _. unfold trace. cbn [log with_fs with_event]. subst w1.
      cbn [log with_event rev]. now rewrite <- app_assoc.
    + intros _. apply check_and_download_present. cbn [fs with_fs].
      unfold FS.exists_ in *. cbn [git_dir].
      destruct (FS.components (local_dir fm)) as [|x c] eqn:Hc; [reflexivity|].
      destruct (FS.lookup_comps f (x :: c)) as [e|] eqn:He; [|discriminate].
      assert (Hl : FS.lookup f (local_dir fm) = Some e) by (unfold FS.lookup; now rewrite Hc).
      apply (replace_tree_keeps_dir f (local_dir fm) tree) in Hl.
      unfold FS.lookup in Hl. rewrite Hc in Hl. now rewrite Hl.
Qed.

End Mirror.

(** ** One esptool command (ESP32Flasher.execute_esptool_command) *)

Section OneCommand.

Import ESP32Flasher.
Variable env : Env.

Ltac next_round E :=
  cbn [Z.add Z.eqb Pos.eqb Pos.add Pos.succ];
  rewrite round_run, ?calls_logged;
  cbn [filter is_esptool List.length Nat.add];
  match goal with
  | |- context [match esptool_main env ?k ?p with _ => _ end] =>
      destruct (esptool_main env k p) as [|?msg|] eqn:E
  end;
  cbn [Z.add Z.eqb Pos.eqb Pos.add Pos.succ].

Ltac settle :=
  cbn [fst snd]; rewrite ?calls_logged; cbn;
  repeat split; auto; try lia; try discriminate.

(** X3. Whatever the flasher does, [execute_esptool_command] calls it at
    least once and at most three times and lets no exception out: it returns
    or it exits.  It returns only when its last call succeeded, and it leaves
    the object and the file system as they were. *)
Theorem execute_esptool_command_is_bounded (message : string)
  (params : list pyval) (w : World) :
  let r := execute_esptool_command env message params w in
  (fst r = Ret tt \/ fst r = SystemExit)
  /\ (calls is_esptool w < calls is_esptool (snd r) <= calls is_esptool w + 3)%nat
  /\ (fst r = Ret tt ->
      esptool_main env (pred (calls is_esptool (snd r))) params = FlashDone)
  /\ self (snd r) = self w
  /\ fs (snd r) = fs w.
Proof.
  cbv zeta. unfold execute_esptool_command.
  next_round E1; [solve [settle] | | solve [settle]].
  next_round E2; [solve [settle] | | solve [settle]].
  next_round E3; solve [settle].
Qed.

End OneCommand.

(** ** What discovery can select (ESP32Flasher.checkforserialport) *)

Section DiscoverySound.

Import ESP32Flasher.
Variable env : Env.

(** One pass over the ports leaves the pair alone or sets it from a port
    that matches. *)
Lemma scan_vid_sound (vid : string) (ports : list port) (st : string * option string) :
  scan_vid ports st vid = st
  \/ exists p, In p ports /\ matches vid p = true
               /\ scan_vid ports st vid = (device p, Some vid).
Proof.
  unfold scan_vid. revert st. induction ports as [|x ports IH]; intros st; cbn [fold_left].
  - now left.
  - destruct (IH (scan_port vid st x)) as [Hsame|(p & Hin & Hm & Hrun)].
    + rewrite Hsame. unfold scan_port. fold (matches vid x).
      destruct (matches vid x) eqn:Hx.
      * right. exists x. repeat split; auto. now left.
      * now left.
    + right. exists p. repeat split; auto. now right.
Qed.

Lemma scan_vid_finds (vid : string) (ports : list port) (st : string * option string) :
  (exists p, In p ports /\ matches vid p = true) ->
  exists p, In p ports /\ matches vid p = true
            /\ scan_vid ports st vid = (device p, Some vid).
Proof.
  intros (q & Hq & Hmq).
  destruct (in_split _ _ Hq) as (before & after & ->).
  unfold scan_vid. rewrite fold_left_app. cbn [fold_left].
  unfold scan_port at 2. fold (matches vid q). rewrite Hmq.
  destruct (scan_vid_sound vid after (device q, Some vid)) as [Hsame|(p & Hin & Hm & Hrun)].
  - exists q. repeat split; auto.
  - exists p. repeat split; auto; try (apply in_or_app; right; now right).
Qed.

Lemma scan_sound (vs : list string) (ports : list port) (st : string * option string) :
  scan vs ports st = st
  \/ exists v p, In v vs /\ In p ports /\ matches v p = true
                 /\ scan vs ports st = (device p, Some v).
Proof.
  unfold scan. revert st. induction vs as [|x vs IH]; intros st; cbn [fold_left].
  - now left.
  - destruct (IH (scan_vid ports st x)) as [Hsame|(v & p & Hv & Hp & Hm & Hrun)].
    + rewrite Hsame.
      destruct (scan_vid_sound x ports st) as [Hs|(p & Hp & Hm & Hrun)].
      * left. exact Hs.
      * right. exists x, p. repeat split; auto. now left.
    + right. exists v, p. repeat split; auto. now right.
Qed.

Lemma scan_finds (vs : list string) (ports : list port) (st : string * option string) :
  (exists v p, In v vs /\ In p ports /\ matches v p = true) ->
  exists v p, In v vs /\ In p ports /\ matches v p = true
              /\ scan vs ports st = (device p, Some v).
Proof.
  intros (v & q & Hv & Hq & Hm).
  destruct (in_split _ _ Hv) as (before & after & ->).
  unfold scan. rewrite fold_left_app. cbn [fold_left].
  destruct (scan_vid_finds v ports (fold_left (scan_vid ports) before st)
              (ex_intro _ q (conj Hq Hm))) as (p & Hp & Hmp & Hrun).
  rewrite Hrun.
  destruct (scan_sound after ports (device p, Some v)) as [Hsame|(v' & p' & Hv' & Hp' & Hm' & Hrun')].
  - exists v, p. repeat split; auto; try (apply in_or_app; right; now left).
  - exists v', p'. repeat split; auto; try (apply in_or_app; right; now right).
Qed.

(** X4. In auto-discovery, as soon as some enumerated port carries one of
    the four vendor IDs (and ports have names), [checkforserialport] returns
    with the port of such a device selected, without exiting and without
    calling back into the menu; the hint it prints is that vendor's line,
    never the [Unknown device] fallback. *)
Theorem discovery_finds_a_known_device (callee : M unit) (w : World) :
  PyString.truthy (serialport (self w)) = false ->
  (exists v p, In v vids /\ In p (comports env (calls is_comports w))
               /\ matches v p = true) ->
  (forall p, In p (comports env (calls is_comports w)) ->
             PyString.truthy (device p) = true) ->
  exists v p,
    In v vids /\ In p (comports env (calls is_comports w)) /\ matches v p = true
    /\ checkforserialport env callee w
       = (Ret tt,
          logged [Print "Checking for serial port..."; Comports; device_hint v]
            (with_self (set_serialport (device p)) w))
    /\ device_hint v
       <> Print (Fore_BLUE ++ "Unknown device" ++ Style_RESET_ALL).
Proof.
  intros Hsp Hsome Hnames.
  destruct (scan_finds vids _ (serialport (self w), None) Hsome)
    as (v & p & Hv & Hp & Hm & Hscan).
  exists v, p. repeat split; auto.
  - unfold checkforserialport. rewrite bind_gets, Hsp.
    unfold print. rewrite bind_emit, bind_list_comports.
    change (calls is_comports (with_event (Print "Checking for serial port...") w))
      with (calls is_comports w).
    rewrite Hscan. unfold assign. rewrite bind_modify, (Hnames p Hp).
    cbn [negb]. rewrite bind_ret. reflexivity.
  - clear Hscan Hm. intros Heq.
    destruct Hv as [<-|[<-|[<-|[<-|[]]]]]; vm_compute in Heq; discriminate Heq.
Qed.

(** X5. An interactive run whose discovery found nothing at first but whose
    repeated flash then goes through (the device was plugged in meanwhile)
    still ends in an error: back in the outer [checkforserialport] the local
    [device] was never bound. *)
Theorem late_device_ends_in_unbound_local (fuel : nat) (w w2 : World) (n : Z) :
  PyString.truthy (serialport (self w)) = false ->
  (forall v q, In v vids -> In q (comports env (calls is_comports w)) ->
               matches v q = false) ->
  fwchoicepreselect (self w) = Some false ->
  fwchoice (self w) = Some n ->
  flash_firmware env (choose_fw env fuel)
    (logged (not_found_events ++ preselect_warning n)
       (with_self (set_fwchoicepreselect true)
          (with_self (set_serialport (serialport (self w))) w)))
  = (Ret tt, w2) ->
  checkforserialport env (choose_fw env (S fuel)) w
  = (Raise (UnboundLocalError "device"), w2).
Proof.
  intros Hsp Hno Hpre Hsel Hflash.
  rewrite (fallback_reuses_the_choice env fuel w n Hsp Hno Hpre Hsel).
  now rewrite (bind_returned _ _ _ _ _ Hflash).
Qed.

End DiscoverySound.

(** ** The prerequisite pass (ESP32Flasher.prereqcheck) *)

Section PrerequisitePass.

Import ESP32Flasher.
Variable env : Env.

Lemma prereqcheck_frame (w0 : World) : inv (only_fetched w0) (prereqcheck env).
Proof.
  apply inv_prereqcheck.
  - intros e w He H. unfold only_fetched in *.
    cbn [with_event self log filter]. unfold is_action at 1. rewrite He. exact H.
  - intros f w H. exact H.
  - intros f w Hf (H1 & H2 & H3 & H4 & H5 & H6).
    destruct (Hf (self w)) as (F1 & F2 & F3 & F4 & F5).
    unfold only_fetched. cbn [with_self self log]. repeat split; congruence.
Qed.

(** X6. [prereqcheck] only prints, downloads and calls git: it never calls
    the flasher, never prompts, never enumerates ports and never sleeps, and
    it leaves the port, the choice and the selection as they were. *)
Theorem prereqcheck_only_fetches (w : World) :
  let r := prereqcheck env w in
  serialport (self (snd r)) = serialport (self w)
  /\ fwchoice (self (snd r)) = fwchoice (self w)
  /\ fwchoicepreselect (self (snd r)) = fwchoicepreselect (self w)
  /\ selectedfw (self (snd r)) = selectedfw (self w)
  /\ selectedboard (self (snd r)) = selectedboard (self w)
  /\ filter is_action (log (snd r)) = filter is_action (log w).
Proof.
  cbv zeta. apply (prereqcheck_frame w). repeat split; reflexivity.
Qed.

Lemma filter_through_actions (kind : event -> bool) (l l' : list event) :
  (forall e, kind e = true -> is_action e = true) ->
  filter is_action l = filter is_action l' ->
  filter kind l = filter kind l'.
Proof.
  intros Hk Heq.
  assert (Hf : forall m, filter kind m = filter kind (filter is_action m)).
  { induction m as [|e m IH]; cbn [filter]; [reflexivity|].
    destruct (kind e) eqn:Hke.
    - rewrite (Hk e Hke). cbn [filter]. now rewrite Hke, IH.
    - destruct (is_action e); cbn [filter]; [rewrite Hke|]; exact IH. }
  now rewrite (Hf l), (Hf l'), Heq.
Qed.

Lemma prereqcheck_keeps_calls (kind : event -> bool) (w : World) :
  (forall e, kind e = true -> is_action e = true) ->
  calls kind (snd (prereqcheck env w)) = calls kind w.
Proof.
  intros Hk. unfold calls. f_equal. apply filter_through_actions; [exact Hk|].
  apply (prereqcheck_frame w). repeat split; reflexivity.
Qed.

End PrerequisitePass.

(** ** Sessions that go well (EasyInstall.py) *)

Section GoodSessions.

Import ESP32Flasher.
Variable env : Env.

Lemma bind_run {A B} (m : M A) (k : A -> M B) (w : World) :
  (x <- m ;; k x) w
  = match m w with
    | (Ret a, w') => k a w'
    | (Raise e, w') => (Raise e, w')
    | (SystemExit, w') => (SystemExit, w')
    | (OutOfFuel, w') => (OutOfFuel, w')
    end.
Proof. reflexivity. Qed.

Lemma checkforserialport_given (callee : M unit) (w : World) :
  PyString.truthy (serialport (self w)) = true ->
  checkforserialport env callee w
  = (Ret tt, with_event (Print (port_given_message (serialport (self w)))) w).
Proof.
  intros Hsp. unfold checkforserialport. now rewrite bind_gets, Hsp.
Qed.

Lemma flash_firmware_16 (callee : M unit) (w : World) :
  fwchoice (self w) = Some 16 ->
  flash_firmware env callee w
  = erase_esp32 env (with_self (set_selected (PyStr "Erase ESP32") PyNone) w).
Proof.
  intros H. unfold flash_firmware. rewrite bind_gets, H. reflexivity.
Qed.

Lemma flash_firmware_board (callee : M unit) (w : World) (n : Z)
  (row : list pyval) (u : unpacked) :
  fwchoice (self w) = Some n ->
  dict_get flash_options n = Some row ->
  unpack9 row = inr u ->
  n <> 16 -> n <> 17 -> n <> 18 ->
  PyString.truthy (serialport (self w)) = true ->
  flash_firmware env callee w
  = flashtheboard env (eraseparams_of (serialport (self w)))
      (flashparams_of (serialport (self w)) (u_selectedboard u) u)
      (with_event (Print (port_given_message (serialport (self w))))
         (with_self (set_selected (u_selectedfw u) (u_selectedboard u)) w)).
Proof.
  intros Hn Hrow Hu H16 H17 H18 Hsp.
  unfold flash_firmware. rewrite bind_gets, Hn, Hrow, Hu. cbn [lift].
  rewrite bind_ret. unfold assign. rewrite bind_modify.
  destruct (Z.eqb_spec n 16); [contradiction|].
  destruct (Z.eqb_spec n 17); [contradiction|].
  destruct (Z.eqb_spec n 18); [contradiction|].
  erewrite bind_returned; [|apply checkforserialport_given; exact Hsp].
  rewrite !bind_gets. reflexivity.
Qed.

Lemma after_prereqcheck (sp : string) (pre : option Z) (disk : FS.t) (w1 : World) :
  prereqcheck env (EasyInstall.start sp pre disk) = (Ret tt, w1) ->
  serialport (self w1) = sp
  /\ fwchoice (self w1) = pre
  /\ calls is_esptool w1 = 0%nat
  /\ calls is_comports w1 = 0%nat
  /\ calls is_input w1 = 0%nat.
Proof.
  intros Hrun.
  pose proof (prereqcheck_frame env (EasyInstall.start sp pre disk)
                (EasyInstall.start sp pre disk)) as Hf.
  rewrite Hrun in Hf. destruct Hf as (H1 & H2 & _ & _ & _ & H6);
    [repeat split; reflexivity|]. cbn [snd] in *.
  repeat split; auto.
  all: unfold calls;
    erewrite (filter_through_actions _ (log w1) []); [reflexivity| |exact H6];
    intros e He; now destruct e.
Qed.

(** X7. A session preselecting 16 (erase only), once the prerequisite pass
    is through and the flasher succeeds at the first call: exactly one
    esptool call, the bare erase; no write; no port enumeration, whatever
    [--serialport] says; and the run returns normally. *)
Theorem erase_only_session (fuel : nat) (args_serialport : string) (disk : FS.t) :
  fst (prereqcheck env (EasyInstall.start args_serialport (Some 16) disk)) = Ret tt ->
  esptool_main env 0 erase_command = FlashDone ->
  let r := EasyInstall.main env (S fuel) args_serialport (Some 16) disk in
  fst r = Ret tt
  /\ esptool_calls (trace (snd r)) = [erase_command]
  /\ calls is_comports (snd r) = 0%nat.
Proof.
  intros Hpre Hflash. cbv zeta. unfold EasyInstall.main.
  destruct (prereqcheck env (EasyInstall.start args_serialport (Some 16) disk))
    as [o w1] eqn:Hrun.
  cbn [fst] in Hpre. subst o.
  destruct (after_prereqcheck _ _ _ _ Hrun) as (Hsp & Hsel & Hesp & Hcom & Hin).
  rewrite (bind_returned _ _ _ _ _ Hrun).
  rewrite (choose_fw_preselected env fuel w1 16 Hsel).
  rewrite flash_firmware_16; [|exact Hsel].
  unfold erase_esp32, execute_esptool_command.
  change [PyStr "erase_flash"] with erase_command.
  rewrite round_run.
  match goal with
  | |- context [esptool_main env ?k erase_command] =>
      replace k with 0%nat by (symmetry; exact Hesp)
  end.
  rewrite Hflash. cbn [fst snd].
  split; [reflexivity|]. split.
  - rewrite trace_logged, esptool_calls_app. unfold trace. cbn [log with_self logged].
    rewrite rev_app_distr, rev_involutive, esptool_calls_app.
    change (esptool_calls (rev (log w1))) with (esptool_calls (trace w1)).
    rewrite (no_esptool_calls w1 Hesp). reflexivity.
  - rewrite calls_logged. cbn. exact Hcom.
Qed.

(** X8. A session preselecting a board whose row unpacks, with a port given
    on the command line, once the prerequisite pass is through and the
    flasher succeeds twice: exactly two esptool calls, the bare erase and
    then the write for that port and row; no port enumeration; and the run
    returns normally. *)
Theorem flash_session_erases_then_writes (fuel : nat) (args_serialport : string)
  (disk : FS.t) (n : Z) (row : list pyval) (u : unpacked) :
  PyString.truthy args_serialport = true ->
  dict_get flash_options n = Some row ->
  unpack9 row = inr u ->
  n <> 16 -> n <> 17 -> n <> 18 ->
  fst (prereqcheck env (EasyInstall.start args_serialport (Some n) disk)) = Ret tt ->
  esptool_main env 0 erase_command = FlashDone ->
  esptool_main env 1 (flashparams_of args_serialport (u_selectedboard u) u) = FlashDone ->
  let r := EasyInstall.main env (S fuel) args_serialport (Some n) disk in
  fst r = Ret tt
  /\ esptool_calls (trace (snd r))
     = [erase_command; flashparams_of args_serialport (u_selectedboard u) u]
  /\ calls is_comports (snd r) = 0%nat.
Proof.
  intros Htruthy Hrow Hu H16 H17 H18 Hpre Herase Hwrite. cbv zeta.
  unfold EasyInstall.main.
  destruct (prereqcheck env (EasyInstall.start args_serialport (Some n) disk))
    as [o w1] eqn:Hrun.
  cbn [fst] in Hpre. subst o.
  destruct (after_prereqcheck _ _ _ _ Hrun) as (Hsp & Hsel & Hesp & Hcom & Hin).
  rewrite (bind_returned _ _ _ _ _ Hrun).
  rewrite (choose_fw_preselected env fuel w1 n Hsel).
  rewrite (flash_firmware_board _ _ n row u); auto;
    [|cbn [self logged with_self serialport set_fwchoicepreselect]; now rewrite Hsp].
  cbn [self logged with_self serialport set_fwchoicepreselect]. rewrite Hsp.
  unfold flashtheboard, erase_esp32, execute_esptool_command.
  change [PyStr "erase_flash"] with erase_command.
  rewrite bind_run, round_run.
  match goal with
  | |- context [esptool_main env ?k erase_command] =>
      replace k with 0%nat by (symmetry; exact Hesp)
  end.
  rewrite Herase. rewrite !bind_gets. rewrite round_run, calls_logged.
  match goal with
  | |- context [esptool_main env ?k (flashparams_of _ _ _)] =>
      replace k with 1%nat by (cbn; rewrite <- Hesp; reflexivity)
  end.
  rewrite Hwrite. cbn [fst snd].
  split; [reflexivity|]. split.
  - rewrite !trace_logged, !esptool_calls_app. unfold trace. cbn [log with_self with_event logged].
    cbn [rev]. rewrite rev_app_distr, rev_involutive, !esptool_calls_app.
    change (esptool_calls (rev (log w1))) with (esptool_calls (trace w1)).
    rewrite (no_esptool_calls w1 Hesp). reflexivity.
  - rewrite !calls_logged. cbn. exact Hcom.
Qed.

End GoodSessions.

(** ** A warm cache (prereqcheck and the check methods) *)

Section WarmCache.

Import ESP32Flasher.
Variable env : Env.

Lemma printed_refl (w : World) : printed w w.
Proof. split; [reflexivity | now exists []]. Qed.

Lemma printed_trans (w1 w2 w3 : World) : printed w1 w2 -> printed w2 w3 -> printed w1 w3.
Proof.
  intros [F1 [l1 L1]] [F2 [l2 L2]]. split; [congruence|].
  exists (l1 ++ l2)%list. rewrite L2, L1, map_app, rev_app_distr. now rewrite app_assoc.
Qed.

Lemma printed_calls (kind : event -> bool) (w w' : World) :
  (forall text, kind (Print text) = false) ->
  printed w w' -> calls kind w' = calls kind w.
Proof.
  intros Hk [_ [lines Hlog]]. unfold calls. rewrite Hlog, filter_app, length_app.
  replace (filter kind (rev (map Print lines))) with (@nil event); [reflexivity|].
  symmetry. apply filter_none_of. apply Forall_forall. intros e He.
  apply in_rev, in_map_iff in He as (text & <- & _). apply Hk.
Qed.

Section Rules.

Variable P : FS.t -> Prop.

Lemma calm_ret {A} (a : A) : calm P (ret a).
Proof. intros w _. exists a, w. split; [reflexivity | apply printed_refl]. Qed.

Lemma calm_gets {A} (f : World -> A) : calm P (gets f).
Proof. intros w _. exists (f w), w. split; [reflexivity | apply printed_refl]. Qed.

Lemma calm_print (text : string) : calm P (print text).
Proof.
  intros w _. exists tt, (with_event (Print text) w). split; [reflexivity|].
  split; [reflexivity | now exists [text]].
Qed.

Lemma calm_assign (f : Flasher -> Flasher) : calm P (assign f).
Proof.
  intros w _. exists tt, (with_self f w). split; [reflexivity|].
  split; [reflexivity | now exists []].
Qed.

Lemma calm_bind {A B} (m : M A) (k : A -> M B) :
  calm P m -> (forall a, calm P (k a)) -> calm P (bind m k).
Proof.
  intros Hm Hk w HP. destruct (Hm w HP) as (a & w1 & Hrun & Hp1).
  assert (HP1 : P (fs w1)) by (destruct Hp1 as [-> _]; exact HP).
  destruct (Hk a w1 HP1) as (b & w2 & Hrun2 & Hp2).
  exists b, w2. split; [|now apply (printed_trans w w1 w2)].
  now rewrite (bind_returned _ _ _ _ _ Hrun).
Qed.

Lemma calm_weaken {A} (Q : FS.t -> Prop) (m : M A) :
  (forall f, P f -> Q f) -> calm Q m -> calm P m.
Proof. intros HPQ Hm w HP. apply Hm. now apply HPQ. Qed.

End Rules.

(** [get_latest_firmware] returns on every file system, and prints one
    line. *)
Lemma calm_get_latest_firmware (P : FS.t -> Prop) (fm : FirmwareManager.t)
  (pattern : string) :
  calm P (FirmwareManager.get_latest_firmware fm pattern).
Proof.
  intros w _.
  pose proof (glob_getctime (fs w) pattern) as Hall.
  unfold FirmwareManager.get_latest_firmware, FirmwareManager.glob_glob.
  rewrite bind_gets.
  destruct (FS.glob (fs w) pattern) as [|first rest].
  - eexists _, _. split; [reflexivity|]. split; [reflexivity|].
    now exists ["No firmware files found for pattern: " ++ pattern].
  - destruct (Hall first (or_introl eq_refl)) as [k Hk].
    assert (Hrest : Forall (fun q => exists t, FS.getctime (fs w) q = inr t) rest).
    { apply Forall_forall. intros q Hq. apply Hall. now right. }
    destruct (max_by_key_getctime w rest Hrest first k Hk) as (p & tp & Hrun & _).
    rewrite (bind_getctime _ _ _ _ Hk), (bind_returned _ _ _ _ _ Hrun).
    eexists _, _. split; [reflexivity|]. split; [reflexivity|].
    now exists ["Latest firmware found: " ++ p].
Qed.

Lemma calm_check_and_download (fm : FirmwareManager.t) :
  calm (fun f => FS.exists_ f (FirmwareManager.local_dir fm) = true)
       (FirmwareManager.check_and_download env fm).
Proof.
  intros w Hex. rewrite (check_and_download_present env fm w Hex).
  eexists _, _. split; [reflexivity|]. split; [reflexivity|].
  now exists [FirmwareManager.local_dir fm ++ " folder exists!"].
Qed.

Lemma calm_checkforesp32marauder :
  calm (fun f => FS.exists_ f releases_dir = true) (checkforesp32marauder env).
Proof.
  intros w Hex.
  assert (Hrun : checkforesp32marauder env w
                 = (v <- FirmwareManager.get_latest_firmware firmware_manager
                           "ESP32Marauder/releases/esp32_marauder_v*_flipper.bin" ;;
                    assign (set_esp32marauderfw v))
                     (with_event (Print "Checking for Marauder releases") w)).
  { unfold checkforesp32marauder, print, FirmwareManager.os_path_exists.
    rewrite bind_emit, bind_gets. cbn [fs with_event].
    change "ESP32Marauder/releases" with releases_dir. rewrite Hex. cbn [negb].
    now rewrite bind_ret. }
  rewrite Hrun.
  destruct (calm_bind (fun f => FS.exists_ f releases_dir = true) _ _
              (calm_get_latest_firmware _ firmware_manager
                 "ESP32Marauder/releases/esp32_marauder_v*_flipper.bin")
              (fun v => calm_assign _ (set_esp32marauderfw v))
              (with_event (Print "Checking for Marauder releases") w) Hex)
    as (a & w' & Hrun' & Hp).
  exists a, w'. split; [exact Hrun'|].
  apply (printed_trans w (with_event (Print "Checking for Marauder releases") w) w');
    [|exact Hp].
  split; [reflexivity | now exists ["Checking for Marauder releases"]].
Qed.

Lemma calm_checkforevilportal :
  calm (fun f => FS.exists_ f "EvilPortal" = true) (checkforevilportal env).
Proof.
  intros w Hex.
  assert (Hrun : checkforevilportal env w
                 = assign (set_evilportal (PyStr "EvilPortal/EvilPortalWROOM.bin")
                                          (PyStr "EvilPortal/EvilPortalS2.bin"))
                     (with_event (Print "Checking for Evil portal") w)).
  { unfold checkforevilportal, print, FirmwareManager.os_path_exists.
    rewrite bind_emit, bind_gets. cbn [fs with_event]. rewrite Hex. cbn [negb].
    now rewrite bind_ret. }
  rewrite Hrun. eexists _, _. split; [reflexivity|]. split; [reflexivity|].
  now exists ["Checking for Evil portal"].
Qed.

(** Each of the four bin checks is a lookup and an assignment. *)
Lemma calm_check_bin (P : FS.t -> Prop) (pattern : string) (set : pyval -> Flasher -> Flasher) :
  calm P (v <- FirmwareManager.get_latest_firmware firmware_manager pattern ;;
          assign (set v)).
Proof.
  apply calm_bind; [apply calm_get_latest_firmware | intros v; apply calm_assign].
Qed.

Lemma bind_returns {A B} (m : M A) (k : A -> M B) (w w2 : World) (b : B) :
  (x <- m ;; k x) w = (Ret b, w2) ->
  exists a w1, m w = (Ret a, w1) /\ k a w1 = (Ret b, w2).
Proof.
  unfold bind. destruct (m w) as [[a|e| |] w1]; try discriminate.
  intros H. now exists a, w1.
Qed.

(** Whenever [checkforevilportal] returns, downloaded or not, the two
    attributes hold the two fixed paths. *)
Lemma checkforevilportal_sets_paths (w w2 : World) :
  checkforevilportal env w = (Ret tt, w2) ->
  evilportalfwwroom (self w2) = PyStr "EvilPortal/EvilPortalWROOM.bin"
  /\ evilportalfws2 (self w2) = PyStr "EvilPortal/EvilPortalS2.bin".
Proof.
  unfold checkforevilportal. intros H.
  apply bind_returns in H as (_ & wa & _ & H).
  apply bind_returns in H as (present & wb & _ & H).
  apply bind_returns in H as (_ & wc & _ & H).
  unfold assign, modify in H. injection H as <-. split; reflexivity.
Qed.

Lemma prereqcheck_sets_evil_portal (w w2 : World) :
  prereqcheck env w = (Ret tt, w2) ->
  evilportalfwwroom (self w2) = PyStr "EvilPortal/EvilPortalWROOM.bin"
  /\ evilportalfws2 (self w2) = PyStr "EvilPortal/EvilPortalS2.bin".
Proof.
  unfold prereqcheck. intros H.
  do 7 (apply bind_returns in H as (_ & ? & _ & H)).
  now apply checkforevilportal_sets_paths in H.
Qed.

(** X9. With the three cache folders in place, [prereqcheck] returns
    without a single download or git call and leaves the file system
    untouched, whether or not the folders hold the files that are needed:
    all it does is print and set its attributes, the two Evil Portal paths
    among them. *)
Theorem prereqcheck_with_cache_folders (w : World) :
  FS.exists_ (fs w) extraesp32bins = true ->
  FS.exists_ (fs w) releases_dir = true ->
  FS.exists_ (fs w) "EvilPortal" = true ->
  let r := prereqcheck env w in
  fst r = Ret tt
  /\ fs (snd r) = fs w
  /\ calls is_http (snd r) = calls is_http w
  /\ calls is_git (snd r) = calls is_git w
  /\ evilportalfwwroom (self (snd r)) = PyStr "EvilPortal/EvilPortalWROOM.bin"
  /\ evilportalfws2 (self (snd r)) = PyStr "EvilPortal/EvilPortalS2.bin".
Proof.
  intros H1 H2 H3. cbv zeta.
  set (P := fun f => FS.exists_ f extraesp32bins = true
                     /\ FS.exists_ f releases_dir = true
                     /\ FS.exists_ f "EvilPortal" = true).
  assert (Hcalm : calm P (prereqcheck env)).
  { unfold prereqcheck.
    apply calm_bind; [apply calm_print | intros _].
    apply calm_bind; [|intros _].
    { apply (calm_weaken P (fun f => FS.exists_ f
                              (FirmwareManager.local_dir firmware_manager) = true));
        [intros f H; exact (proj1 H) | apply calm_check_and_download]. }
    apply calm_bind; [|intros _].
    { apply (calm_weaken P (fun f => FS.exists_ f releases_dir = true));
        [intros f H; exact (proj1 (proj2 H)) | apply calm_checkforesp32marauder]. }
    apply calm_bind; [apply calm_check_bin | intros _].
    apply calm_bind; [apply calm_check_bin | intros _].
    apply calm_bind; [apply calm_check_bin | intros _].
    apply calm_bind; [apply calm_check_bin | intros _].
    apply (calm_weaken P (fun f => FS.exists_ f "EvilPortal" = true));
      [intros f H; exact (proj2 (proj2 H)) | apply calm_checkforevilportal]. }
  destruct (Hcalm w (conj H1 (conj H2 H3))) as ([] & w2 & Hrun & Hp).
  destruct (prereqcheck_sets_evil_portal w w2 Hrun) as [Ha Hb].
  rewrite Hrun. cbn [fst snd].
  split; [reflexivity|]. split; [exact (proj1 Hp)|].
  split; [apply printed_calls; [reflexivity | exact Hp]|].
  split; [apply printed_calls; [reflexivity | exact Hp]|].
  split; assumption.
Qed.

End WarmCache.

(** ** The update never comes back (ESP32Flasher.update_option) *)

Section UpdateLoop.

Import ESP32Flasher.
Variable env : Env.

Lemma plain_raise {A} (e : exn) : plain (@raise A e).
Proof. intros w. right. now exists e. Qed.

Lemma plain_assign (f : Flasher -> Flasher) : plain (assign f).
Proof. intros w. left. now exists tt. Qed.

Lemma plain_os_rmdir (p : string) : plain (os_rmdir p).
Proof.
  intros w. unfold os_rmdir.
  destruct (FS.rmdir (fs w) p) as [e|f]; [right; now exists e | left; now exists tt].
Qed.

Lemma plain_os_makedirs (p : string) : plain (FirmwareManager.os_makedirs env p).
Proof.
  intros w. unfold FirmwareManager.os_makedirs.
  destruct (FS.makedirs _ (fs w) p) as [e|f]; [right; now exists e | left; now exists tt].
Qed.

Lemma plain_write_binary (p data : string) : plain (write_binary env p data).
Proof.
  intros w. unfold write_binary.
  destruct (FS.write_file _ (fs w) p data) as [e|f];
    [right; now exists e | left; now exists tt].
Qed.

Lemma plain_os_path_getctime (p : string) : plain (FirmwareManager.os_path_getctime p).
Proof.
  intros w. unfold FirmwareManager.os_path_getctime.
  destruct (FS.getctime (fs w) p) as [e|t]; [right; now exists e | left; now exists t].
Qed.

Lemma plain_git (cmd : git_command) : plain (FirmwareManager.git env cmd).
Proof.
  intros w. unfold FirmwareManager.git.
  destruct (git_run env _ cmd) as [msg|tree]; [right; now eexists|].
  left. exists tt. now destruct cmd.
Qed.

Lemma plain_requests_get (url : string) : plain (requests_get_ env url).
Proof.
  intros w. unfold requests_get_.
  destruct (requests_get env _ url) as [r|]; [left; now exists r | right; now eexists].
Qed.

Lemma plain_max_by_key (rest : list string) (best : string) (kb : Z) :
  plain (FirmwareManager.max_by_key FirmwareManager.os_path_getctime best kb rest).
Proof.
  revert best kb. induction rest as [|x rest IH]; intros best kb;
    cbn [FirmwareManager.max_by_key].
  - apply plain_ret.
  - apply plain_bind; [apply plain_os_path_getctime|]. intros k.
    destruct (kb <? k); apply IH.
Qed.

Ltac plain_split :=
  repeat first
    [ apply plain_ret | apply plain_raise | apply plain_gets | apply plain_print
    | apply plain_assign | apply plain_os_rmdir | apply plain_os_remove
    | apply plain_os_makedirs | apply plain_write_binary | apply plain_git
    | apply plain_requests_get | apply plain_os_path_getctime
    | apply plain_max_by_key | apply delete_cached_files_plain
    | match goal with
      | |- plain (bind _ _) => apply plain_bind; [|intros]
      | |- plain (for_each _ _) => apply plain_for_each; intros
      | |- plain (if ?b then _ else _) => destruct b
      | |- plain (match ?x with _ => _ end) => destruct x
      end ].

Lemma plain_get_latest_firmware (fm : FirmwareManager.t) (pattern : string) :
  plain (FirmwareManager.get_latest_firmware fm pattern).
Proof.
  unfold FirmwareManager.get_latest_firmware, FirmwareManager.glob_glob,
    FirmwareManager.os_path_exists.
  plain_split.
Qed.

(** The prerequisite pass never ends the process and holds no recursion:
    it returns or it raises. *)
Lemma plain_prereqcheck : plain (prereqcheck env).
Proof.
  unfold prereqcheck, FirmwareManager.check_and_download, checkforesp32marauder,
    checkforevilportal, checkfors3bin, checkforoldhardwarebin, checkforminibin,
    checkfornewhardwarebin, download_asset, FirmwareManager.os_path_exists.
  plain_split; apply plain_get_latest_firmware.
Qed.

Lemma plain_update_pass : plain (update_pass env).
Proof. unfold update_pass. plain_split. apply plain_prereqcheck. Qed.

Lemma update_option_pass (callee : M unit) (w : World) :
  update_option env callee w = (update_pass env ;; callee) w.
Proof.
  rewrite update_option_split. symmetry. unfold update_pass.
  do 8 (rewrite bind_assoc; apply bind_ext; intros ? ?).
  reflexivity.
Qed.

(** Whatever survives prints, downloads, git calls, file-system changes and
    assignments of the firmware attributes, survives the update. *)
Lemma inv_update_pass (I : World -> Prop) :
  (forall e w, is_fetch_event e = true -> I w -> I (with_event e w)) ->
  (forall f w, I w -> I (with_fs f w)) ->
  (forall f w, keeps_selection f -> I w -> I (with_self f w)) ->
  inv I (update_pass env).
Proof.
  intros I_fetch I_fs I_fw. unfold update_pass, delete_cached_files.
  inv_split;
    auto using inv_print, inv_os_remove, inv_os_rmdir, inv_git, inv_prereqcheck.
Qed.

Lemma inv_returned (I : World -> Prop) {A} (m : M A) (w w' : World) (o : outcome A) :
  inv I m -> I w -> m w = (o, w') -> I w'.
Proof. intros Hm Hw Hrun. specialize (Hm w Hw). now rewrite Hrun in Hm. Qed.

Lemma pulled_fetch (g : nat) (e : event) (w : World) :
  pulled g w -> pulled g (with_event e w).
Proof.
  unfold pulled, calls. cbn [with_event log filter].
  destruct (is_git e); cbn [List.length]; lia.
Qed.

Lemma git_returns (cmd : git_command) (w w' : World) :
  FirmwareManager.git env cmd w = (Ret tt, w') ->
  calls is_git w' = S (calls is_git w).
Proof.
  unfold FirmwareManager.git.
  destruct (git_run env _ cmd) as [msg|tree]; [discriminate|].
  destruct cmd; intros H; injection H as <-; reflexivity.
Qed.

(** A pass that returns has run its four git operations. *)
Lemma update_pass_pulls (w w' : World) :
  update_pass env w = (Ret tt, w') ->
  (calls is_git w + 4 <= calls is_git w')%nat.
Proof.
  unfold update_pass. intros H.
  assert (Hkeep : forall g, inv (pulled g) delete_cached_files
                            /\ (forall p, inv (pulled g) (os_rmdir p))
                            /\ inv (pulled g) (prereqcheck env)).
  { intros g. split; [|split].
    - unfold delete_cached_files. inv_split.
      + apply inv_print. intros ? ? _. apply pulled_fetch.
      + apply inv_os_remove. intros ? ? Hx. exact Hx.
      + apply inv_os_remove. intros ? ? Hx. exact Hx.
    - intros p. apply inv_os_rmdir. intros ? ? Hx. exact Hx.
    - apply inv_prereqcheck.
      + intros ? ? _. apply pulled_fetch.
      + intros ? ? Hx. exact Hx.
      + intros ? ? _ Hx. exact Hx. }
  apply bind_returns in H as ([] & wa & Ha & H).
  apply bind_returns in H as ([] & wb & Hb & H).
  apply bind_returns in H as ([] & wc & Hc & H).
  apply bind_returns in H as ([] & wd & Hd & H).
  apply bind_returns in H as ([] & we & He & H).
  apply bind_returns in H as ([] & wf & Hf & H).
  apply bind_returns in H as ([] & wg & Hg & H).
  apply bind_returns in H as ([] & wh & Hh & H).
  destruct (Hkeep (calls is_git w)) as (Kd & Kr & _).
  assert (H0 : pulled (calls is_git w) w) by (unfold pulled; lia).
  pose proof (inv_returned _ _ _ _ _ Kd H0 Ha) as H1.
  pose proof (inv_returned _ _ _ _ _ (Kr _) H1 Hb) as H2.
  pose proof (inv_returned _ _ _ _ _ (Kr _) H2 Hc) as H3.
  pose proof (inv_returned _ _ _ _ _ (Kr _) H3 Hd) as H4.
  apply git_returns in He, Hf, Hg, Hh.
  destruct (Hkeep (calls is_git w + 4)%nat) as (_ & _ & Kp).
  assert (H5 : pulled (calls is_git w + 4) wh) by (unfold pulled in *; lia).
  exact (inv_returned _ _ _ _ _ Kp H5 H).
Qed.

Lemma update_pass_keeps_choice : inv updating (update_pass env).
Proof.
  apply inv_update_pass.
  - intros e w _ H. exact H.
  - intros f w H. exact H.
  - intros f w Hf H. unfold updating in *. cbn [with_self self].
    rewrite <- H. apply Hf.
Qed.

Lemma update_loops (fuel : nat) (w : World) :
  updating w ->
  let r := flash_firmware env (choose_fw env fuel) w in
  fst r <> Ret tt
  /\ (fst r = OutOfFuel -> (calls is_git w + 4 * S fuel <= calls is_git (snd r))%nat).
Proof.
  revert w. induction fuel as [|fuel IH]; intros w Hsel; cbv zeta;
    rewrite (choice_17_runs_update env _ w Hsel), update_option_pass;
    set (w1 := with_self (set_selected (PyStr "Update all files") PyNone) w);
    (assert (Hsel1 : updating w1) by exact Hsel);
    change (calls is_git w) with (calls is_git w1);
    pose proof (plain_update_pass w1) as Hplain;
    destruct (update_pass env w1) as [o w2] eqn:Hpass; cbn [fst] in Hplain;
    destruct Hplain as [[[] ->]|[e ->]];
    try (rewrite (bind_raised _ _ _ _ _ Hpass); cbn [fst snd];
         split; [discriminate | discriminate]);
    rewrite (bind_returned _ _ _ _ _ Hpass);
    pose proof (update_pass_pulls w1 w2 Hpass) as Hcount;
    pose proof (inv_returned _ _ _ _ _ update_pass_keeps_choice Hsel1 Hpass) as Hsel2.
  - cbn [choose_fw]. unfold out_of_fuel. cbn [fst snd].
    split; [discriminate | intros _; lia].
  - rewrite (choose_fw_preselected env fuel w2 17 Hsel2).
    destruct (IH (logged (preselect_warning 17)
                    (with_self (set_fwchoicepreselect true) w2))) as [Hret Hfuel];
      [exact Hsel2|].
    split; [exact Hret|]. intros Hout. specialize (Hfuel Hout).
    rewrite calls_logged in Hfuel. cbn [preselect_warning filter is_git List.length] in Hfuel.
    change (calls is_git (with_self (set_fwchoicepreselect true) w2))
      with (calls is_git w2) in Hfuel.
    lia.
Qed.

(** X10. Choice 17 never comes back.  Once [Update all files] is the choice
    (preselected or typed), the run cannot return normally: every pass of
    [update_option] ends by calling [choose_fw], which finds the choice still
    set to 17 and updates again.  The run ends in an exception or an exit, or
    it goes on for ever, four git operations further at each level. *)
Theorem update_never_returns (fuel : nat) (args_serialport : string)
  (args_preselect : option Z) (disk : FS.t) :
  first_choice env args_preselect = Some 17 ->
  let r := EasyInstall.main env fuel args_serialport args_preselect disk in
  fst r <> Ret tt
  /\ (fst r = OutOfFuel -> (4 * fuel <= calls is_git (snd r))%nat).
Proof.
  intros Hfirst. cbv zeta. unfold EasyInstall.main.
  pose proof (plain_prereqcheck (EasyInstall.start args_serialport args_preselect disk))
    as Hplain.
  destruct (prereqcheck env (EasyInstall.start args_serialport args_preselect disk))
    as [o w1] eqn:Hrun.
  cbn [fst] in Hplain. destruct Hplain as [[[] ->]|[e ->]].
  2: { rewrite (bind_raised _ _ _ _ _ Hrun). split; discriminate. }
  rewrite (bind_returned _ _ _ _ _ Hrun).
  destruct (after_prereqcheck env _ _ _ _ Hrun) as (_ & Hsel & _ & _ & Hin).
  destruct fuel as [|fuel].
  { cbn [choose_fw]. unfold out_of_fuel. cbn [fst snd]. split; [discriminate | lia]. }
  destruct args_preselect as [c|]; cbn [first_choice] in Hfirst.
  - injection Hfirst as ->.
    rewrite (choose_fw_preselected env fuel w1 17 Hsel).
    destruct (update_loops fuel (logged (preselect_warning 17)
                (with_self (set_fwchoicepreselect true) w1))) as [Hret Hfuel];
      [exact Hsel|].
    split; [exact Hret|]. intros Hout. specialize (Hfuel Hout). lia.
  - rewrite <- Hin in Hfirst.
    rewrite (choose_fw_prompted env fuel w1 17 Hsel Hfirst).
    destruct (update_loops fuel (with_self (set_fwchoice (Some 17))
                (logged menu_prompt (with_self (set_fwchoicepreselect false) w1))))
      as [Hret Hfuel]; [reflexivity|].
    split; [exact Hret|]. intros Hout. specialize (Hfuel Hout). lia.
Qed.

End UpdateLoop.

(** ** A release download that did not finish (ESP32Flasher.checkforesp32marauder) *)

Section InterruptedDownload.

Import ESP32Flasher.
Variable env : Env.

Lemma bind_os_makedirs {B} (p : string) (k : M B) (w : World) :
  (FirmwareManager.os_makedirs env p ;; k) w
  = match FS.makedirs (FirmwareManager.now env w) (fs w) p with
    | inl e => (Raise e, w)
    | inr f => k (with_fs f w)
    end.
Proof.
  unfold bind, FirmwareManager.os_makedirs. now destruct (FS.makedirs _ (fs w) p).
Qed.

Lemma lookup_comps_map (g : FS.entry -> FS.entry) (fs : FS.t) (c : list string) :
  (forall e, FS.e_path (g e) = FS.e_path e) ->
  FS.lookup_comps (map g fs) c = option_map g (FS.lookup_comps fs c).
Proof.
  intros Hg. unfold FS.lookup_comps. induction fs as [|e fs IH]; cbn [map find]; [reflexivity|].
  rewrite Hg. now destruct (FS.comps_eqb (FS.components (FS.e_path e)) c).
Qed.

(** Writing a file removes no path. *)
Lemma write_file_keeps (now : Z) (fs f : FS.t) (p data q : string) :
  FS.write_file now fs p data = inr f ->
  FS.exists_ fs q = true -> FS.exists_ f q = true.
Proof.
  unfold FS.write_file, FS.exists_. intros Hrun.
  destruct (negb (FS.is_dir fs (removelast (FS.components p)))); [discriminate|].
  destruct (FS.components q) as [|x c]; [reflexivity|].
  destruct (FS.lookup_comps fs (x :: c)) as [e|] eqn:Hq; [intros _ | discriminate].
  destruct (FS.lookup_comps fs (FS.components p)) as [e'|].
  - destruct (FS.e_kind e'); [|discriminate]. injection Hrun as <-.
    rewrite lookup_comps_map, Hq; [reflexivity|].
    intros e0. now destruct (FS.comps_eqb _ _).
  - destruct (FS.components p); [discriminate|]. injection Hrun as <-.
    now rewrite lookup_comps_app, Hq.
Qed.

(** [os.makedirs('ESP32Marauder/releases')] goes through unless the path is
    there already or ESP32Marauder is a regular file. *)
Lemma makedirs_releases (now : Z) (fs : FS.t) :
  FS.exists_ fs releases_dir = false ->
  FS.is_file fs (FS.components "ESP32Marauder") = false ->
  exists f, FS.makedirs now fs releases_dir = inr f.
Proof.
  unfold FS.exists_, FS.makedirs, FS.is_file.
  change (FS.components releases_dir) with ["ESP32Marauder"; "releases"].
  change (FS.components "ESP32Marauder") with ["ESP32Marauder"].
  cbv iota zeta.
  destruct (FS.lookup_comps fs ["ESP32Marauder"; "releases"]) eqn:Hleaf; [discriminate|].
  intros _ Hfile. cbn [FS.ancestors map app FS.mkdir_chain].
  destruct (FS.lookup_comps fs ["ESP32Marauder"]) as [e|] eqn:Hdir.
  - destruct (FS.e_kind e); [discriminate|]. rewrite Hleaf. now eexists.
  - rewrite lookup_comps_app, Hleaf. now eexists.
Qed.

(** The part of [checkforesp32marauder] that follows [os.makedirs]. *)
Lemma checkforesp32marauder_absent (w : World) :
  FS.exists_ (fs w) releases_dir = false ->
  checkforesp32marauder env w
  = let w1 := logged [Print "Checking for Marauder releases";
                      Print "Marauder releases folder does not exist, but that's okay, downloading them now..."] w in
    match FS.makedirs (FirmwareManager.now env w1) (fs w) releases_dir with
    | inl e => (Raise e, w1)
    | inr f => download_releases env (with_fs f w1)
    end.
Proof.
  intros Hex. unfold checkforesp32marauder, print, FirmwareManager.os_path_exists.
  rewrite bind_emit, bind_gets. cbn [fs with_event].
  change "ESP32Marauder/releases" with releases_dir. rewrite Hex. cbn [negb].
  rewrite !bind_assoc, bind_emit, bind_assoc, bind_os_makedirs.
  cbv zeta. cbn [fs with_event].
  change (with_event _ (with_event (Print "Checking for Marauder releases") w))
    with (logged [Print "Checking for Marauder releases";
                  Print "Marauder releases folder does not exist, but that's okay, downloading them now..."] w).
  destruct (FS.makedirs _ (fs w) releases_dir) as [e|f]; [reflexivity|].
  reflexivity.
Qed.

Lemma fetching_event (n : nat) (e : event) (w : World) :
  fetching n w -> fetching n (with_event e w).
Proof.
  intros [Hdir Hn]. split; [exact Hdir|].
  unfold calls in *. cbn [with_event log filter].
  destruct (is_http e); cbn [List.length]; lia.
Qed.

Lemma fetching_requests_get (n : nat) (url : string) :
  inv (fetching n) (requests_get_ env url).
Proof. apply inv_requests_get. intros e w _. apply fetching_event. Qed.

Lemma fetching_write_binary (n : nat) (p data : string) :
  inv (fetching n) (write_binary env p data).
Proof.
  intros w [Hdir Hn]. unfold write_binary.
  destruct (FS.write_file _ (fs w) p data) as [e|f] eqn:Hw; cbn [snd]; [now split|].
  split; [|exact Hn]. cbn [fs with_fs]. exact (write_file_keeps _ _ _ _ _ _ Hw Hdir).
Qed.

Lemma fetching_assets (n : nat) (resp : response) :
  inv (fetching n)
    (match json_assets resp with
     | None => raise (ResponseFormatError marauderapi)
     | Some assets => for_each assets (download_asset env)
     end ;;
     v <- FirmwareManager.get_latest_firmware firmware_manager
            "ESP32Marauder/releases/esp32_marauder_v*_flipper.bin" ;;
     assign (set_esp32marauderfw v)).
Proof.
  unfold download_asset.
  inv_split;
    auto using fetching_requests_get, fetching_write_binary.
  - apply inv_get_latest_firmware. intros ? ? _. apply fetching_event.
  - apply inv_modify. intros ? H. exact H.
Qed.

(** The first request is made whatever comes of it, and nothing that
    follows takes the folder away. *)
Lemma download_releases_requests (w : World) :
  FS.exists_ (fs w) releases_dir = true ->
  fetching (S (calls is_http w)) (snd (download_releases env w)).
Proof.
  intros Hdir.
  assert (H1 : fetching (S (calls is_http w))
                 (with_event (HttpGet marauderapi) w)).
  { split; [exact Hdir|]. unfold calls. cbn [with_event log filter is_http List.length]. lia. }
  unfold download_releases. rewrite bind_assoc, bind_run. unfold requests_get_.
  destruct (requests_get env (calls is_http w) marauderapi) as [resp|].
  - apply (fetching_assets _ resp). exact H1.
  - exact H1.
Qed.

(** X11. A release download is attempted once only.  When the folder
    ESP32Marauder/releases is missing (and ESP32Marauder is not a regular
    file), [checkforesp32marauder] creates it before the first request; so
    however that attempt ends, with a failed request, a response without
    assets or an error in the middle of the files, the folder is there
    afterwards, and the next run of the method requests nothing: it returns
    after printing, with whatever the folder holds. *)
Theorem release_download_is_attempted_once (w : World) :
  FS.exists_ (fs w) releases_dir = false ->
  FS.is_file (fs w) (FS.components "ESP32Marauder") = false ->
  let r := checkforesp32marauder env w in
  FS.exists_ (fs (snd r)) releases_dir = true
  /\ (calls is_http w < calls is_http (snd r))%nat
  /\ (requests_get env (calls is_http w) marauderapi = None ->
      fst r = Raise (RequestException marauderapi))
  /\ exists w', checkforesp32marauder env (snd r) = (Ret tt, w')
                /\ printed (snd r) w'.
Proof.
  intros Hex Hfile. cbv zeta.
  rewrite (checkforesp32marauder_absent w Hex). cbv zeta.
  set (w1 := logged _ w).
  destruct (makedirs_releases (FirmwareManager.now env w1) (fs w) Hex Hfile) as [f Hmk].
  rewrite Hmk. apply makedirs_creates in Hmk as (Hthere & _ & _).
  destruct (download_releases_requests (with_fs f w1) Hthere) as [Hdir Hn].
  split; [exact Hdir|]. split; [exact Hn|]. split.
  - intros Hnone. unfold download_releases. rewrite bind_assoc, bind_run.
    unfold requests_get_.
    change (calls is_http (with_fs f w1)) with (calls is_http w).
    now rewrite Hnone.
  - destruct (calm_checkforesp32marauder env _ Hdir) as ([] & w' & Hrun & Hp).
    now exists w'.
Qed.

End InterruptedDownload.

(** ** Properties kept along the calls between [choose_fw], [flash_firmware],
    [update_option] and [checkforserialport] *)

Section EndedRules.

Variables K E : World -> Prop.
Hypothesis K_E : forall w, K w -> E w.

Lemma ended_bind {A B} (m : M A) (k : A -> M B) (w : World) :
  ended K E (m w) -> (forall a, ends K E (k a)) -> ended K E ((x <- m ;; k x) w).
Proof.
  unfold ended, bind. destruct (m w) as [[a|e| |] w']; cbn [fst snd]; auto.
  intros HK Hk. now apply Hk.
Qed.

Lemma ends_bind {A B} (m : M A) (k : A -> M B) :
  ends K E m -> (forall a, ends K E (k a)) -> ends K E (bind m k).
Proof. intros Hm Hk w HK. apply ended_bind; [now apply Hm | exact Hk]. Qed.

Lemma ends_inv {A} (m : M A) : inv K m -> ends K E m.
Proof.
  intros Hm w HK. specialize (Hm w HK). unfold ended.
  destruct (fst (m w)); auto.
Qed.

Lemma ended_E {A} (r : outcome A * World) : ended K E r -> E (snd r).
Proof. unfold ended. destruct (fst r); auto. Qed.

End EndedRules.

Section Spine.

Import ESP32Flasher.
Variable env : Env.

(** [execute_esptool_command] keeps whatever its prints, its sleeps and the
    call it makes keep. *)
Lemma inv_execute_esptool_command (I : World -> Prop) (message : string)
  (params : list pyval) :
  (forall e w, is_quiet e = true -> I w -> I (with_event e w)) ->
  (forall w, I w -> I (with_event (Esptool params) w)) ->
  inv I (execute_esptool_command env message params).
Proof.
  intros I_quiet I_call. unfold execute_esptool_command. cbv zeta.
  assert (Hemit : forall e, is_quiet e = true -> inv I (emit e)).
  { intros e He. apply inv_modify. intros w H. now apply I_quiet. }
  assert (Hcall : inv I (call_esptool env params)).
  { intros w H. unfold call_esptool. specialize (I_call w H).
    now destruct (esptool_main env _ params). }
  assert (Hrounds : forall n attempts, inv I (esptool_rounds env n attempts message params)).
  { induction n as [|n IH]; intros attempts; cbn [esptool_rounds].
    - apply inv_ret.
    - unfold print, time_sleep. inv_split; auto. }
  apply Hrounds.
Qed.

Variables K E : World -> Prop.
Hypothesis K_E : forall w, K w -> E w.
Hypothesis K_quiet : forall e w, is_quiet e = true -> K w -> K (with_event e w).
Hypothesis K_fs : forall f w, K w -> K (with_fs f w).
Hypothesis K_fw : forall f w, keeps_selection f -> K w -> K (with_self f w).
Hypothesis K_selected : forall fw board w, K w -> K (with_self (set_selected fw board) w).
Hypothesis K_flag : forall b w, K w -> K (with_self (set_fwchoicepreselect b) w).
Hypothesis K_erase : forall w, K w -> K (with_event (Esptool erase_command) w).
Hypothesis K_write :
  forall board u w,
    K w -> K (with_event (Esptool (flashparams_of (serialport (self w)) board u)) w).
Hypothesis K_check :
  forall callee, ends K E callee -> ends K E (checkforserialport env callee).
Hypothesis K_ask :
  forall w, K w -> fwchoice (self w) = None -> ended K E (ask_for_choice env w).

Lemma fetch_event_is_quiet (e : event) : is_fetch_event e = true -> is_quiet e = true.
Proof. now destruct e. Qed.

Lemma K_print (text : string) : inv K (print text).
Proof. apply inv_modify. intros w H. now apply K_quiet. Qed.

Lemma K_erase_esp32 : inv K (erase_esp32 env).
Proof. apply inv_execute_esptool_command; [exact K_quiet | exact K_erase]. Qed.

Lemma K_flashtheboard (u : unpacked) (w : World) :
  K w ->
  K (snd (flashtheboard env (eraseparams_of (serialport (self w)))
            (flashparams_of (serialport (self w)) (selectedboard (self w)) u) w)).
Proof.
  intros HK.
  set (sp := serialport (self w)). set (board := selectedboard (self w)).
  assert (Hinv : inv (fun x => K x /\ serialport (self x) = sp)
                   (flashtheboard env (eraseparams_of sp) (flashparams_of sp board u))).
  { unfold flashtheboard, erase_esp32. inv_split.
    - apply inv_execute_esptool_command.
      + intros e x He [Hx Hsp]. split; [now apply K_quiet | exact Hsp].
      + intros x [Hx Hsp]. split; [now apply K_erase | exact Hsp].
    - apply inv_execute_esptool_command.
      + intros e x He [Hx Hsp]. split; [now apply K_quiet | exact Hsp].
      + intros x [Hx Hsp]. split; [|exact Hsp]. rewrite <- Hsp. now apply K_write. }
  apply Hinv. now split.
Qed.

Lemma ends_update_option (callee : M unit) :
  ends K E callee -> ends K E (update_option env callee).
Proof.
  intros Hc w HK. rewrite update_option_pass.
  apply (ended_bind K E); [|intros _; exact Hc].
  apply (ends_inv K E K_E); [|exact HK].
  apply inv_update_pass; auto using fetch_event_is_quiet.
Qed.

Lemma ends_invalid_option : ends K E invalid_option.
Proof.
  intros w HK. unfold invalid_option, print. rewrite bind_emit.
  apply K_E. now apply K_quiet.
Qed.

Lemma ends_flash_firmware (callee : M unit) :
  ends K E callee -> ends K E (flash_firmware env callee).
Proof.
  intros Hc w HK. unfold flash_firmware. rewrite bind_gets.
  destruct (fwchoice (self w)) as [n|]; [|now apply ends_invalid_option].
  destruct (dict_get flash_options n) as [row|]; [|now apply ends_invalid_option].
  destruct (unpack9 row) as [e|u]; [now apply K_E|].
  cbn [lift]. rewrite bind_ret. unfold assign. rewrite bind_modify.
  set (w1 := with_self (set_selected (u_selectedfw u) (u_selectedboard u)) w).
  assert (HK1 : K w1) by now apply K_selected.
  destruct (n =? 16); [now apply (ends_inv K E K_E _ K_erase_esp32)|].
  destruct (n =? 17); [now apply ends_update_option|].
  destruct (n =? 18).
  { unfold print. rewrite bind_emit. apply K_E. now apply K_quiet. }
  apply (ended_bind K E); [now apply K_check|].
  intros _ w2 HK2. rewrite !bind_gets.
  pose proof (K_flashtheboard u w2 HK2) as Hf.
  unfold ended.
  destruct (fst (flashtheboard env _ _ w2)); auto.
Qed.

Lemma ends_choose_fw (fuel : nat) : ends K E (choose_fw env fuel).
Proof.
  induction fuel as [|fuel IH]; intros w HK; cbn [choose_fw].
  - now apply K_E.
  - rewrite bind_gets. destruct (fwchoice (self w)) as [n|] eqn:Hsel.
    + apply (ended_bind K E); [|intros _; now apply ends_flash_firmware].
      apply (ends_inv K E K_E); [|exact HK].
      unfold print, time_sleep, assign. inv_split; apply inv_modify; intros x Hx;
        solve [now apply K_flag | now apply K_quiet].
    + apply (ended_bind K E); [|intros _; now apply ends_flash_firmware].
      now apply K_ask.
Qed.

(** Over a whole session. *)
Lemma ends_main (fuel : nat) (args_serialport : string) (args_preselect : option Z)
  (disk : FS.t) :
  K (EasyInstall.start args_serialport args_preselect disk) ->
  E (snd (EasyInstall.main env fuel args_serialport args_preselect disk)).
Proof.
  intros H0. apply (ended_E K E K_E). unfold EasyInstall.main.
  apply (ended_bind K E); [|intros _; apply ends_choose_fw].
  apply (ends_inv K E K_E); [|exact H0].
  apply inv_prereqcheck; auto using fetch_event_is_quiet.
Qed.

End Spine.

(** ** A port given on the command line (EasyInstall.py, --serialport) *)

Section GivenPort.

Import ESP32Flasher.
Variable env : Env.
Variable sp : string.
Hypothesis sp_given : PyString.truthy sp = true.

Lemma port_given_event (e : event) (w : World) :
  is_comports e = false ->
  (forall params, e = Esptool params ->
     params = erase_command \/ exists board u, params = flashparams_of sp board u) ->
  port_given sp w -> port_given sp (with_event e w).
Proof.
  intros He Hp (Hsp & Hcom & Hcalls). split; [exact Hsp|]. split.
  - unfold calls in *. cbn [with_event log filter]. now rewrite He.
  - intros params [Hhead|Hin]; [now apply Hp | now apply Hcalls].
Qed.

Lemma port_given_quiet (e : event) (w : World) :
  is_quiet e = true -> port_given sp w -> port_given sp (with_event e w).
Proof.
  intros He. apply port_given_event; [now destruct e|].
  intros params ->. discriminate He.
Qed.

Lemma port_given_self (f : Flasher -> Flasher) (w : World) :
  serialport (f (self w)) = serialport (self w) ->
  port_given sp w -> port_given sp (with_self f w).
Proof.
  intros Hf (Hsp & Hcom & Hcalls). split; [|split]; auto.
  cbn [with_self self]. congruence.
Qed.

Lemma port_given_check (callee : M unit) :
  ends (port_given sp) (port_given sp) (checkforserialport env callee).
Proof.
  intros w HK.
  assert (Htruthy : PyString.truthy (serialport (self w)) = true)
    by (destruct HK as [-> _]; exact sp_given).
  rewrite (checkforserialport_given env callee w Htruthy).
  unfold ended. cbn [fst snd]. now apply port_given_quiet.
Qed.

Lemma port_given_ask (w : World) :
  port_given sp w -> ended (port_given sp) (port_given sp) (ask_for_choice env w).
Proof.
  intros HK. unfold ask_for_choice, assign, print.
  rewrite bind_modify, bind_emit, bind_run. unfold int_input.
  assert (H1 : port_given sp
                 (with_event (Input "Please enter the number of your choice: ")
                    (with_event (Print choices)
                       (with_self (set_fwchoicepreselect false) w)))).
  { apply port_given_event; [reflexivity | discriminate|].
    apply port_given_quiet; [reflexivity|]. now apply port_given_self. }
  destruct (operator_input env _); unfold ended; cbn [fst snd modify]; [|exact H1].
  now apply port_given_self.
Qed.

(** X12. With a port given on the command line, no session ever enumerates
    the serial ports or changes the port, and every call of esptool is the
    bare erase or a write to exactly that port, whatever the choice, the
    operator, the network and the flasher do. *)
Theorem given_port_is_the_one_flashed (fuel : nat) (args_preselect : option Z)
  (disk : FS.t) :
  let r := EasyInstall.main env fuel sp args_preselect disk in
  serialport (self (snd r)) = sp
  /\ calls is_comports (snd r) = 0%nat
  /\ forall params, In params (esptool_calls (trace (snd r))) ->
       params = erase_command
       \/ exists board u, params = flashparams_of sp board u.
Proof.
  cbv zeta.
  assert (H : port_given sp (snd (EasyInstall.main env fuel sp args_preselect disk))).
  { apply (ends_main env (port_given sp) (port_given sp)).
    - auto.
    - apply port_given_quiet.
    - intros f w H. exact H.
    - intros f w Hf. apply port_given_self. apply Hf.
    - intros fw board w. now apply port_given_self.
    - intros b w. now apply port_given_self.
    - intros w. apply port_given_event; [reflexivity|].
      intros params [= <-]. now left.
    - intros board u w HK. apply port_given_event; [reflexivity| |exact HK].
      intros params [= <-]. right. exists board, u. now destruct HK as [-> _].
    - intros callee _. apply port_given_check.
    - intros w HK _. now apply port_given_ask.
    - split; [reflexivity|]. split; [reflexivity|]. intros params []. }
  destruct H as (Hsp & Hcom & Hcalls). split; [exact Hsp|]. split; [exact Hcom|].
  intros params Hin. apply Hcalls. apply in_esptool_calls in Hin.
  unfold trace in Hin. now apply in_rev.
Qed.

End GivenPort.

(** ** How often the operator is asked (ESP32Flasher.choose_fw) *)

Section Prompts.

Import ESP32Flasher.
Variable env : Env.
Variable preselect : option Z.

Lemma asked_is_within (w : World) : asked preselect w -> asked_within preselect w.
Proof. unfold asked_within. intros [(_ & -> & _)|[_ H]]; [lia | exact H]. Qed.

Lemma asked_event (e : event) (w : World) :
  is_input e = false -> asked preselect w -> asked preselect (with_event e w).
Proof.
  intros He H. unfold asked, calls in *. cbn [with_event self log filter].
  now rewrite He.
Qed.

Lemma asked_self (f : Flasher -> Flasher) (w : World) :
  fwchoice (f (self w)) = fwchoice (self w) ->
  asked preselect w -> asked preselect (with_self f w).
Proof.
  intros Hf H. unfold asked in *. cbn [with_self self log]. now rewrite Hf.
Qed.

Lemma asked_check (callee : M unit) :
  ends (asked preselect) (asked_within preselect) callee ->
  ends (asked preselect) (asked_within preselect) (checkforserialport env callee).
Proof.
  intros Hc.
  assert (Hleaf : forall {A} (m : M A),
             inv (asked preselect) m ->
             ends (asked preselect) (asked_within preselect) m).
  { intros A m. apply ends_inv. exact asked_is_within. }
  assert (Hprint : forall text,
             ends (asked preselect) (asked_within preselect) (print text)).
  { intros text. apply Hleaf, inv_modify. intros w. now apply asked_event. }
  unfold checkforserialport, print_device_type.
  apply ends_bind; [apply Hleaf, inv_gets|]. intros port.
  destruct (PyString.truthy port); [apply Hprint|].
  apply ends_bind; [apply Hprint|]. intros _.
  apply ends_bind.
  { apply Hleaf. intros w H. now apply asked_event. }
  intros ports. destruct (scan vids ports (port, None)) as [sp' dev].
  apply ends_bind.
  { apply Hleaf, inv_modify. intros w. now apply asked_self. }
  intros _. apply ends_bind.
  - destruct (negb (PyString.truthy sp')); [|apply Hleaf, inv_ret].
    apply ends_bind; [apply Hprint|]. intros _.
    apply ends_bind; [apply Hprint|]. intros _.
    apply ends_bind; [apply Hleaf, inv_gets|]. intros [[|]|].
    + apply Hleaf, inv_exit.
    + exact Hc.
    + apply Hleaf, inv_raise.
  - intros _. destruct dev; [apply Hprint | apply Hleaf, inv_raise].
Qed.

Lemma asked_ask (w : World) :
  asked preselect w -> fwchoice (self w) = None ->
  ended (asked preselect) (asked_within preselect) (ask_for_choice env w).
Proof.
  intros [(_ & Hcalls & Hpre)|[Hsel _]] Hnone; [|contradiction].
  unfold ask_for_choice, assign, print.
  rewrite bind_modify, bind_emit, bind_run. unfold int_input.
  destruct (operator_input env _) as [n|]; unfold ended; cbn [fst snd modify].
  - right. split; [discriminate|]. subst preselect.
    unfold calls in *. cbn. rewrite Hcalls. cbn. lia.
  - subst preselect. unfold asked_within, calls in *. cbn. rewrite Hcalls. cbn. lia.
Qed.

(** X13. The operator is asked at most once, and not at all when a choice
    was preselected: in no session, however it goes on and however it ends,
    is the menu prompt read a second time. *)
Theorem operator_is_asked_at_most_once (fuel : nat) (args_serialport : string)
  (disk : FS.t) :
  (calls is_input (snd (EasyInstall.main env fuel args_serialport preselect disk))
   <= prompts_allowed preselect)%nat.
Proof.
  apply (ends_main env (asked preselect) (asked_within preselect)).
  - exact asked_is_within.
  - intros e w He. apply asked_event. now destruct e.
  - intros f w H. exact H.
  - intros f w Hf. apply asked_self. apply Hf.
  - intros fw board w. now apply asked_self.
  - intros b w. now apply asked_self.
  - intros w. now apply asked_event.
  - intros board u w. now apply asked_event.
  - exact asked_check.
  - exact asked_ask.
  - unfold asked. cbn. destruct preselect; [right|left]; repeat split; try discriminate; cbn; lia.
Qed.

End Prompts.

(** ** Sessions that flash nothing (EasyInstall.py) *)

Section QuietSessions.

Import ESP32Flasher.
Variable env : Env.

Lemma choose_fw_asks (fuel : nat) (w : World) :
  fwchoice (self w) = None ->
  choose_fw env (S fuel) w
  = (ask_for_choice env ;; flash_firmware env (choose_fw env fuel)) w.
Proof. intros H. cbn [choose_fw]. now rewrite bind_gets, H. Qed.

Lemma ask_for_choice_rejected (w : World) :
  operator_input env (calls is_input w) = None ->
  ask_for_choice env w
  = (Raise not_a_number,
     logged menu_prompt (with_self (set_fwchoicepreselect false) w)).
Proof.
  intros Hin. unfold ask_for_choice, assign, print.
  rewrite bind_modify, bind_emit, bind_run. unfold int_input.
  change (calls is_input (with_event (Print choices)
                            (with_self (set_fwchoicepreselect false) w)))
    with (calls is_input w).
  now rewrite Hin.
Qed.

Lemma flash_firmware_18 (callee : M unit) (w : World) :
  fwchoice (self w) = Some 18 ->
  flash_firmware env callee w
  = (SystemExit,
     with_event (Print "Exiting!") (with_self (set_selected (PyStr "Exit") PyNone) w)).
Proof.
  intros H. unfold flash_firmware. rewrite bind_gets, H. reflexivity.
Qed.

Lemma esptool_calls_none (events : list event) :
  Forall (fun e => is_esptool e = false) events -> esptool_calls events = [].
Proof.
  induction 1 as [|e l He _ IH]; [reflexivity|].
  unfold esptool_calls in *. cbn [flat_map]. rewrite IH.
  now destruct e.
Qed.

(** X14. An answer at the menu that [int()] rejects ends the run: once the
    prerequisite pass is through, the session prints the menu, reads the
    answer and dies of ValueError, with no choice set and the flasher never
    called. *)
Theorem answer_that_is_no_number_is_fatal (fuel : nat) (args_serialport : string)
  (disk : FS.t) :
  operator_input env 0 = None ->
  fst (prereqcheck env (EasyInstall.start args_serialport None disk)) = Ret tt ->
  let w1 := snd (prereqcheck env (EasyInstall.start args_serialport None disk)) in
  let r := EasyInstall.main env (S fuel) args_serialport None disk in
  fst r = Raise not_a_number
  /\ trace (snd r) = (trace w1 ++ menu_prompt)%list
  /\ esptool_calls (trace (snd r)) = []
  /\ fwchoice (self (snd r)) = None.
Proof.
  intros Hin Hpre. cbv zeta. unfold EasyInstall.main.
  destruct (prereqcheck env (EasyInstall.start args_serialport None disk))
    as [o w1] eqn:Hrun.
  cbn [fst snd] in *. subst o.
  destruct (after_prereqcheck env _ _ _ _ Hrun) as (_ & Hsel & Hesp & _ & Hasked).
  rewrite (bind_returned _ _ _ _ _ Hrun), (choose_fw_asks fuel w1 Hsel).
  rewrite <- Hasked in Hin.
  rewrite (bind_raised _ _ _ _ _ (ask_for_choice_rejected w1 Hin)). cbn [fst snd].
  split; [reflexivity|]. rewrite trace_logged.
  change (trace (with_self (set_fwchoicepreselect false) w1)) with (trace w1).
  split; [reflexivity|]. split; [|exact Hsel].
  now rewrite esptool_calls_app, (no_esptool_calls w1 Hesp).
Qed.

(** X15. Choice 18, preselected or typed: once the prerequisite pass is
    through, the session prints [Exiting!] and leaves through SystemExit; it
    never looks for a port and never calls the flasher. *)
Theorem exit_choice_flashes_nothing (fuel : nat) (args_serialport : string)
  (args_preselect : option Z) (disk : FS.t) :
  first_choice env args_preselect = Some 18 ->
  fst (prereqcheck env (EasyInstall.start args_serialport args_preselect disk)) = Ret tt ->
  let r := EasyInstall.main env (S fuel) args_serialport args_preselect disk in
  fst r = SystemExit
  /\ esptool_calls (trace (snd r)) = []
  /\ calls is_comports (snd r) = 0%nat
  /\ exists earlier, trace (snd r) = (earlier ++ [Print "Exiting!"])%list.
Proof.
  intros Hfirst Hpre. cbv zeta. unfold EasyInstall.main.
  destruct (prereqcheck env (EasyInstall.start args_serialport args_preselect disk))
    as [o w1] eqn:Hrun.
  cbn [fst] in Hpre. subst o.
  destruct (after_prereqcheck env _ _ _ _ Hrun) as (_ & Hsel & Hesp & Hcom & Hin).
  rewrite (bind_returned _ _ _ _ _ Hrun).
  assert (Hgo : exists w2,
             choose_fw env (S fuel) w1 = flash_firmware env (choose_fw env fuel) w2
             /\ fwchoice (self w2) = Some 18
             /\ calls is_comports w2 = 0%nat
             /\ esptool_calls (trace w2) = []).
  { destruct args_preselect as [c|]; cbn [first_choice] in Hfirst.
    - injection Hfirst as ->. eexists. split; [exact (choose_fw_preselected env fuel w1 18 Hsel)|].
      split; [exact Hsel|]. split; [now rewrite calls_logged|].
      rewrite trace_logged, esptool_calls_app.
      change (trace (with_self (set_fwchoicepreselect true) w1)) with (trace w1).
      now rewrite (no_esptool_calls w1 Hesp).
    - rewrite <- Hin in Hfirst. eexists.
      split; [exact (choose_fw_prompted env fuel w1 18 Hsel Hfirst)|].
      split; [reflexivity|].
      change (calls is_comports (with_self (set_fwchoice (Some 18))
                (logged menu_prompt (with_self (set_fwchoicepreselect false) w1))))
        with (calls is_comports (logged menu_prompt w1)).
      split; [now rewrite calls_logged|].
      change (trace (with_self (set_fwchoice (Some 18))
                (logged menu_prompt (with_self (set_fwchoicepreselect false) w1))))
        with (trace (logged menu_prompt w1)).
      rewrite trace_logged, esptool_calls_app.
      now rewrite (no_esptool_calls w1 Hesp). }
  destruct Hgo as (w2 & -> & Hsel2 & Hcom2 & Hesp2).
  rewrite (flash_firmware_18 _ w2 Hsel2). cbn [fst snd].
  split; [reflexivity|].
  change (with_event (Print "Exiting!") (with_self (set_selected (PyStr "Exit") PyNone) w2))
    with (logged [Print "Exiting!"] (with_self (set_selected (PyStr "Exit") PyNone) w2)).
  rewrite trace_logged, calls_logged, esptool_calls_app.
  change (trace (with_self (set_selected (PyStr "Exit") PyNone) w2)) with (trace w2).
  rewrite Hesp2. split; [reflexivity|]. split; [exact Hcom2|].
  now exists (trace w2).
Qed.

(** X16. A prerequisite pass that does not return ends the run then and
    there, with the exception it raised: nothing was asked, no port was
    looked for and the flasher was not called. *)
Theorem failed_prerequisites_end_the_run (fuel : nat) (args_serialport : string)
  (args_preselect : option Z) (disk : FS.t) :
  let p := prereqcheck env (EasyInstall.start args_serialport args_preselect disk) in
  let r := EasyInstall.main env fuel args_serialport args_preselect disk in
  fst p <> Ret tt ->
  (exists e, fst r = Raise e)
  /\ r = p
  /\ calls is_input (snd r) = 0%nat
  /\ calls is_comports (snd r) = 0%nat
  /\ calls is_esptool (snd r) = 0%nat.
Proof.
  cbv zeta. intros Hfail. unfold EasyInstall.main.
  set (w0 := EasyInstall.start args_serialport args_preselect disk) in *.
  pose proof (plain_prereqcheck env w0) as Hplain.
  pose proof (prereqcheck_keeps_calls env is_input w0) as Hin.
  pose proof (prereqcheck_keeps_calls env is_comports w0) as Hcom.
  pose proof (prereqcheck_keeps_calls env is_esptool w0) as Hesp.
  destruct (prereqcheck env w0) as [o w1] eqn:Hrun. cbn [fst snd] in *.
  destruct Hplain as [[[] ->]|[e ->]]; [contradiction|].
  rewrite (bind_raised _ _ _ _ _ Hrun). cbn [fst snd].
  split; [now exists e|]. split; [reflexivity|].
  split; [apply Hin; intros x Hx; now destruct x|].
  split; [apply Hcom; intros x Hx; now destruct x|].
  apply Hesp; intros x Hx; now destruct x.
Qed.

End QuietSessions.

(** ** No write without an erase that went through (ESP32Flasher.flashtheboard) *)

Section FailedErase.

Import ESP32Flasher.
Variable env : Env.

Ltac erase_round E :=
  cbn [Z.add Z.eqb Pos.eqb Pos.add Pos.succ];
  rewrite round_run, ?calls_logged;
  cbn [filter is_esptool List.length Nat.add];
  match goal with
  | |- context [match esptool_main env ?k ?p with _ => _ end] =>
      destruct (esptool_main env k p) as [|?msg|] eqn:E
  end;
  cbn [Z.add Z.eqb Pos.eqb Pos.add Pos.succ].

Ltac read_erases n :=
  cbn [fst snd]; split; [reflexivity|]; exists n; split; [lia|];
  rewrite !trace_logged, <- ?app_assoc, !esptool_calls_app; reflexivity.

(** X17. When none of the three erase attempts goes through,
    [flashtheboard] ends the process without ever calling the write: the
    only esptool calls it has made are one to three bare erases. *)
Theorem failed_erase_prevents_the_write (eraseparams flashparams : list pyval)
  (w : World) :
  (forall j, (j < 3)%nat ->
     esptool_main env (calls is_esptool w + j) erase_command <> FlashDone) ->
  let r := flashtheboard env eraseparams flashparams w in
  fst r = SystemExit
  /\ exists n, (1 <= n <= 3)%nat
       /\ esptool_calls (trace (snd r))
          = (esptool_calls (trace w) ++ repeat erase_command n)%list.
Proof.
  intros Hbad. cbv zeta.
  pose proof (Hbad 0%nat ltac:(lia)) as H0.
  pose proof (Hbad 1%nat ltac:(lia)) as H1.
  pose proof (Hbad 2%nat ltac:(lia)) as H2.
  rewrite Nat.add_0_r in H0.
  replace (calls is_esptool w + 1)%nat with (S (calls is_esptool w)) in H1 by lia.
  replace (calls is_esptool w + 2)%nat with (S (S (calls is_esptool w))) in H2 by lia.
  unfold flashtheboard, erase_esp32, execute_esptool_command.
  change [PyStr "erase_flash"] with erase_command.
  rewrite bind_run.
  erase_round E1; [contradiction | | read_erases 1%nat].
  erase_round E2; [contradiction | | read_erases 2%nat].
  erase_round E3; [contradiction | read_erases 3%nat | read_erases 3%nat].
Qed.

End FailedErase.

(** ** A fresh Evil Portal download (ESP32Flasher.checkforevilportal) *)

Section EvilPortalDownload.

Import ESP32Flasher.
Variable env : Env.

Lemma bind_write_binary {B} (p data : string) (k : M B) (w : World) :
  (write_binary env p data ;; k) w
  = match FS.write_file (FirmwareManager.now env w) (fs w) p data with
    | inl e => (Raise e, w)
    | inr f => k (with_fs f w)
    end.
Proof.
  unfold bind, write_binary. now destruct (FS.write_file _ (fs w) p data).
Qed.

Lemma bind_requests_get {B} (url : string) (k : response -> M B) (w : World) :
  (resp <- requests_get_ env url ;; k resp) w
  = match requests_get env (calls is_http w) url with
    | Some r => k r (with_event (HttpGet url) w)
    | None => (Raise (RequestException url), with_event (HttpGet url) w)
    end.
Proof.
  unfold bind, requests_get_. now destruct (requests_get env (calls is_http w) url).
Qed.

(** A directory without children holds no path below it. *)
Lemma no_children_lookup (fs : FS.t) (c d : list string) :
  FS.has_children fs c = false ->
  FS.is_prefix c d = true -> FS.comps_eqb c d = false ->
  FS.lookup_comps fs d = None.
Proof.
  unfold FS.has_children, FS.lookup_comps. intros Hnone Hpre Hneq.
  destruct (find _ fs) as [e|] eqn:Hfind; [|reflexivity].
  apply find_some in Hfind as [Hin Heq]. apply comps_eqb_eq in Heq.
  apply not_true_iff_false in Hnone. exfalso. apply Hnone.
  apply existsb_exists. exists e. split; [exact Hin|]. cbv zeta.
  now rewrite Heq, Hpre, Hneq.
Qed.

Lemma write_file_new (now : Z) (fs : FS.t) (p data : string) :
  FS.is_dir fs (removelast (FS.components p)) = true ->
  FS.lookup_comps fs (FS.components p) = None ->
  FS.components p <> [] ->
  FS.write_file now fs p data
  = inr (fs ++ [FS.mkEntry (FS.join (FS.components p)) (FS.RegularFile data) now])%list.
Proof.
  intros Hdir Hnone Hc. unfold FS.write_file. cbv zeta. rewrite Hdir, Hnone. cbn [negb].
  destruct (FS.components p); [contradiction | reflexivity].
Qed.

Lemma checkforevilportal_absent (w : World) :
  FS.exists_ (fs w) "EvilPortal" = false ->
  checkforevilportal env w
  = (FirmwareManager.os_makedirs env "EvilPortal" ;;
     downloadfile <- requests_get_ env evilportalwroomurl ;;
     write_binary env "EvilPortal/EvilPortalWROOM.bin" (content downloadfile) ;;
     downloadfile <- requests_get_ env evilportals2url ;;
     write_binary env "EvilPortal/EvilPortalS2.bin" (content downloadfile) ;;
     assign (set_evilportal (PyStr "EvilPortal/EvilPortalWROOM.bin")
                            (PyStr "EvilPortal/EvilPortalS2.bin")))
      (logged [Print "Checking for Evil portal";
               Print "Evil Portal folder not found, but that's okay, downloading it now"] w).
Proof.
  intros Hex. unfold checkforevilportal, print, FirmwareManager.os_path_exists.
  rewrite bind_emit, bind_gets. cbn [fs with_event]. rewrite Hex. cbn [negb].
  rewrite bind_assoc, bind_emit.
  change (with_event _ (with_event (Print "Checking for Evil portal") w))
    with (logged [Print "Checking for Evil portal";
                  Print "Evil Portal folder not found, but that's okay, downloading it now"] w).
  rewrite bind_assoc. apply bind_ext. intros _ w1.
  rewrite bind_assoc. apply bind_ext. intros r1 w2.
  rewrite bind_assoc. apply bind_ext. intros _ w3.
  rewrite bind_assoc. reflexivity.
Qed.

(** X18. A fresh Evil Portal download.  With no EvilPortal folder (and
    nothing below that name) and both requests answered,
    [checkforevilportal] returns after exactly two requests, in the order
    WROOM, S2; the file system has gained the folder and the two files and
    nothing else has changed; each file holds the body of its own response,
    and the two attributes name these two files. *)
Theorem evil_portal_download_lands (w : World) (wroom s2 : response) :
  FS.exists_ (fs w) "EvilPortal" = false ->
  FS.has_children (fs w) (FS.components "EvilPortal") = false ->
  requests_get env (calls is_http w) evilportalwroomurl = Some wroom ->
  requests_get env (S (calls is_http w)) evilportals2url = Some s2 ->
  let r := checkforevilportal env w in
  fst r = Ret tt
  /\ (exists t0 t1 t2,
        fs (snd r)
        = (fs w ++ evil_portal_entries (content wroom) (content s2) t0 t1 t2)%list
        /\ FS.lookup (fs (snd r)) "EvilPortal/EvilPortalWROOM.bin"
           = Some (FS.mkEntry "EvilPortal/EvilPortalWROOM.bin"
                     (FS.RegularFile (content wroom)) t1)
        /\ FS.lookup (fs (snd r)) "EvilPortal/EvilPortalS2.bin"
           = Some (FS.mkEntry "EvilPortal/EvilPortalS2.bin"
                     (FS.RegularFile (content s2)) t2))
  /\ trace (snd r)
     = (trace w
        ++ [Print "Checking for Evil portal";
            Print "Evil Portal folder not found, but that's okay, downloading it now";
            HttpGet evilportalwroomurl; HttpGet evilportals2url])%list
  /\ evilportalfwwroom (self (snd r)) = PyStr "EvilPortal/EvilPortalWROOM.bin"
  /\ evilportalfws2 (self (snd r)) = PyStr "EvilPortal/EvilPortalS2.bin".
Proof.
  intros Hex Hnone Hwroom Hs2. cbv zeta.
  change (FS.components "EvilPortal") with ["EvilPortal"] in Hnone.
  assert (Hdir : FS.lookup_comps (fs w) ["EvilPortal"] = None).
  { unfold FS.exists_ in Hex. change (FS.components "EvilPortal") with ["EvilPortal"] in Hex.
    cbv iota in Hex. now destruct (FS.lookup_comps (fs w) ["EvilPortal"]). }
  assert (Hf1 : FS.lookup_comps (fs w) ["EvilPortal"; "EvilPortalWROOM.bin"] = None)
    by (apply (no_children_lookup _ ["EvilPortal"]); [exact Hnone | reflexivity | reflexivity]).
  assert (Hf2 : FS.lookup_comps (fs w) ["EvilPortal"; "EvilPortalS2.bin"] = None)
    by (apply (no_children_lookup _ ["EvilPortal"]); [exact Hnone | reflexivity | reflexivity]).
  assert (Hmk : forall t, FS.makedirs t (fs w) "EvilPortal"
                          = inr (fs w ++ [FS.mkEntry "EvilPortal" FS.Directory t])%list).
  { intros t. unfold FS.makedirs. change (FS.components "EvilPortal") with ["EvilPortal"].
    cbv iota zeta. rewrite Hdir. cbn [FS.ancestors app FS.mkdir_chain]. now rewrite Hdir. }
  assert (Hw1 : forall t0 t data,
             FS.write_file t (fs w ++ [FS.mkEntry "EvilPortal" FS.Directory t0])%list
               "EvilPortal/EvilPortalWROOM.bin" data
             = inr ((fs w ++ [FS.mkEntry "EvilPortal" FS.Directory t0])
                    ++ [FS.mkEntry "EvilPortal/EvilPortalWROOM.bin"
                          (FS.RegularFile data) t])%list).
  { intros t0 t data. apply write_file_new.
    - change (FS.components "EvilPortal/EvilPortalWROOM.bin")
        with ["EvilPortal"; "EvilPortalWROOM.bin"].
      cbn [removelast]. unfold FS.is_dir. now rewrite lookup_comps_app, Hdir.
    - change (FS.components "EvilPortal/EvilPortalWROOM.bin")
        with ["EvilPortal"; "EvilPortalWROOM.bin"].
      now rewrite lookup_comps_app, Hf1.
    - discriminate. }
  assert (Hw2 : forall t0 t1 t data1 data,
             FS.write_file t
               ((fs w ++ [FS.mkEntry "EvilPortal" FS.Directory t0])
                ++ [FS.mkEntry "EvilPortal/EvilPortalWROOM.bin"
                      (FS.RegularFile data1) t1])%list
               "EvilPortal/EvilPortalS2.bin" data
             = inr (((fs w ++ [FS.mkEntry "EvilPortal" FS.Directory t0])
                     ++ [FS.mkEntry "EvilPortal/EvilPortalWROOM.bin"
                           (FS.RegularFile data1) t1])
                    ++ [FS.mkEntry "EvilPortal/EvilPortalS2.bin"
                          (FS.RegularFile data) t])%list).
  { intros t0 t1 t data1 data. apply write_file_new.
    - change (FS.components "EvilPortal/EvilPortalS2.bin")
        with ["EvilPortal"; "EvilPortalS2.bin"].
      cbn [removelast]. unfold FS.is_dir. now rewrite !lookup_comps_app, Hdir.
    - change (FS.components "EvilPortal/EvilPortalS2.bin")
        with ["EvilPortal"; "EvilPortalS2.bin"].
      now rewrite !lookup_comps_app, Hf2.
    - discriminate. }
  rewrite (checkforevilportal_absent w Hex).
  set (w1 := logged _ w).
  rewrite bind_os_makedirs. change (fs w1) with (fs w). rewrite Hmk.
  rewrite bind_requests_get.
  change (calls is_http (with_fs _ w1)) with (calls is_http w). rewrite Hwroom.
  rewrite bind_write_binary. cbn [fs with_fs with_event]. rewrite Hw1.
  rewrite bind_requests_get.
  change (calls is_http (with_fs _ (with_event (HttpGet evilportalwroomurl) (with_fs _ w1))))
    with (S (calls is_http w)).
  rewrite Hs2.
  rewrite bind_write_binary. cbn [fs with_fs with_event]. rewrite Hw2.
  unfold assign, modify. cbn [fst snd].
  split; [reflexivity|]. split.
  - eexists _, _, _. cbn [fs with_self with_fs with_event].
    split; [unfold evil_portal_entries; now rewrite <- !app_assoc|].
    unfold FS.lookup.
    change (FS.components "EvilPortal/EvilPortalWROOM.bin")
      with ["EvilPortal"; "EvilPortalWROOM.bin"].
    change (FS.components "EvilPortal/EvilPortalS2.bin")
      with ["EvilPortal"; "EvilPortalS2.bin"].
    rewrite !lookup_comps_app, Hf1, Hf2. split; reflexivity.
  - split; [|split; reflexivity].
    unfold trace. cbn [log with_self with_fs with_event w1 logged].
    cbn [rev app]. now rewrite <- !app_assoc.
Qed.

End EvilPortalDownload.

(** ** Instances of the further properties *)

Lemma check_and_download_clones_once_witness :
  let env := mirrored [FS.mkEntry "README.md" (FS.RegularFile "bins") 1] [] in
  let fm := ESP32Flasher.firmware_manager in
  let w := EasyInstall.start EmptyString None [] in
  let r := FirmwareManager.check_and_download env fm w in
  FS.exists_ (fs w) (FirmwareManager.local_dir fm) = false
  /\ fst r = Ret tt
  /\ trace (snd r)
     = [Print "Extra_ESP32_Bins folder does not exist, downloading now...";
        Git (GitClone "https://github.com/UberGuidoZ/Marauder_BINs.git" "Extra_ESP32_Bins")]
  /\ FirmwareManager.check_and_download env fm (snd r)
     = (Ret tt, with_event (Print "Extra_ESP32_Bins folder exists!") (snd r)).
Proof.
  cbv zeta.
  destruct (check_and_download_clones_once
              (mirrored [FS.mkEntry "README.md" (FS.RegularFile "bins") 1] [])
              ESP32Flasher.firmware_manager
              (EasyInstall.start EmptyString None [])) as (_ & H2 & H3).
  split; [reflexivity|]. split; [reflexivity|].
  split; [exact (H2 eq_refl eq_refl) | exact (H3 eq_refl)].
Defined.

Lemma execute_esptool_command_is_bounded_witness :
  let env := offline third_time_lucky [] 16 in
  let w := EasyInstall.start "/dev/ttyUSB0" (Some 16) cached_disk in
  let r := ESP32Flasher.execute_esptool_command env "Erasing firmware..." erase_command w in
  fst r = Ret tt
  /\ calls is_esptool (snd r) = 3%nat
  /\ esptool_main env 2 erase_command = FlashDone.
Proof.
  cbv zeta.
  destruct (execute_esptool_command_is_bounded (offline third_time_lucky [] 16)
              "Erasing firmware..." erase_command
              (EasyInstall.start "/dev/ttyUSB0" (Some 16) cached_disk))
    as (_ & _ & H & _).
  split; [reflexivity|]. split; [reflexivity|]. exact (H eq_refl).
Defined.

Lemma discovery_finds_a_known_device_witness :
  let env := offline always_done three_devices 1 in
  let w := EasyInstall.start EmptyString (Some 1) cached_disk in
  exists v p,
    In v ESP32Flasher.vids /\ In p three_devices /\ matches v p = true
    /\ fst (ESP32Flasher.checkforserialport env (ESP32Flasher.choose_fw env 1) w) = Ret tt
    /\ serialport
         (self (snd (ESP32Flasher.checkforserialport env (ESP32Flasher.choose_fw env 1) w)))
       = device p.
Proof.
  cbv zeta.
  destruct (discovery_finds_a_known_device (offline always_done three_devices 1)
              (ESP32Flasher.choose_fw (offline always_done three_devices 1) 1)
              (EasyInstall.start EmptyString (Some 1) cached_disk))
    as (v & p & Hv & Hp & Hm & Hrun & _).
  - reflexivity.
  - exists "303A", (mkPort "/dev/ttyACM0" "USB VID:PID=303A:1001 SER=7C:DF:A1 LOCATION=1-1").
    split; [now left|]. split; [now left | reflexivity].
  - intros p [<-|[<-|[<-|[]]]]; reflexivity.
  - exists v, p. split; [exact Hv|]. split; [exact Hp|]. split; [exact Hm|].
    rewrite Hrun. split; reflexivity.
Defined.

Lemma late_device_ends_in_unbound_local_witness :
  let env := plugged_in_late three_devices in
  let w := with_self (set_fwchoice (Some 1))
             (with_self (set_fwchoicepreselect false)
                (EasyInstall.start EmptyString None cached_disk)) in
  let r := ESP32Flasher.checkforserialport env (ESP32Flasher.choose_fw env 1) w in
  fst r = Raise (UnboundLocalError "device")
  /\ List.length (esptool_calls (trace (snd r))) = 2%nat.
Proof.
  cbv zeta.
  rewrite (late_device_ends_in_unbound_local (plugged_in_late three_devices) 0
            (with_self (set_fwchoice (Some 1))
               (with_self (set_fwchoicepreselect false)
                  (EasyInstall.start EmptyString None cached_disk)))
            (snd (ESP32Flasher.flash_firmware (plugged_in_late three_devices)
                    (ESP32Flasher.choose_fw (plugged_in_late three_devices) 0)
                    (logged (not_found_events ++ preselect_warning 1)
                       (with_self (set_fwchoicepreselect true)
                          (with_self (set_serialport EmptyString)
                             (with_self (set_fwchoice (Some 1))
                                (with_self (set_fwchoicepreselect false)
                                   (EasyInstall.start EmptyString None cached_disk))))))))
            1).
  - split; vm_compute; reflexivity.
  - reflexivity.
  - intros v q _ [].
  - reflexivity.
  - reflexivity.
  - vm_compute. reflexivity.
Defined.

Lemma erase_only_session_witness :
  let env := offline always_done [] 16 in
  let r := EasyInstall.main env 1 "/dev/ttyUSB0" (Some 16) cached_disk in
  fst r = Ret tt
  /\ esptool_calls (trace (snd r)) = [erase_command]
  /\ calls is_comports (snd r) = 0%nat.
Proof.
  cbv zeta.
  apply (erase_only_session (offline always_done [] 16) 0 "/dev/ttyUSB0" cached_disk).
  - vm_compute. reflexivity.
  - reflexivity.
Defined.

Lemma flash_session_erases_then_writes_witness :
  let env := offline always_done [] 3 in
  let r := EasyInstall.main env 1 "/dev/ttyUSB0" (Some 3) cached_disk in
  fst r = Ret tt
  /\ List.length (esptool_calls (trace (snd r))) = 2%nat
  /\ calls is_comports (snd r) = 0%nat.
Proof.
  cbv zeta.
  destruct (flash_session_erases_then_writes (offline always_done [] 3) 0
              "/dev/ttyUSB0" cached_disk 3 _ _ eq_refl eq_refl eq_refl)
    as (H1 & H2 & H3).
  - lia.
  - lia.
  - lia.
  - vm_compute. reflexivity.
  - reflexivity.
  - reflexivity.
  - split; [exact H1|]. split; [now rewrite H2 | exact H3].
Defined.

Lemma prereqcheck_with_cache_folders_witness :
  let env := offline always_done [] 1 in
  let w := EasyInstall.start EmptyString None
             [ FS.mkEntry "Extra_ESP32_Bins" FS.Directory 1;
               FS.mkEntry "ESP32Marauder" FS.Directory 2;
               FS.mkEntry "ESP32Marauder/releases" FS.Directory 2;
               FS.mkEntry "EvilPortal" FS.Directory 4 ] in
  let r := ESP32Flasher.prereqcheck env w in
  fst r = Ret tt
  /\ fs (snd r) = fs w
  /\ calls is_http (snd r) = 0%nat
  /\ FS.exists_ (fs (snd r)) "EvilPortal/EvilPortalWROOM.bin" = false
  /\ evilportalfwwroom (self (snd r)) = PyStr "EvilPortal/EvilPortalWROOM.bin".
Proof.
  cbv zeta.
  destruct (prereqcheck_with_cache_folders (offline always_done [] 1)
              (EasyInstall.start EmptyString None
                 [ FS.mkEntry "Extra_ESP32_Bins" FS.Directory 1;
                   FS.mkEntry "ESP32Marauder" FS.Directory 2;
                   FS.mkEntry "ESP32Marauder/releases" FS.Directory 2;
                   FS.mkEntry "EvilPortal" FS.Directory 4 ])
              eq_refl eq_refl eq_refl) as (H1 & H2 & H3 & _ & H5 & _).
  split; [exact H1|]. split; [exact H2|]. split; [exact H3|].
  split; [rewrite H2; reflexivity | exact H5].
Defined.

Lemma update_never_returns_witness :
  let env := mirrored [] [] in
  let r := EasyInstall.main env 2 EmptyString (Some 17) cached_disk in
  fst r = OutOfFuel
  /\ (8 <= calls is_git (snd r))%nat.
Proof.
  cbv zeta.
  destruct (update_never_returns (mirrored [] []) 2 EmptyString (Some 17) cached_disk
              eq_refl) as (_ & H).
  assert (Hout : fst (EasyInstall.main (mirrored [] []) 2 EmptyString (Some 17) cached_disk)
                 = OutOfFuel) by (vm_compute; reflexivity).
  split; [exact Hout | exact (H Hout)].
Defined.

Lemma release_download_is_attempted_once_witness :
  let env := offline always_done [] 1 in
  let w := EasyInstall.start EmptyString None disk_without_releases in
  let r := ESP32Flasher.checkforesp32marauder env w in
  fst r = Raise (RequestException marauderapi)
  /\ FS.exists_ (fs (snd r)) releases_dir = true
  /\ exists w', ESP32Flasher.checkforesp32marauder env (snd r) = (Ret tt, w')
                /\ printed (snd r) w'.
Proof.
  cbv zeta.
  destruct (release_download_is_attempted_once (offline always_done [] 1)
              (EasyInstall.start EmptyString None disk_without_releases)
              eq_refl eq_refl) as (H1 & _ & H3 & H4).
  split; [exact (H3 eq_refl)|]. split; [exact H1 | exact H4].
Defined.

Lemma given_port_is_the_one_flashed_witness :
  let env := offline always_done [] 1 in
  let r := EasyInstall.main env 3 "/dev/ttyUSB0" (Some 1) cached_disk in
  serialport (self (snd r)) = "/dev/ttyUSB0"
  /\ calls is_comports (snd r) = 0%nat
  /\ forall params, In params (esptool_calls (trace (snd r))) ->
       params = erase_command
       \/ exists board u, params = ESP32Flasher.flashparams_of "/dev/ttyUSB0" board u.
Proof.
  cbv zeta.
  apply (given_port_is_the_one_flashed (offline always_done [] 1) "/dev/ttyUSB0"
           eq_refl 3 (Some 1) cached_disk).
Defined.

Lemma answer_that_is_no_number_is_fatal_witness :
  let r := EasyInstall.main typing_text 1 "/dev/ttyUSB0" None cached_disk in
  fst r = Raise not_a_number
  /\ esptool_calls (trace (snd r)) = []
  /\ fwchoice (self (snd r)) = None.
Proof.
  cbv zeta.
  destruct (answer_that_is_no_number_is_fatal typing_text 0 "/dev/ttyUSB0" cached_disk)
    as (H1 & _ & H3 & H4).
  - reflexivity.
  - vm_compute. reflexivity.
  - split; [exact H1|]. split; [exact H3 | exact H4].
Defined.

Lemma exit_choice_flashes_nothing_witness :
  let env := offline always_done three_devices 18 in
  let r := EasyInstall.main env 1 EmptyString None cached_disk in
  fst r = SystemExit
  /\ esptool_calls (trace (snd r)) = []
  /\ calls is_comports (snd r) = 0%nat.
Proof.
  cbv zeta.
  destruct (exit_choice_flashes_nothing (offline always_done three_devices 18) 0
              EmptyString None cached_disk) as (H1 & H2 & H3 & _).
  - reflexivity.
  - vm_compute. reflexivity.
  - split; [exact H1|]. split; [exact H2 | exact H3].
Defined.

Lemma failed_prerequisites_end_the_run_witness :
  let env := offline always_done [] 1 in
  let r := EasyInstall.main env 3 "/dev/ttyUSB0" (Some 1) [] in
  fst r = Raise (GitError "no network")
  /\ calls is_esptool (snd r) = 0%nat.
Proof.
  cbv zeta.
  destruct (failed_prerequisites_end_the_run (offline always_done [] 1) 3
              "/dev/ttyUSB0" (Some 1) []) as (_ & H2 & _ & _ & H5).
  - vm_compute. discriminate.
  - split; [rewrite H2; vm_compute; reflexivity | exact H5].
Defined.

Lemma failed_erase_prevents_the_write_witness :
  let env := offline never_works [] 1 in
  let w := EasyInstall.start "/dev/ttyUSB0" (Some 1) cached_disk in
  let r := ESP32Flasher.flashtheboard env
             (ESP32Flasher.eraseparams_of "/dev/ttyUSB0")
             [PyStr "write_flash"] w in
  fst r = SystemExit
  /\ exists n, (1 <= n <= 3)%nat
       /\ esptool_calls (trace (snd r)) = repeat erase_command n.
Proof.
  cbv zeta.
  apply (failed_erase_prevents_the_write (offline never_works [] 1)
           (ESP32Flasher.eraseparams_of "/dev/ttyUSB0") [PyStr "write_flash"]
           (EasyInstall.start "/dev/ttyUSB0" (Some 1) cached_disk)).
  intros j _. discriminate.
Defined.

Lemma evil_portal_download_lands_witness :
  let env := mirrored [] [] in
  let w := EasyInstall.start EmptyString None [] in
  let r := ESP32Flasher.checkforevilportal env w in
  fst r = Ret tt
  /\ evilportalfws2 (self (snd r)) = PyStr "EvilPortal/EvilPortalS2.bin"
  /\ exists t0 t1 t2, fs (snd r) = evil_portal_entries "image" "image" t0 t1 t2.
Proof.
  cbv zeta.
  destruct (evil_portal_download_lands (mirrored [] [])
              (EasyInstall.start EmptyString None [])
              (mkResponse "image" (Some [])) (mkResponse "image" (Some []))
              eq_refl eq_refl eq_refl eq_refl)
    as (H1 & (t0 & t1 & t2 & Hfs & _) & _ & _ & H5).
  split; [exact H1|]. split; [exact H5|]. exists t0, t1, t2. exact Hfs.
Defined.
